(* ===== verification/_CoqProject ===== *)
-Q . S2P
Prelude.v
PyStr.v
PyVal.v
Utf8.v
Base64.v
Percent.v
PyRegex.v
Codec.v
Normalize.v
Aggregator.v
Merger.v
MergerHeap.v
Template.v
Main.v
