(* ===== verification/Prelude.v ===== *)
(** * A verified model of freefq.py, the subscription-to-Clash converter

    The program (src/freefq.py, one Python file) fetches proxy
    subscriptions, decodes every proxy URI in them (vmess, ss, ssr),
    normalises each decoded record into a Clash proxy record, and merges
    the records and their names into a Clash configuration template.
    Data flows: [get_proxies] (fetch, classify, dispatch each line) ->
    [decode_*_node] (URI to dict) -> [*_to_clash] (dict to Clash record)
    -> [add_proxies_to_model] (merge into the template from
    [get_default_config]) -> [save_config] (write the output file).

    Files, in dependency order, and what they model:
    - [Prelude.v] (this file): the exception type [exn] (one constructor
      per Python exception the code can raise, plus [SystemExit] for
      [sys.exit()]), the result monad [res] with the notation
      [x <- m ;; k] in [py_scope], string literals [lit], the shared loop
      combinators ([res_concat_map] for a loop that appends, [res_fold]
      for a loop that updates, [res_list_map] for a comprehension), the
      development's tactics ([res_break], [zcase], [zlia], [pow_lit],
      [decide_closed]) and the generic lemmas on them.
    - [PyStr.v]: [str]/[bytes] as [list Z] and the methods the code
      calls (find, slicing, split, strip, isspace, startswith,
      bytes.splitlines, int()).
    - [PyVal.v]: Python values ([pyval]); a dict is an insertion-ordered
      association list; get, item get/set/del, truthiness, the
      None-deleting loop [drop_none]; the [feed] record (the code's
      [{'proxy_list': [...], 'proxy_names': [...]}]).
    - Library behaviour the code depends on, modelled from CPython:
      [Utf8.v] (bytes.decode('utf-8'), strict and 'replace', as a byte
      automaton with CPython's maximal-subpart errors), [Base64.v]
      (binascii.a2b_base64 in non-strict mode, b64decode,
      urlsafe_b64decode, and the program's [safe_decode], lines 34-43),
      [Percent.v] (urllib.parse.unquote), [PyRegex.v] (re.match for the
      three patterns of decode_ss_node, by sre's backtracking order).
    - [Codec.v] (Module [Codec]): [decode_v2ray_node],
      [decode_ss_node], [decode_ssr_node] (lines 46-148), each a
      [res_concat_map] over a per-line body ([v2ray_node], [ss_node],
      [ssr_node]) split into the code's steps ([ss_fragment],
      [ss_plugin], [ss_userinfo], [ssr_info], [ssr_param]).
    - [Normalize.v] (Module [Normalize]): [v2ray_to_clash],
      [ss_to_clash], [ssr_to_clash] (lines 222-330), the loop [collect]
      around per-item bodies that build the dict literal in source order,
      delete None values and apply the emit condition.
    - [Aggregator.v] (Module [Aggregator]): [get_proxies] (lines
      151-219): [url_step] per URL, the YAML branch ([yaml_branch],
      [yaml_node]) and the line loop [lines_loop], whose [clash_node]
      variable is an explicit [option feed] state ([None] is its initial
      value [[]]).
    - [Merger.v] (Module [Merger]): [add_proxies_to_model] (lines
      367-383) on values and its contract [merge_spec].
    - [MergerHeap.v] (Module [MergerHeap]): the same function on Python
      objects: a store of list and dict objects addressed by location,
      values that are scalars or references, the object operations the
      merge performs (get, item assignment, iteration, extend) in a
      state-and-error monad [hst], [halloc] for the objects a parser or
      a literal creates and [hread] to read objects back as values.
    - [Template.v] (Module [Template]): [load_local_config],
      [get_default_config] (lines 333-364) and [pipeline], the
      [__main__] block up to [save_config].
    - [Main.v] (Module [Main]): the machine the program runs on, a
      [world] record of files (a stdpp [gmap] from paths to bytes),
      directories and printed lines, and the actions on it as a
      state-and-error monad [io] ([MRet]/[MBind] instances); [log],
      [save_to_file], [save_config] (lines 18-31, 386-396) and [main],
      the whole [__main__] block (lines 400-420), which reads the
      template from the world's files through [Template.pipeline].

    Effects.  Every exception is a value of [exn]; a fallible step
    returns [res A]; the loops stop at the first exception as the Python
    does (the decode loops catch nothing; the only handlers are the
    [except Exception] around the subscription's base64 test and the
    [except RequestException] of the template download).  Dicts and
    lists are values everywhere but in [MergerHeap].  The program
    mutates objects in place, and it creates sharing: the feed's lists
    are stored into the template by [add_proxies_to_model] (every group
    without a member list receives the one list [data['proxy_names']],
    C36), and the stale [clash_node] appends the same record objects
    twice.  Value semantics agree with the program as long as no shared
    object is mutated afterwards: the records are never mutated, and
    [MergerHeap] proves that the single merge the program performs reads
    back exactly as its value model (C13); a second merge on the same
    template would append its names once per sharing group, which the
    value model does not show (a computed example in [MergerHeap]).
    YAML anchors in the documents the program loads are not represented.
    The
    network ([requests.get]), [yaml.load], [json.loads] and file reading
    enter as section variables, so every theorem holds for any behaviour
    of them.

    What the theorems show (claim numbers in the doc comments):
    - refinement: the whole pipeline produces [merge_spec] of the
      collected feed and the local template (C1); the merge is its
      contract on well-formed templates (add_proxies_spec) with the
      consequences C2, C3, C11, C12; on Python objects, the single call
      the program makes reads back exactly as the value model (C13) and
      leaves every group without a member list holding the feed's own
      name list (C36); the line loop computes the intended
      concatenation when every line is a proxy link (C4);
    - round trips: decoding the ss (SIP002 and legacy), ssr and vmess
      links built from given fields gives the fields back (C5-C7, C30);
      [safe_decode] inverts base64 in both encodings (C8); [unquote]
      inverts [quote]; UTF-8 decoding inverts encoding;
    - invariants of the normalisers (aligned lists, well-formed records:
      C9, C10) and of the YAML node update (C19), which also moves the
      ClashR parameters to their new keys (C31); the whole feed of
      [get_proxies] is a list of dicts aligned with its names (C35);
    - equivalence: the URLs of the list are independent, [get_proxies]
      on [u1;...;un] is the concatenation of its runs on each URL (C39);
    - composition (liveness): a base64 subscription of well-formed ss
      links goes through base64, [splitlines], the ss decoder and the ss
      normaliser to the records of all its links (C37), and a Clash YAML
      subscription of dict nodes to all its nodes, normalised (C40);
    - the program's effects: it writes no file but its output file
      (C32), on the inputs of C1 it writes the merged configuration and
      prints the template's path as the exported file (C33), and a
      missing output directory makes it fail after all the network work
      with no file or directory changed (C34), and a missing local template makes it
      exit even when the remote one was downloaded (C38);
    - the decoders' skip paths and bounds: a blank link and an ssr body
      without six fields are skipped (C27, C28), and no decoder emits
      more than one record per line (C26); the normalisers' filters
      (C17, C18) and their treatment of blank names (C24);
    - the code's defects, as theorems with a concrete witness: the stale
      [clash_node] duplicating records (C14), the TypeError on an
      unrecognised first line, which a YAML subscription can trigger
      (C15), the discarded remote template (C16), and the inputs that
      raise instead of being skipped (C20-C23, C25), among them an
      unpadded vmess link, which the spec says is decoded (C29).

    Bounds and fuel.  [py_split] runs [split_fuel] with [length s + 1]
    rounds, which is enough because each round consumes at least one
    character ([py_split_eq] proves the fuel never runs out); every other
    loop is structural recursion.  [MergerHeap.hread] follows at most
    [n] references; C13 shows that some [n] reads the whole template
    (the proof takes the height of the tree, and a larger [n] reads the
    same, [hread_mono]).  Integers are unbounded Python ints;
    bytes are [Z] values in [0, 256) where a theorem needs it
    ([is_byte]).

    Not modelled: the HTTP client, [yaml.load], [yaml.dump] and
    [json.loads], which are libraries the code only calls (they enter as
    section variables); the [log] calls inside the pure functions, which
    only print and on which no value the program computes depends:
    recording them would put a trace (a writer monad) on the result of
    every decoder, normaliser and loop, for output no theorem is about
    (the [log] of [save_config] and the final [print] are in
    [Main.stdout]); the [config] module, which is not part of the
    repository and supplies [BASE_DIR] (a section variable, as is the
    date of [datetime.now()]); and floats (no value the model handles is
    one).  The store of [MergerHeap] holds the lists and dicts the
    merge touches; the console, the files and the other functions keep
    value semantics. *)

From stdpp Require Export base list options decidable.
From Stdlib Require Export ZArith Lia.
From Stdlib Require String Ascii.
Export String.StringSyntax.

Declare Scope py_scope.
Delimit Scope py_scope with py.

(** ** Python exceptions *)

Inductive exn :=
| ValueError | TypeError | KeyError | IndexError | AttributeError
| BinasciiError          (** [binascii.Error], a subclass of ValueError *)
| UnicodeDecodeError
| JSONDecodeError | YAMLError
| RequestException | FileNotFoundError | SystemExit.

#[export] Instance exn_eq_dec : EqDecision exn.
Proof. solve_decision. Defined.

Inductive res (A : Type) : Type :=
| Ok (a : A)
| Raise (e : exn).
Arguments Ok {A} a.
Arguments Raise {A} e.

Notation "x <- m ;; k" :=
  (match m with Ok x => k | Raise e => Raise e end)
  (at level 100, m at next level, right associativity) : py_scope.
Open Scope py_scope.

Definition res_map {A B} (f : A -> B) (m : res A) : res B :=
  x <- m ;; Ok (f x).

Definition is_ok {A} (m : res A) : bool :=
  match m with Ok _ => true | Raise _ => false end.

(** A Python [for] loop whose body may raise and appends zero or more
    outputs per element: the loop stops at the first exception. *)
Fixpoint res_concat_map {A B} (f : A -> res (list B)) (l : list A)
  : res (list B) :=
  match l with
  | [] => Ok []
  | x :: r => ys <- f x ;; zs <- res_concat_map f r ;; Ok (ys ++ zs)
  end.

(** Indexing a list as Python does with a non-negative index. *)
Definition py_index {A} (l : list A) (i : nat) : res A :=
  match l !! i with Some x => Ok x | None => Raise IndexError end.

(** ** String literals as lists of code points *)

Definition lit (s : String.string) : list Z :=
  map (fun a => Z.of_N (Ascii.N_of_ascii a)) (String.list_ascii_of_string s).
Arguments lit s%_string_scope.

(** ** Tactics *)

Create HintDb pyfq discriminated.
Create Rewrite HintDb pysimpl.

(** Invert equalities between [res] values. *)
Ltac res_inv :=
  repeat match goal with
  | H : Ok _ = Ok _ |- _ => injection H as H; subst
  | H : Raise _ = Ok _ |- _ => discriminate H
  | H : Ok _ = Raise _ |- _ => discriminate H
  | H : Raise _ = Raise _ |- _ => injection H as H; subst
  end.

(** Case on the first [res]-valued scrutinee of the goal. *)
Ltac res_case :=
  match goal with
  | |- context [match ?m with Ok _ => _ | Raise _ => _ end] =>
      let E := fresh "E" in destruct m eqn:E
  end.

(** ** Generic lemmas *)

Section Loops.
Context {A B : Type} (f : A -> res (list B)).

Lemma res_concat_map_app l1 l2 :
  res_concat_map f (l1 ++ l2) =
  (ys <- res_concat_map f l1 ;; zs <- res_concat_map f l2 ;; Ok (ys ++ zs)).
Proof.
  induction l1 as [|x l1 IH]; simpl.
  - destruct (res_concat_map f l2); reflexivity.
  - destruct (f x); [|reflexivity]. rewrite IH.
    destruct (res_concat_map f l1); [|reflexivity].
    destruct (res_concat_map f l2); [|reflexivity].
    by rewrite app_assoc.
Qed.

(** Every output comes from one element of the input. *)
Lemma res_concat_map_In l ys y :
  res_concat_map f l = Ok ys -> y ∈ ys ->
  exists x zs, x ∈ l /\ f x = Ok zs /\ y ∈ zs.
Proof.
  revert ys. induction l as [|x l IH]; simpl; intros ys Hl Hy.
  - res_inv. by apply elem_of_nil in Hy.
  - destruct (f x) as [zs|] eqn:Ef; [|discriminate].
    destruct (res_concat_map f l) as [ws|] eqn:Er; [|discriminate].
    res_inv. apply elem_of_app in Hy as [Hy|Hy].
    + exists x, zs. split; [by left|done].
    + destruct (IH ws eq_refl Hy) as (x' & zs' & ? & ? & ?).
      exists x', zs'. split; [by right|done].
Qed.

(** A loop whose body emits at most one output per element. *)
Lemma res_concat_map_length_le l ys :
  (forall x zs, f x = Ok zs -> length zs <= 1)%nat ->
  res_concat_map f l = Ok ys -> (length ys <= length l)%nat.
Proof.
  intros Hf. revert ys. induction l as [|x l IH]; simpl; intros ys Hl.
  - by res_inv.
  - destruct (f x) as [zs|] eqn:Ef; [|discriminate].
    destruct (res_concat_map f l) as [ws|] eqn:Er; [|discriminate].
    res_inv. rewrite length_app. specialize (Hf _ _ Ef).
    specialize (IH _ eq_refl). lia.
Qed.
End Loops.

(** Checking a boolean property on every integer of [0, n) by
    computation proves it on the whole range. *)
Lemma range_check (P : Z -> bool) (n : nat) :
  forallb P (map Z.of_nat (seq 0 n)) = true ->
  forall x, (0 <= x < Z.of_nat n)%Z -> P x = true.
Proof.
  intros H x Hx. rewrite forallb_forall in H. apply H.
  apply in_map_iff. exists (Z.to_nat x). split; [lia|].
  apply in_seq. lia.
Qed.

(** [[f(x) for x in l]] where [f] may raise. *)
Fixpoint res_list_map {A B} (f : A -> res B) (l : list A) : res (list B) :=
  match l with
  | [] => Ok []
  | x :: r => y <- f x ;; ys <- res_list_map f r ;; Ok (y :: ys)
  end.

Lemma res_list_map_Ok {A B} (f : A -> res B) l :
  (forall x, x ∈ l -> exists y, f x = Ok y) ->
  exists ys, res_list_map f l = Ok ys /\ Forall2 (fun x y => f x = Ok y) l ys.
Proof.
  induction l as [|x l IH]; intros Hf; simpl; [by eexists; split|].
  destruct (Hf x) as [y Hy]; [by left|]. rewrite Hy.
  destruct IH as [ys [-> Hys]]; [intros z Hz; apply Hf; by right|].
  eexists; split; [done|]. by constructor.
Qed.

Lemma res_list_map_pure {A B} (f : A -> res B) (g : A -> B) l :
  (forall x, x ∈ l -> f x = Ok (g x)) -> res_list_map f l = Ok (map g l).
Proof.
  induction l as [|x l IH]; intros Hf; simpl; [done|].
  rewrite Hf by (by left). rewrite IH; [done|]. intros y Hy. apply Hf. by right.
Qed.

(** A Python [for] loop that updates one value and may raise. *)
Fixpoint res_fold {A B} (f : A -> B -> res A) (a : A) (l : list B) : res A :=
  match l with
  | [] => Ok a
  | x :: r => a' <- f a x ;; res_fold f a' r
  end.

Lemma res_fold_pure {A B} (f : A -> B -> res A) (g : A -> B -> A) a l :
  (forall a x, x ∈ l -> f a x = Ok (g a x)) -> res_fold f a l = Ok (fold_left g l a).
Proof.
  revert a. induction l as [|x l IH]; intros a Hf; simpl; [done|].
  rewrite Hf by (by left). apply IH. intros b y Hy. apply Hf. by right.
Qed.

(** Decide every [bool_decide (x = y)] of the goal from the hypotheses. *)
Ltac bd_simpl :=
  repeat (first [ rewrite bool_decide_true by congruence
                | rewrite bool_decide_false by congruence ]; simpl).

Lemma res_concat_map_Forall {A B} (f : A -> res (list B)) (P : B -> Prop) l ys :
  (forall x zs, x ∈ l -> f x = Ok zs -> Forall P zs) ->
  res_concat_map f l = Ok ys -> Forall P ys.
Proof.
  revert ys. induction l as [|x l IH]; simpl; intros ys Hf H.
  - by res_inv.
  - destruct (f x) as [zs|] eqn:Ef; [|discriminate].
    destruct (res_concat_map f l) as [ws|] eqn:Er; [|discriminate].
    res_inv. apply Forall_app. split; [by eapply Hf; [left|]|].
    apply IH; [|done]. intros y vs Hy. apply Hf. by right.
Qed.

(** A loop whose body emits nothing for every element emits nothing. *)
Lemma res_concat_map_nil {A B} (f : A -> res (list B)) l ys :
  (forall x zs, x ∈ l -> f x = Ok zs -> zs = []) ->
  res_concat_map f l = Ok ys -> ys = [].
Proof.
  intros Hf H. apply (res_concat_map_Forall f (fun _ => False)) in H.
  - destruct ys; [done|]. by inversion H.
  - intros x zs Hx Hz. rewrite (Hf x zs Hx Hz). constructor.
Qed.

(** Loops whose bodies agree on the elements agree. *)
Lemma res_fold_ext {A B} (f g : A -> B -> res A) a l :
  (forall a x, x ∈ l -> f a x = g a x) -> res_fold f a l = res_fold g a l.
Proof.
  revert a. induction l as [|x l IH]; intros a Hfg; simpl; [done|].
  rewrite Hfg by (by left). destruct (g a x); [|done]. apply IH. intros; apply Hfg; by right.
Qed.

(** An invariant of a loop body is an invariant of the loop. *)
Lemma res_fold_inv {A B} (P : A -> Prop) (f : A -> B -> res A) a l r :
  (forall a x a', P a -> f a x = Ok a' -> P a') -> P a -> res_fold f a l = Ok r -> P r.
Proof.
  intros Hf. revert a. induction l as [|x l IH]; intros a Ha; simpl; [by intros [= <-]|].
  destruct (f a x) as [a'|] eqn:E; [|discriminate]. apply IH. by eapply Hf.
Qed.

(** What a comprehension that succeeded computed, element by element. *)
Lemma res_list_map_inv {A B} (f : A -> res B) l ys :
  res_list_map f l = Ok ys -> Forall2 (fun x y => f x = Ok y) l ys.
Proof.
  revert ys. induction l as [|x l IH]; intros ys; simpl; [by intros [= <-]|].
  destruct (f x) as [y|] eqn:E; [|discriminate].
  destruct (res_list_map f l) as [ys'|]; [|discriminate]. intros [= <-]. constructor; auto.
Qed.

Lemma Forall2_Forall_right {A B} (P : A -> B -> Prop) (Q : B -> Prop) l ys :
  (forall x y, P x y -> Q y) -> Forall2 P l ys -> Forall Q ys.
Proof. intros HQ. induction 1; constructor; eauto. Qed.

(** Keeping the elements a test accepts keeps a property of all of them. *)
Lemma Forall_filter_sub {A} (P : A -> Prop) (f : A -> bool) l :
  Forall P l -> Forall P (List.filter f l).
Proof. induction 1; simpl; [done|]. destruct (f _); [by constructor|done]. Qed.

(** Break the [res] binds and [if]s of a hypothesis [H : ... = Ok _]. *)
Ltac res_break H :=
  repeat match type of H with
  | context [match ?m with Ok _ => _ | Raise _ => _ end] =>
      let E := fresh "E" in destruct m eqn:E; [|discriminate H]
  | context [if ?b then _ else _] =>
      let E := fresh "E" in destruct b eqn:E
  end.

(** Decide the integer comparisons of the goal, discarding impossible
    branches with [lia]. *)
Ltac zcase :=
  repeat (match goal with
          | |- context [(?a <? ?b)%Z] => destruct (Z.ltb_spec a b)
          | |- context [(?a <=? ?b)%Z] => destruct (Z.leb_spec a b)
          | |- context [(?a =? ?b)%Z] => destruct (Z.eqb_spec a b)
          | |- context [(?a >? ?b)%Z] => rewrite (Z.gtb_ltb a b)
          | |- context [(?a >=? ?b)%Z] => rewrite (Z.geb_leb a b)
          end; cbn [andb orb negb]; try (exfalso; lia)).

(** Decide a closed decidable proposition by computation; fail at once
    on a goal that mentions a hypothesis. *)
Ltac decide_closed :=
  repeat match goal with H : _ |- _ => clear H end;
  lazymatch goal with H : _ |- _ => fail "not a closed goal" | _ => idtac end;
  apply (bool_decide_unpack _); vm_compute; exact I.

(** Replace the powers of two with literal constants, which [lia]
    treats as atoms otherwise. *)
Ltac pow_lit :=
  repeat match goal with
         | |- context [(2 ^ ?k)%Z] =>
             let v := eval vm_compute in (2 ^ k)%Z in change (2 ^ k)%Z with v
         end.

(** [lia] after turning [x / c] and [x mod c] into equations. *)
Ltac zlia := Z.div_mod_to_equations; lia.

(** ** Bit operations on non-negative integers as arithmetic *)

Section Bits.
Local Open Scope Z_scope.

Lemma land_shiftl_low (x y k : Z) :
  0 <= k -> 0 <= y < 2 ^ k -> Z.land (Z.shiftl x k) y = 0.
Proof.
  intros Hk Hy. apply Z.bits_inj_0. intros n. rewrite Z.land_spec.
  destruct (Z.lt_ge_cases n k) as [Hn|Hn].
  - by rewrite Z.shiftl_spec_low.
  - rewrite <-(Z.mod_small y (2 ^ k)) by lia.
    rewrite Z.mod_pow2_bits_high by lia. apply andb_false_r.
Qed.

(** [(x << k) | y] is [x * 2^k + y] when [y] fits in [k] bits. *)
Lemma lor_shiftl (x y k : Z) :
  0 <= k -> 0 <= y < 2 ^ k -> Z.lor (Z.shiftl x k) y = x * 2 ^ k + y.
Proof.
  intros Hk Hy. rewrite <-Z.lxor_lor, <-Z.add_nocarry_lxor
    by (by apply land_shiftl_low).
  by rewrite Z.shiftl_mul_pow2.
Qed.

Lemma land_low_bits (v k : Z) : 0 <= k -> Z.land v (2 ^ k - 1) = v mod 2 ^ k.
Proof.
  intros Hk. rewrite <-Z.land_ones by done. f_equal.
  rewrite Z.ones_equiv. lia.
Qed.

End Bits.
