(* ===== verification/PyStr.v ===== *)
(** * Python [str] and [bytes] primitives

    A Python [str] is a list of code points and a [bytes] value a list
    of integers in [0, 256), both as [list Z].  This file models the
    methods src/freefq.py calls on them, from CPython's documented
    behaviour: [str.startswith], [str.find] (with -1 for "absent"),
    slicing [s[i:]] and [s[:i]], [str.split(sep)] (as CPython does it:
    find, cut, continue after the separator), [str.strip()] and
    [str.isspace()] with Python's whitespace set, [bytes.splitlines()],
    and [int()] applied to a [str].

    [free_of cs s] says that [s] holds none of the characters [cs]; it is
    decidable, so it is checked by computation on concrete strings.

    The theorems: the specifications of [find] (first occurrence,
    absence, bounds), the defining equation of [split] (its fuel never
    runs out), the [split]/[join] round trip on a one-character
    separator, splitting at the first occurrence of a longer separator,
    and idempotence of [strip]. *)

From S2P Require Import Prelude.
From stdpp Require Import sets.
Open Scope Z_scope.

Definition pystr := list Z.
Definition pybytes := list Z.

(** ** startswith and find *)

Fixpoint startswith (s prefix : list Z) {struct prefix} : bool :=
  match prefix, s with
  | [], _ => true
  | p :: ps, c :: cs => (p =? c) && startswith cs ps
  | _ :: _, [] => false
  end.

(** Index of the first occurrence of [sub] in [s]. *)
Fixpoint find_idx (sub s : list Z) : option nat :=
  if startswith s sub then Some 0%nat
  else match s with
       | [] => None
       | _ :: s' => S <$> find_idx sub s'
       end.

(** [s.find(sub)]: the index, or -1. *)
Definition py_find (s sub : list Z) : Z :=
  match find_idx sub s with Some i => Z.of_nat i | None => -1 end.

(** [s[i:]] and [s[:i]] with Python's treatment of negative indices. *)
Definition slice_from (s : list Z) (i : Z) : list Z :=
  if i <? 0 then drop (Z.to_nat (Z.of_nat (length s) + i)) s
  else drop (Z.to_nat i) s.

Definition slice_to (s : list Z) (i : Z) : list Z :=
  if i <? 0 then take (Z.to_nat (Z.of_nat (length s) + i)) s
  else take (Z.to_nat i) s.

(** ** split and join *)

(** CPython's [str.split(sep)] for a non-empty [sep]: cut at the first
    occurrence, continue after it.  Each round consumes at least one
    code point, so [length s + 1] rounds suffice ([split_fuel_enough]). *)
Fixpoint split_fuel (fuel : nat) (sep s : list Z) : list (list Z) :=
  match fuel with
  | O => [s]
  | S f =>
      match find_idx sep s with
      | None => [s]
      | Some i => take i s :: split_fuel f sep (drop (i + length sep) s)
      end
  end.

Definition py_split (s sep : list Z) : list (list Z) :=
  split_fuel (S (length s)) sep s.

Definition py_join (sep : list Z) (l : list (list Z)) : list Z :=
  match l with
  | [] => []
  | x :: r => x ++ concat (map (fun y => sep ++ y) r)
  end.

(** ** strip and isspace *)

(** Python's whitespace ([Py_UNICODE_ISSPACE]). *)
Definition is_space (c : Z) : bool :=
  ((9 <=? c) && (c <=? 13)) || ((28 <=? c) && (c <=? 32))
  || (c =? 133) || (c =? 160) || (c =? 5760)
  || ((8192 <=? c) && (c <=? 8202))
  || (c =? 8232) || (c =? 8233) || (c =? 8239) || (c =? 8287)
  || (c =? 12288).

Fixpoint lstrip (s : list Z) : list Z :=
  match s with
  | c :: r => if is_space c then lstrip r else s
  | [] => []
  end.

Definition rstrip (s : list Z) : list Z := rev (lstrip (rev s)).

Definition strip (s : list Z) : list Z := rstrip (lstrip s).

Definition isspace (s : list Z) : bool :=
  match s with [] => false | _ => forallb is_space s end.

(** ** bytes.splitlines() *)

(** Lines end at [\n], [\r] or [\r\n]; no empty last line is produced
    for a trailing line break, and empty input gives no line. *)
Fixpoint splitlines_go (cur : list Z) (s : list Z) : list (list Z) :=
  match s with
  | [] => match cur with [] => [] | _ => [rev cur] end
  | 13 :: 10 :: r => rev cur :: splitlines_go [] r
  | 13 :: r => rev cur :: splitlines_go [] r
  | 10 :: r => rev cur :: splitlines_go [] r
  | c :: r => splitlines_go (c :: cur) r
  end.

Definition splitlines (s : list Z) : list (list Z) := splitlines_go [] s.

(** ** int() on a str *)

Definition is_digit (c : Z) : bool := (48 <=? c) && (c <=? 57).

(** Decimal digits with single underscores between digits. *)
Fixpoint digits_go (acc : Z) (s : list Z) : option Z :=
  match s with
  | [] => Some acc
  | 95 :: d :: r =>
      if is_digit d then digits_go (10 * acc + (d - 48)) r else None
  | d :: r => if is_digit d then digits_go (10 * acc + (d - 48)) r else None
  end.

Definition parse_digits (s : list Z) : option Z :=
  match s with
  | d :: r => if is_digit d then digits_go (d - 48) r else None
  | [] => None
  end.

(** [int(s)] in base 10: surrounding whitespace, an optional sign, ASCII
    digits with single underscores; [None] is CPython's ValueError. *)
Definition int_of_str (s : list Z) : option Z :=
  match strip s with
  | 43 :: r => parse_digits r
  | 45 :: r => Z.opp <$> parse_digits r
  | t => parse_digits t
  end.

(** [str(n)] for a non-negative integer: its decimal digits.  Each
    round divides by ten, so [S n] rounds are enough. *)
Fixpoint dec_go (fuel : nat) (n : Z) (acc : list Z) : list Z :=
  match fuel with
  | O => acc
  | S f => let acc' := (48 + n mod 10) :: acc in
           if n <? 10 then acc' else dec_go f (n / 10) acc'
  end.

Definition str_of_nat (n : nat) : list Z := dec_go (S n) (Z.of_nat n) [].

(** [s] contains none of the characters [cs]. *)
Definition free_of (cs s : list Z) : Prop := Forall (fun x => x ∉ cs) s.

#[export] Instance free_of_dec cs s : Decision (free_of cs s).
Proof. unfold free_of. apply _. Defined.

(** ** Lemmas on startswith and find *)

Lemma startswith_spec s p :
  startswith s p = true <-> exists r, s = p ++ r.
Proof.
  revert s. induction p as [|a p IH]; intros [|c s]; simpl.
  - split; eauto.
  - split; eauto.
  - split; [done|]. by intros [r ?].
  - rewrite andb_true_iff, Z.eqb_eq, IH. split.
    + intros [-> [r ->]]. eauto.
    + intros [r Hr]. injection Hr as -> ->. eauto.
Qed.

Lemma startswith_app p r : startswith (p ++ r) p = true.
Proof. apply startswith_spec. eauto. Qed.

Lemma startswith_take t k p :
  startswith (take k t) p = true -> startswith t p = true.
Proof.
  revert t k. induction p as [|a p IH]; intros [|c t] [|k]; simpl; try done.
  rewrite !andb_true_iff. intros [? H]. split; [done|]. by apply (IH t k).
Qed.

Lemma startswith_drop_take s p i j :
  startswith (drop j (take i s)) p = true -> startswith (drop j s) p = true.
Proof.
  destruct (decide (j <= i)%nat).
  - replace i with (j + (i - j))%nat by lia.
    rewrite <-take_drop_commute. apply startswith_take.
  - rewrite drop_ge by (rewrite length_take; lia).
    destruct p; [by destruct (drop j s)|done].
Qed.

Lemma find_idx_cons sub c s :
  find_idx sub (c :: s) =
  if startswith (c :: s) sub then Some 0%nat else S <$> find_idx sub s.
Proof. reflexivity. Qed.

Lemma find_idx_Some sub s i :
  find_idx sub s = Some i ->
  s = take i s ++ sub ++ drop (i + length sub) s.
Proof.
  revert i. induction s as [|c s IH]; intros i.
  - destruct sub; simpl; [by intros [= <-]|intros [=]].
  - rewrite find_idx_cons. destruct (startswith (c :: s) sub) eqn:E.
    + intros [= <-]. apply startswith_spec in E as [r Hr]. simpl.
      rewrite Hr, drop_app_length. done.
    + destruct (find_idx sub s) as [j|] eqn:Ej; [|intros [=]]. intros [= <-].
      simpl. by rewrite <-IH.
Qed.

Lemma find_idx_first sub s i j :
  find_idx sub s = Some i -> (j < i)%nat -> startswith (drop j s) sub = false.
Proof.
  revert i j. induction s as [|c s IH]; intros i j.
  - destruct sub; simpl; [intros [= <-]; lia|intros [=]].
  - rewrite find_idx_cons. destruct (startswith (c :: s) sub) eqn:E.
    + intros [= <-]. lia.
    + destruct (find_idx sub s) as [k|] eqn:Ek; [|intros [=]]. intros [= <-] Hj.
      destruct j as [|j]; [done|]. simpl. apply (IH k); [done|lia].
Qed.

Lemma find_idx_None sub s :
  find_idx sub s = None -> forall j, startswith (drop j s) sub = false.
Proof.
  induction s as [|c s IH].
  - destruct sub; simpl; [intros [=]|]. intros _ j.
    by rewrite drop_nil.
  - rewrite find_idx_cons. destruct (startswith (c :: s) sub) eqn:E; [done|].
    destruct (find_idx sub s) eqn:Ek; [done|]. intros _ [|j]; [done|].
    by apply IH.
Qed.

Lemma find_idx_complete sub s j :
  startswith (drop j s) sub = true -> exists i, find_idx sub s = Some i /\ (i <= j)%nat.
Proof.
  intros H. destruct (find_idx sub s) as [i|] eqn:E.
  - exists i. split; [done|]. destruct (decide (j < i)%nat); [|lia].
    by rewrite (find_idx_first _ _ _ _ E) in H.
  - by rewrite (find_idx_None _ _ E) in H.
Qed.

Lemma find_idx_bound sub s i :
  find_idx sub s = Some i -> (i + length sub <= length s)%nat.
Proof.
  revert i. induction s as [|c s IH]; intros i.
  - destruct sub; simpl; [intros [= <-]; lia|intros [=]].
  - rewrite find_idx_cons. destruct (startswith (c :: s) sub) eqn:E.
    + intros [= <-]. apply startswith_spec in E as [r ->].
      rewrite length_app. lia.
    + destruct (find_idx sub s) as [k|]; [|intros [=]]. intros [= <-].
      specialize (IH k eq_refl). simpl. lia.
Qed.

Lemma find_idx_at sub s i :
  find_idx sub s = Some i -> startswith (drop i s) sub = true.
Proof.
  intros H. pose proof (find_idx_bound _ _ _ H) as Hb.
  apply find_idx_Some in H. rewrite H, drop_app_le, drop_ge
    by (rewrite length_take; lia).
  apply (startswith_app sub).
Qed.

(** The part before the first occurrence contains no occurrence. *)
Lemma find_idx_take_None sub s i :
  sub <> [] -> find_idx sub s = Some i -> find_idx sub (take i s) = None.
Proof.
  intros Hne Hi. destruct (find_idx sub (take i s)) as [j|] eqn:Ej; [|done].
  exfalso. pose proof (find_idx_bound _ _ _ Ej) as Hb.
  rewrite length_take in Hb. destruct sub as [|a sub]; [done|]. simpl in Hb.
  apply find_idx_at, startswith_drop_take in Ej.
  by rewrite (find_idx_first _ _ _ j Hi) in Ej by lia.
Qed.

(** ** split and join *)

Lemma split_fuel_nonempty f sep s : split_fuel f sep s <> [].
Proof. destruct f; simpl; [done|]. by destruct (find_idx sep s). Qed.

Lemma py_join_cons sep x l :
  l <> [] -> py_join sep (x :: l) = x ++ sep ++ py_join sep l.
Proof. destruct l; [done|]. intros _. simpl. by rewrite !app_assoc. Qed.

Lemma split_fuel_join f sep s : py_join sep (split_fuel f sep s) = s.
Proof.
  revert s. induction f as [|f IH]; intros s; simpl; [by simplify_list_eq|].
  destruct (find_idx sep s) as [i|] eqn:E; [|by simplify_list_eq].
  rewrite py_join_cons by apply split_fuel_nonempty. rewrite IH.
  by rewrite <-find_idx_Some.
Qed.

Lemma split_fuel_stable f f' sep s :
  sep <> [] -> (length s < f)%nat -> (length s < f')%nat ->
  split_fuel f sep s = split_fuel f' sep s.
Proof.
  intros Hsep. revert f' s. induction f as [|f IH]; intros [|f'] s Hf Hf';
    try lia. simpl.
  destruct (find_idx sep s) as [i|] eqn:E; [|done]. f_equal.
  pose proof (find_idx_bound _ _ _ E). destruct sep; [done|].
  apply IH; rewrite length_drop; simpl in *; lia.
Qed.

(** The defining equation of [py_split]: fuel never runs out. *)
Lemma py_split_eq s sep :
  sep <> [] ->
  py_split s sep =
  match find_idx sep s with
  | None => [s]
  | Some i => take i s :: py_split (drop (i + length sep) s) sep
  end.
Proof.
  intros Hsep. unfold py_split at 1. simpl.
  destruct (find_idx sep s) as [i|] eqn:E; [|done]. f_equal.
  pose proof (find_idx_bound _ _ _ E). destruct sep; [done|].
  apply split_fuel_stable; [done| |]; rewrite length_drop; simpl in *; lia.
Qed.

Lemma split_fuel_pieces f sep s :
  sep <> [] -> (length s < f)%nat ->
  Forall (fun p => find_idx sep p = None) (split_fuel f sep s).
Proof.
  intros Hsep. revert s. induction f as [|f IH]; intros s Hf; [lia|]. simpl.
  destruct (find_idx sep s) as [i|] eqn:E; [|by constructor].
  constructor; [by apply find_idx_take_None|].
  pose proof (find_idx_bound _ _ _ E). destruct sep; [done|].
  apply IH. rewrite length_drop. simpl in *. lia.
Qed.

Lemma find_idx_single_not_in c x :
  c ∉ x -> find_idx [c] x = None.
Proof.
  induction x as [|y x IH]; intros Hc; [done|].
  rewrite find_idx_cons. simpl. rewrite elem_of_cons in Hc.
  destruct (Z.eqb_spec c y); [tauto|]. simpl. rewrite IH; [done|tauto].
Qed.

(** A separator whose first character does not occur is not found. *)
Lemma find_idx_head_not_in c sub x :
  c ∉ x -> find_idx (c :: sub) x = None.
Proof.
  induction x as [|y x IH]; intros Hc; [done|].
  rewrite find_idx_cons. simpl. rewrite elem_of_cons in Hc.
  destruct (Z.eqb_spec c y); [tauto|]. simpl. rewrite IH; [done|tauto].
Qed.

Lemma find_idx_single_None c x : find_idx [c] x = None -> c ∉ x.
Proof.
  intros H Hc. apply list_elem_of_split in Hc as (l1 & l2 & ->).
  pose proof (find_idx_None _ _ H (length l1)) as Hs.
  rewrite drop_app_length in Hs. cbn in Hs. by rewrite Z.eqb_refl in Hs.
Qed.

Lemma find_idx_single_app c x r :
  c ∉ x -> find_idx [c] (x ++ c :: r) = Some (length x).
Proof.
  induction x as [|y x IH]; intros Hc; simpl.
  - by rewrite Z.eqb_refl.
  - rewrite elem_of_cons in Hc. destruct (Z.eqb_spec c y); [tauto|]. simpl.
    rewrite IH; [done|tauto].
Qed.

(** Splitting on a one-character separator recovers the pieces that
    were joined with it, when none of them contains the separator. *)
Lemma py_split_join_single c l :
  l <> [] -> Forall (fun p => c ∉ p) l ->
  py_split (py_join [c] l) [c] = l.
Proof.
  induction l as [|x [|y l] IH]; intros Hne Hl; [done| |].
  - apply Forall_cons_iff in Hl as [Hx _]. simpl. rewrite app_nil_r.
    rewrite py_split_eq by done. by rewrite find_idx_single_not_in.
  - apply Forall_cons_iff in Hl as [Hx Hl].
    rewrite py_join_cons by done. rewrite py_split_eq by done.
    set (rest := py_join [c] (y :: l)).
    change (x ++ [c] ++ rest) with (x ++ c :: rest).
    rewrite find_idx_single_app by done. f_equal.
    + by rewrite take_app_length.
    + replace (length x + length [c])%nat with (length (x ++ [c])) by
        (rewrite length_app; simpl; lia).
      change (x ++ c :: rest) with (x ++ [c] ++ rest).
      rewrite (app_assoc x [c]), drop_app_length. by apply IH.
Qed.

(** ** find and slices around a separator *)

Lemma py_find_single_app c x r : c ∉ x -> py_find (x ++ c :: r) [c] = Z.of_nat (length x).
Proof. intros. unfold py_find. by rewrite find_idx_single_app. Qed.

Lemma py_find_absent c sub x : c ∉ x -> py_find x (c :: sub) = -1.
Proof. intros. unfold py_find. by rewrite find_idx_head_not_in. Qed.

(** A separator holding a character the string lacks is not found. *)
Lemma py_find_absent_elem c sub x : c ∈ sub -> c ∉ x -> py_find x sub = -1.
Proof.
  intros Hc Hx. unfold py_find. destruct (find_idx sub x) as [i|] eqn:E; [|done].
  apply find_idx_Some in E. exfalso. apply Hx. rewrite E. set_solver.
Qed.

Lemma slice_from_app x r k :
  (0 <= k)%Z -> slice_from (x ++ r) (Z.of_nat (length x) + k) = drop (Z.to_nat k) r.
Proof.
  intros. unfold slice_from. destruct (Z.ltb_spec (Z.of_nat (length x) + k) 0); [lia|].
  replace (Z.to_nat (Z.of_nat (length x) + k)) with (length x + Z.to_nat k)%nat by lia.
  by rewrite <- drop_drop, drop_app_length.
Qed.

Lemma slice_to_app x r : slice_to (x ++ r) (Z.of_nat (length x)) = x.
Proof.
  unfold slice_to. destruct (Z.ltb_spec (Z.of_nat (length x)) 0); [lia|].
  by rewrite Nat2Z.id, take_app_length.
Qed.

(** Splitting where the separator's first character first occurs. *)
Lemma find_idx_head_app c sep x y :
  c ∉ x -> find_idx (c :: sep) (x ++ (c :: sep) ++ y) = Some (length x).
Proof.
  induction x as [|z x IH]; intros Hc.
  - simpl. rewrite Z.eqb_refl. simpl. by rewrite startswith_app.
  - rewrite elem_of_cons in Hc. rewrite <- app_comm_cons, find_idx_cons. cbn [startswith].
    destruct (Z.eqb_spec c z); [tauto|]. cbn [andb]. rewrite IH; [done|tauto].
Qed.

Lemma py_split_head c sep x y :
  c ∉ x -> py_split (x ++ (c :: sep) ++ y) (c :: sep) = x :: py_split y (c :: sep).
Proof.
  intros Hc. rewrite py_split_eq by done. rewrite find_idx_head_app by done.
  rewrite take_app_length. f_equal. rewrite <- drop_drop, drop_app_length, drop_app_length.
  done.
Qed.

Lemma py_split_absent c sep y : c ∉ y -> py_split y (c :: sep) = [y].
Proof. intros Hc. rewrite py_split_eq by done. by rewrite find_idx_head_not_in. Qed.

(** ** Strings free of some characters *)

Lemma free_of_Forall cs s (P : Z -> Prop) :
  free_of cs s -> (forall x, x ∉ cs -> P x) -> Forall P s.
Proof. intros H HP. eapply List.Forall_impl; [exact HP|exact H]. Qed.

Lemma free_of_app cs s t : free_of cs (s ++ t) <-> free_of cs s /\ free_of cs t.
Proof. apply Forall_app. Qed.

Lemma free_of_cons cs c s : free_of cs (c :: s) <-> (c ∉ cs) /\ free_of cs s.
Proof. apply Forall_cons_iff. Qed.

Lemma free_of_notin cs s c : free_of cs s -> c ∈ cs -> c ∉ s.
Proof.
  intros H Hc Hs. unfold free_of in H. rewrite Forall_forall in H.
  apply (H c); first [done | by apply list_elem_of_In].
Qed.

Lemma free_of_sub cs cs' s : free_of cs s -> cs' ⊆ cs -> free_of cs' s.
Proof. intros H Hsub. apply (free_of_Forall _ _ _ H). set_solver. Qed.

Lemma Forall_py_join (P : Z -> Prop) sep l :
  Forall P sep -> Forall (Forall P) l -> Forall P (py_join sep l).
Proof.
  intros Hs Hl. destruct Hl as [|x l Hx Hl]; [constructor|]. simpl.
  apply Forall_app. split; [done|].
  induction Hl as [|y l Hy _ IH]; simpl; [constructor|].
  apply Forall_app. split; [|done]. by apply Forall_app.
Qed.

Lemma free_of_py_join cs sep l :
  free_of cs sep -> Forall (free_of cs) l -> free_of cs (py_join sep l).
Proof. apply Forall_py_join. Qed.

(** ** splitlines on joined lines *)

Lemma splitlines_go_other c cur r :
  c <> 10 -> c <> 13 -> splitlines_go cur (c :: r) = splitlines_go (c :: cur) r.
Proof.
  intros H10 H13. destruct c as [|p|p]; [reflexivity| |reflexivity].
  destruct p as [[[[p|p|]|[p|p|]|]|[[p|p|]|[p|p|]|]|]|[[[p|p|]|[p|p|]|]|[[p|p|]|[p|p|]|]|]|];
    first [reflexivity | lia].
Qed.

Lemma splitlines_go_free cur l r :
  free_of [10; 13] l -> splitlines_go cur (l ++ r) = splitlines_go (rev l ++ cur) r.
Proof.
  revert cur. induction l as [|c l IH]; intros cur Hl; [done|].
  apply free_of_cons in Hl as [Hc Hl]. rewrite !not_elem_of_cons in Hc.
  cbn [app]. rewrite splitlines_go_other by tauto. rewrite IH by done.
  cbn [rev]. by rewrite <- app_assoc.
Qed.

(** [b'\n'.join(lines).splitlines()] gives the lines back when none is
    empty or holds a line break. *)
Lemma splitlines_join ls :
  Forall (fun l => l <> [] /\ free_of [10; 13] l) ls -> splitlines (py_join [10] ls) = ls.
Proof.
  unfold splitlines. induction 1 as [|l ls [Hne Hl] Hls IH]; [done|].
  destruct ls as [|l' ls].
  - cbn. rewrite app_nil_r. rewrite <- (app_nil_r l) at 1. rewrite splitlines_go_free by done.
    rewrite app_nil_r. cbn. destruct (rev l) eqn:E; [exfalso; apply Hne; by rewrite <- (rev_involutive l), E|].
    rewrite <- E, rev_involutive. done.
  - rewrite py_join_cons by done. rewrite splitlines_go_free by done. cbn [app splitlines_go].
    by rewrite app_nil_r, rev_involutive, IH.
Qed.

(** ** strip *)

Lemma lstrip_suffix s : exists p, s = p ++ lstrip s.
Proof.
  induction s as [|c s [p Hp]]; simpl; [by exists []|].
  destruct (is_space c); [exists (c :: p); simpl; by rewrite <-Hp|by exists []].
Qed.

Lemma lstrip_head s c r : lstrip s = c :: r -> is_space c = false.
Proof.
  induction s as [|d s IH]; simpl; [done|].
  destruct (is_space d) eqn:E; [done|]. by intros [= -> ->].
Qed.

Lemma lstrip_idem s : lstrip (lstrip s) = lstrip s.
Proof.
  induction s as [|c s IH]; simpl; [done|].
  destruct (is_space c) eqn:E; [done|]. simpl. by rewrite E.
Qed.

Lemma lstrip_not_space c r : is_space c = false -> lstrip (c :: r) = c :: r.
Proof. simpl. by intros ->. Qed.

(** A stripped string neither starts nor ends with whitespace. *)
Lemma strip_lstrip s : lstrip (strip s) = strip s.
Proof.
  unfold strip, rstrip.
  destruct (lstrip_suffix (rev (lstrip s))) as [p Hp].
  destruct (rev (lstrip (rev (lstrip s)))) as [|c r] eqn:E; [done|].
  apply lstrip_not_space.
  assert (Ha : lstrip s = c :: r ++ rev p).
  { rewrite <-(rev_involutive (lstrip s)), Hp, rev_app_distr, E. done. }
  by apply lstrip_head in Ha.
Qed.

Lemma strip_rstrip s : lstrip (rev (strip s)) = rev (strip s).
Proof. unfold strip, rstrip. by rewrite rev_involutive, lstrip_idem. Qed.

Lemma strip_idem s : strip (strip s) = strip s.
Proof.
  unfold strip at 1. unfold rstrip.
  rewrite strip_lstrip, strip_rstrip. apply rev_involutive.
Qed.
