(* ===== verification/PyVal.v ===== *)
(** * Python values and the dict operations of freefq.py

    The values the program builds and inspects: [None], booleans,
    integers, strings, lists and dicts.  A dict is an association list
    in insertion order, as CPython dicts are ordered and the output is
    written with [sort_keys=False].  The operations are those the code
    performs on dicts: [d.get(k)] (None when absent), [d[k]] (KeyError),
    [d[k] = v] (replace in place or append), [del d[k]], the
    "for key in list(obj.keys()): if obj.get(key) is None: del obj[key]"
    loop of the three normalisers, truthiness ([if x:]), [int(x)],
    [x.strip()], [x.startswith(p)] and iteration ([for x in v]), each
    raising the exception CPython raises on a value of the wrong type.

    Floats are not represented: the JSON and YAML parsers are outside the
    model, and a port or alterId written as a float is out of scope.

    Theorems: the dict laws (get after set, get after del), the
    characterisation of the None-deletion loop as a filter on a dict with
    distinct keys, and that its result holds no None. *)

From S2P Require Import Prelude PyStr.
Open Scope Z_scope.

#[warnings="-register-all"]
Inductive pyval :=
| VNone
| VBool (b : bool)
| VInt (z : Z)
| VStr (s : pystr)
| VList (l : list pyval)
| VDict (d : list (pystr * pyval)).

Definition dict := list (pystr * pyval).

(** ** Dict operations *)

Fixpoint dget (d : dict) (k : pystr) : option pyval :=
  match d with
  | [] => None
  | (k', v) :: r => if bool_decide (k = k') then Some v else dget r k
  end.

Fixpoint dset (d : dict) (k : pystr) (v : pyval) : dict :=
  match d with
  | [] => [(k, v)]
  | (k', v') :: r =>
      if bool_decide (k = k') then (k, v) :: r else (k', v') :: dset r k v
  end.

Fixpoint ddel (d : dict) (k : pystr) : dict :=
  match d with
  | [] => []
  | (k', v') :: r => if bool_decide (k = k') then ddel r k else (k', v') :: ddel r k
  end.

Definition keys (d : dict) : list pystr := map fst d.

Definition is_none (v : pyval) : bool :=
  match v with VNone => true | _ => false end.

(** [d.get(k)] *)
Definition get_or_none (d : dict) (k : pystr) : pyval :=
  match dget d k with Some v => v | None => VNone end.

(** ** Methods on values, with the exceptions CPython raises *)

(** [v.get(k)] *)
Definition py_get (v : pyval) (k : pystr) : res pyval :=
  match v with
  | VDict d => Ok (get_or_none d k)
  | _ => Raise AttributeError
  end.

(** [v[k]] with a string key *)
Definition py_getitem (v : pyval) (k : pystr) : res pyval :=
  match v with
  | VDict d => match dget d k with Some x => Ok x | None => Raise KeyError end
  | _ => Raise TypeError
  end.

(** [v[k] = x] *)
Definition py_setitem (v : pyval) (k : pystr) (x : pyval) : res pyval :=
  match v with
  | VDict d => Ok (VDict (dset d k x))
  | _ => Raise TypeError
  end.

(** [del v[k]] *)
Definition py_delitem (v : pyval) (k : pystr) : res pyval :=
  match v with
  | VDict d => match dget d k with Some _ => Ok (VDict (ddel d k)) | None => Raise KeyError end
  | _ => Raise TypeError
  end.

(** [bool(v)] *)
Definition truthy (v : pyval) : bool :=
  match v with
  | VNone => false
  | VBool b => b
  | VInt z => negb (z =? 0)
  | VStr s => negb (bool_decide (s = []))
  | VList l => negb (bool_decide (l = []))
  | VDict d => negb (bool_decide (d = []))
  end.

(** [v.strip()] *)
Definition py_strip (v : pyval) : res pyval :=
  match v with VStr s => Ok (VStr (strip s)) | _ => Raise AttributeError end.

(** [v.startswith(p)] *)
Definition py_startswith (v : pyval) (p : pystr) : res bool :=
  match v with VStr s => Ok (startswith s p) | _ => Raise AttributeError end.

(** [int(v)] *)
Definition py_int (v : pyval) : res Z :=
  match v with
  | VInt z => Ok z
  | VBool b => Ok (if b then 1 else 0)
  | VStr s => match int_of_str s with Some z => Ok z | None => Raise ValueError end
  | _ => Raise TypeError
  end.

(** [len(v)] *)
Definition py_len (v : pyval) : res nat :=
  match v with
  | VStr s => Ok (length s)
  | VList l => Ok (length l)
  | VDict d => Ok (length d)
  | _ => Raise TypeError
  end.

(** [v == s] for a string literal [s] *)
Definition py_eq_str (v : pyval) (s : pystr) : bool :=
  match v with VStr t => bool_decide (t = s) | _ => false end.

(** The elements a [for x in v] loop visits. *)
Definition py_iter (v : pyval) : res (list pyval) :=
  match v with
  | VList l => Ok l
  | VDict d => Ok (map (fun kv => VStr kv.1) d)
  | VStr s => Ok (map (fun c => VStr [c]) s)
  | _ => Raise TypeError
  end.

(** [for key in list(obj.keys()): if obj.get(key) is None: del obj[key]] *)
Definition drop_none (d : dict) : dict :=
  fold_left (fun o k => if is_none (get_or_none o k) then ddel o k else o)
    (keys d) d.

(** ** Dict laws *)

Lemma dget_dset_eq d k v : dget (dset d k v) k = Some v.
Proof.
  induction d as [|[k' v'] d IH]; simpl.
  - by rewrite bool_decide_true.
  - case_bool_decide; simpl; [by rewrite bool_decide_true|].
    rewrite bool_decide_false by done. done.
Qed.

Lemma dget_dset_ne d k k' v : k <> k' -> dget (dset d k v) k' = dget d k'.
Proof.
  intros Hne. induction d as [|[k0 v0] d IH]; simpl.
  - by rewrite bool_decide_false.
  - case_bool_decide as E; simpl.
    + subst. rewrite !(bool_decide_false (k' = k0)) by congruence. done.
    + by case_bool_decide.
Qed.

Lemma dget_ddel_eq d k : dget (ddel d k) k = None.
Proof.
  induction d as [|[k' v'] d IH]; simpl; [done|].
  case_bool_decide; simpl; [done|]. by rewrite bool_decide_false.
Qed.

Lemma dget_ddel_ne d k k' : k <> k' -> dget (ddel d k) k' = dget d k'.
Proof.
  intros Hne. induction d as [|[k0 v0] d IH]; simpl; [done|].
  case_bool_decide as E; simpl.
  - subst. rewrite IH, bool_decide_false by congruence. done.
  - by case_bool_decide.
Qed.

Lemma dget_In d k v : dget d k = Some v -> (k, v) ∈ d.
Proof.
  induction d as [|[k' v'] d IH]; simpl; [done|].
  case_bool_decide as E; [intros [= <-]; subst; by left|].
  intros H. right. by apply IH.
Qed.

Lemma dget_notin d k : k ∉ keys d -> dget d k = None.
Proof.
  induction d as [|[k' v'] d IH]; simpl; [done|].
  rewrite not_elem_of_cons. intros [Hne Hd]. case_bool_decide; [done|auto].
Qed.

Lemma dget_None_notin d k : dget d k = None -> k ∉ keys d.
Proof.
  induction d as [|[k' v'] d IH]; simpl; [intros _; apply not_elem_of_nil|].
  case_bool_decide as E; [done|]. intros H. apply not_elem_of_cons. auto.
Qed.

#[export] Hint Resolve dget_dset_eq dget_ddel_eq : pyfq.
#[export] Hint Rewrite dget_dset_eq dget_ddel_eq : pysimpl.

(** ** The None-deletion loop *)

Definition present (kv : pystr * pyval) : bool := negb (is_none kv.2).

Lemma ddel_notin d k : k ∉ keys d -> ddel d k = d.
Proof.
  induction d as [|[k' v'] d IH]; simpl; [done|].
  rewrite not_elem_of_cons. intros [Hne Hd].
  rewrite bool_decide_false by done. by rewrite IH.
Qed.

Lemma filter_keep_notin (p : pystr * pyval -> bool) d k :
  k ∉ keys d -> (forall kv, kv.1 <> k -> p kv = true) -> List.filter p d = d.
Proof.
  intros Hk Hp. induction d as [|[k' v'] d IH]; simpl in *; [done|].
  apply not_elem_of_cons in Hk as [Hne Hk].
  rewrite Hp by (simpl; congruence). by rewrite IH.
Qed.

Lemma filter_filter_andb {A} (p q : A -> bool) l :
  List.filter p (List.filter q l) = List.filter (fun x => p x && q x) l.
Proof.
  induction l as [|x l IH]; simpl; [done|].
  destruct (q x); simpl; destruct (p x); simpl; by rewrite IH.
Qed.

Lemma keys_filter_NoDup (p : pystr * pyval -> bool) d :
  NoDup (keys d) -> NoDup (keys (List.filter p d)).
Proof.
  induction d as [|[k v] d IH]; simpl; [done|].
  rewrite list.NoDup_cons. intros [Hk Hd]. destruct (p (k, v)); simpl; [|auto].
  rewrite list.NoDup_cons. split; [|auto].
  intros Hin. apply Hk. unfold keys in *. rewrite list_elem_of_In in Hin |- *.
  apply in_map_iff in Hin as ([k' v'] & <- & Hin). apply in_map_iff.
  exists (k', v'). split; [done|]. by apply filter_In in Hin as [Hin _].
Qed.

Lemma drop_none_step o k :
  NoDup (keys o) ->
  (if is_none (get_or_none o k) then ddel o k else o) =
  List.filter (fun kv => negb (bool_decide (kv.1 = k)) || present kv) o.
Proof.
  unfold get_or_none. induction o as [|[k' v'] o IH]; simpl; [by destruct 1|].
  rewrite list.NoDup_cons. intros [Hk' Ho].
  destruct (decide (k = k')) as [->|Hne].
  - rewrite !bool_decide_true by done. simpl.
    rewrite ddel_notin, (filter_keep_notin _ o k') by
      (done || (intros [k0 v0] Hne; simpl in *; by rewrite bool_decide_false)).
    by destruct v'.
  - rewrite !bool_decide_false by congruence. simpl.
    rewrite <-IH by done. by destruct (is_none _).
Qed.

Lemma drop_none_fold ks o :
  NoDup (keys o) ->
  fold_left (fun o k => if is_none (get_or_none o k) then ddel o k else o) ks o =
  List.filter (fun kv => negb (bool_decide (kv.1 ∈ ks)) || present kv) o.
Proof.
  revert o. induction ks as [|k ks IH]; intros o Ho; simpl.
  - symmetry. apply forallb_filter_id, forallb_forall. intros kv _.
    done.
  - rewrite drop_none_step by done.
    rewrite IH by (by apply keys_filter_NoDup).
    rewrite filter_filter_andb. apply filter_ext. intros kv.
    repeat case_bool_decide; rewrite ?elem_of_cons in *;
      destruct (present kv); simpl; try done; tauto.
Qed.

(** On a dict with distinct keys the loop keeps exactly the entries
    whose value is not None, in order. *)
Lemma drop_none_filter d :
  NoDup (keys d) -> drop_none d = List.filter present d.
Proof.
  intros Hd. unfold drop_none. rewrite drop_none_fold by done.
  apply filter_ext_in. intros [k v] Hin.
  rewrite bool_decide_true; [done|]. apply list_elem_of_In, in_map_iff.
  by exists (k, v).
Qed.

(** ** The accumulator [{'proxy_list': [...], 'proxy_names': [...]}] *)

Record feed := mk_feed { proxy_list : list pyval; proxy_names : list pyval }.

Definition empty_feed : feed := mk_feed [] [].

(** [acc['proxy_list'].extend(...)]; [acc['proxy_names'].extend(...)] *)
Definition feed_app (a b : feed) : feed :=
  mk_feed (proxy_list a ++ proxy_list b) (proxy_names a ++ proxy_names b).

(** [l.extend(xs)] on the value [l]: only a list has [extend]. *)
Definition py_extend (v : pyval) (xs : list pyval) : res pyval :=
  match v with VList l => Ok (VList (l ++ xs)) | _ => Raise AttributeError end.

Lemma get_or_none_dset_eq d k v : get_or_none (dset d k v) k = v.
Proof. unfold get_or_none. by rewrite dget_dset_eq. Qed.

Lemma get_or_none_dset_ne d k k' v :
  k <> k' -> get_or_none (dset d k v) k' = get_or_none d k'.
Proof. intros. unfold get_or_none. by rewrite dget_dset_ne. Qed.

#[export] Hint Rewrite get_or_none_dset_eq : pysimpl.

Lemma dset_dset_same d k v v' : dset (dset d k v) k v' = dset d k v'.
Proof.
  induction d as [|[k0 v0] d IH]; simpl.
  - by rewrite bool_decide_true.
  - case_bool_decide as E; simpl; [by rewrite bool_decide_true|].
    rewrite bool_decide_false by done. by rewrite IH.
Qed.

Lemma dset_keys_in d k v : k ∈ keys (dset d k v).
Proof.
  induction d as [|[k0 v0] d IH]; simpl; [by left|].
  case_bool_decide; simpl; [by left|by right].
Qed.

(** Two assignments to different keys commute when the second key is
    already present (neither of them appends a new entry after the
    other). *)
Lemma dset_swap d k k' v v' :
  k <> k' -> k' ∈ keys d ->
  dset (dset d k v) k' v' = dset (dset d k' v') k v.
Proof.
  intros Hne. induction d as [|[k0 v0] d IH]; simpl;
    [intros Hin; by apply not_elem_of_nil in Hin|].
  rewrite elem_of_cons. intros Hin.
  destruct (decide (k = k0)) as [->|H1]; [bd_simpl; done|].
  destruct (decide (k' = k0)) as [->|H2]; bd_simpl; [done|].
  f_equal. apply IH. destruct Hin; [congruence|done].
Qed.

Lemma dget_filter_present d k v :
  NoDup (keys d) -> dget (List.filter present d) k = Some v ->
  dget d k = Some v /\ v <> VNone.
Proof.
  induction d as [|[k0 v0] d IH]; simpl; [done|].
  rewrite list.NoDup_cons. intros [Hk Hd].
  destruct (present (k0, v0)) eqn:Ep; simpl.
  - case_bool_decide as E; [intros [= <-]; split; [done|by destruct v0]|].
    by apply IH.
  - intros H. pose proof (IH Hd H) as [Hg Hv].
    case_bool_decide as E; [|done]. subst.
    exfalso. apply Hk. apply dget_In in Hg. apply list_elem_of_In, in_map_iff.
    exists (k0, v). split; [done|]. by apply list_elem_of_In.
Qed.

Lemma filter_present_no_none d :
  Forall (fun kv => kv.2 <> VNone) (List.filter present d).
Proof.
  apply Forall_forall. intros [k v] Hin. apply filter_In in Hin as [_ Hp].
  by destruct v.
Qed.

Lemma keys_dset_in d k v : k ∈ keys d -> keys (dset d k v) = keys d.
Proof.
  induction d as [|[k0 v0] d IH]; simpl; [by intros ?%not_elem_of_nil|].
  rewrite elem_of_cons. intros Hk. case_bool_decide as E; simpl; [by subst|].
  rewrite IH; [done|]. destruct Hk; [congruence|done].
Qed.

(** Deleting the None entries does not change what [d.get(k)] returns. *)
Lemma get_or_none_filter_present d k :
  NoDup (keys d) -> get_or_none (List.filter present d) k = get_or_none d k.
Proof.
  unfold get_or_none. induction d as [|[k0 v0] d IH]; simpl; [done|].
  rewrite list.NoDup_cons. intros [Hk Hd].
  destruct (present (k0, v0)) eqn:Ep; simpl; case_bool_decide as E; auto.
  subst. rewrite IH by done. apply dget_notin in Hk. rewrite Hk.
  by destruct v0.
Qed.

Lemma dget_filter_present_None d k :
  NoDup (keys d) -> get_or_none d k = VNone ->
  dget (List.filter present d) k = None.
Proof.
  intros Hnd Hk. destruct (dget (List.filter present d) k) as [v|] eqn:E; [|done].
  pose proof (dget_filter_present _ _ _ Hnd E) as [Hg Hne].
  unfold get_or_none in Hk. by rewrite Hg in Hk.
Qed.
