(* ===== verification/Utf8.v ===== *)
(** * UTF-8 decoding: [bytes.decode('utf-8')] and its 'replace' mode

    CPython's decoder, as a byte-at-a-time automaton: a start byte either
    is ASCII, is invalid (0x80-0xC1, 0xF5-0xFF), or opens a sequence of
    1 to 3 continuation bytes whose first one has a restricted range
    (0xE0: A0-BF, 0xED: 80-9F, 0xF0: 90-BF, 0xF4: 80-8F; otherwise
    80-BF), which rules out overlong forms, surrogates and values past
    U+10FFFF.  The value is accumulated as CPython does,
    [(ch << 6) + byte - 0x80].  An error covers the maximal valid prefix
    of a sequence (one U+FFFD in 'replace' mode, and the offending byte
    is read again as a start byte); in strict mode the first error
    raises UnicodeDecodeError.

    [utf8_encode] is the encoder (str.encode('utf-8')), used for the
    round trip [utf8_decode_encode]: decoding the encoding of a string
    of Unicode scalar values gives it back. *)

From S2P Require Import Prelude PyStr.
Open Scope Z_scope.

Module Utf8.

Inductive mode := Strict | Replace.

Inductive state :=
| Start
| Cont (need : nat) (acc lo hi : Z).

(** What one byte produces: code points ([Some c]) and errors ([None]). *)
Definition event := option Z.

Definition start_step (b : Z) : list event * state :=
  if b <? 0x80 then ([Some b], Start)
  else if b <? 0xC2 then ([None], Start)
  else if b <? 0xE0 then ([], Cont 1 (b - 0xC0) 0x80 0xBF)
  else if b =? 0xE0 then ([], Cont 2 0 0xA0 0xBF)
  else if b =? 0xED then ([], Cont 2 0xD 0x80 0x9F)
  else if b <? 0xF0 then ([], Cont 2 (b - 0xE0) 0x80 0xBF)
  else if b =? 0xF0 then ([], Cont 3 0 0x90 0xBF)
  else if b <? 0xF4 then ([], Cont 3 (b - 0xF0) 0x80 0xBF)
  else if b =? 0xF4 then ([], Cont 3 4 0x80 0x8F)
  else ([None], Start).

Definition step (st : state) (b : Z) : list event * state :=
  match st with
  | Start => start_step b
  | Cont n acc lo hi =>
      if (lo <=? b) && (b <=? hi) then
        let acc' := acc * 64 + (b - 0x80) in
        match n with
        | 1%nat => ([Some acc'], Start)
        | _ => ([], Cont (pred n) acc' 0x80 0xBF)
        end
      else let '(evs, st') := start_step b in (None :: evs, st')
  end.

Definition emit_events (m : mode) (evs : list event) (rest : res (list Z)) : res (list Z) :=
  fold_right (fun ev acc =>
    match ev with
    | Some c => cs <- acc ;; Ok (c :: cs)
    | None => match m with
              | Strict => Raise UnicodeDecodeError
              | Replace => cs <- acc ;; Ok (0xFFFD :: cs)
              end
    end) rest evs.

Fixpoint decode_go (m : mode) (st : state) (bs : list Z) : res (list Z) :=
  match bs with
  | [] => match st with Start => Ok [] | Cont _ _ _ _ => emit_events m [None] (Ok []) end
  | b :: r => let '(evs, st') := step st b in emit_events m evs (decode_go m st' r)
  end.

(** [bs.decode('utf-8')] and [bs.decode('utf-8', 'replace')]. *)
Definition decode (bs : list Z) : res (list Z) := decode_go Strict Start bs.
Definition decode_replace (bs : list Z) : list Z :=
  match decode_go Replace Start bs with Ok s => s | Raise _ => [] end.

(** [s.encode('utf-8')] *)
Definition encode_cp (c : Z) : list Z :=
  if c <? 0x80 then [c]
  else if c <? 0x800 then [0xC0 + c / 64; 0x80 + c mod 64]
  else if c <? 0x10000 then
    [0xE0 + c / 4096; 0x80 + (c / 64) mod 64; 0x80 + c mod 64]
  else [0xF0 + c / 262144; 0x80 + (c / 4096) mod 64; 0x80 + (c / 64) mod 64;
        0x80 + c mod 64].

Definition encode (s : list Z) : list Z := flat_map encode_cp s.

Definition scalar (c : Z) : Prop := 0 <= c <= 0x10FFFF /\ ~ (0xD800 <= c <= 0xDFFF).

(** ** One step at a time *)

Lemma start_ascii b : 0 <= b < 0x80 -> start_step b = ([Some b], Start).
Proof. intros. unfold start_step. by zcase. Qed.

Lemma start_lead2 b :
  0xC2 <= b < 0xE0 -> start_step b = ([], Cont 1 (b - 0xC0) 0x80 0xBF).
Proof. intros. unfold start_step. by zcase. Qed.

Lemma start_lead3 b :
  0xE0 <= b < 0xF0 ->
  start_step b = ([], Cont 2 (b - 0xE0) (if b =? 0xE0 then 0xA0 else 0x80)
                               (if b =? 0xED then 0x9F else 0xBF)).
Proof. intros. unfold start_step. zcase; subst; reflexivity. Qed.

Lemma start_lead4 b :
  0xF0 <= b <= 0xF4 ->
  start_step b = ([], Cont 3 (b - 0xF0) (if b =? 0xF0 then 0x90 else 0x80)
                               (if b =? 0xF4 then 0x8F else 0xBF)).
Proof. intros. unfold start_step. zcase; subst; reflexivity. Qed.

Lemma step_cont n acc lo hi b :
  lo <= b <= hi ->
  step (Cont n acc lo hi) b =
  match n with
  | 1%nat => ([Some (acc * 64 + (b - 0x80))], Start)
  | _ => ([], Cont (pred n) (acc * 64 + (b - 0x80)) 0x80 0xBF)
  end.
Proof. intros. simpl. by zcase. Qed.

Lemma decode_go_cons m st b r :
  decode_go m st (b :: r) =
  let '(evs, st') := step st b in emit_events m evs (decode_go m st' r).
Proof. reflexivity. Qed.

(** ** Round trip *)

#[local] Opaque Z.div Z.modulo.

Lemma decode_go_encode_cp m c r :
  scalar c ->
  decode_go m Start (encode_cp c ++ r) = (cs <- decode_go m Start r ;; Ok (c :: cs)).
Proof.
  intros [Hc Hs]. unfold encode_cp.
  destruct (Z.ltb_spec c 0x80).
  { simpl. rewrite start_ascii by zlia. reflexivity. }
  destruct (Z.ltb_spec c 0x800).
  { simpl. rewrite start_lead2 by zlia.
    rewrite step_cont by zlia. cbn.
    replace ((0xC0 + c / 64 - 0xC0) * 64 + (0x80 + c mod 64 - 0x80)) with c by zlia.
    reflexivity. }
  destruct (Z.ltb_spec c 0x10000).
  { simpl. rewrite start_lead3 by zlia.
    rewrite step_cont by (zcase; zlia). cbn [pred].
    rewrite step_cont by zlia. cbn.
    replace (((0xE0 + c / 4096 - 0xE0) * 64 + (0x80 + c / 64 mod 64 - 0x80)) * 64 +
             (0x80 + c mod 64 - 0x80)) with c by zlia.
    reflexivity. }
  simpl. rewrite start_lead4 by zlia.
  rewrite step_cont by (zcase; zlia). cbn [pred].
  rewrite step_cont by zlia. cbn [pred].
  rewrite step_cont by zlia. cbn.
  replace ((((0xF0 + c / 262144 - 0xF0) * 64 + (0x80 + c / 4096 mod 64 - 0x80)) * 64 +
            (0x80 + c / 64 mod 64 - 0x80)) * 64 + (0x80 + c mod 64 - 0x80)) with c by zlia.
  reflexivity.
Qed.

(** Decoding the UTF-8 encoding of a string of Unicode scalar values
    gives the string back, in either mode. *)
Lemma decode_encode_mode m s :
  Forall scalar s -> decode_go m Start (encode s) = Ok s.
Proof.
  induction 1 as [|c s Hc Hs IH]; [done|].
  unfold encode. simpl flat_map. rewrite decode_go_encode_cp by done.
  fold (encode s). by rewrite IH.
Qed.

(** The encoding of a scalar value is a list of bytes. *)
Lemma encode_bytes s : Forall scalar s -> Forall (fun b => 0 <= b < 256) (encode s).
Proof.
  intros Hs. unfold encode. apply Forall_flat_map. eapply List.Forall_impl; [|exact Hs].
  intros c [Hc _]. unfold encode_cp. zcase; repeat constructor; zlia.
Qed.

Lemma encode_app s t : encode (s ++ t) = encode s ++ encode t.
Proof. apply flat_map_app. Qed.

(** ASCII characters occur in the encoding only as themselves: an
    ASCII character absent from the text is absent from its bytes. *)
Lemma encode_free cs s :
  Forall (fun x => 0 <= x < 128) cs -> Forall scalar s -> free_of cs s -> free_of cs (encode s).
Proof.
  intros Hcs. assert (Hbig : forall b, 128 <= b -> b ∉ cs).
  { intros b Hb Hin. rewrite Forall_forall in Hcs.
    destruct (Hcs b); [first [done | by apply list_elem_of_In]|lia]. }
  induction s as [|c s IH]; intros Hs Hf; [constructor|].
  apply Forall_cons_iff in Hs as [[Hc _] Hs]. apply Forall_cons_iff in Hf as [Hn Hf].
  change (encode (c :: s)) with (encode_cp c ++ encode s). apply Forall_app. split; [|by apply IH].
  unfold encode_cp. zcase; repeat constructor; try done; apply Hbig; zlia.
Qed.

Lemma encode_cons_nonempty c s : encode (c :: s) <> [].
Proof. unfold encode, encode_cp. simpl. repeat destruct (_ <? _); discriminate. Qed.

Lemma utf8_decode_encode s : Forall scalar s -> decode (encode s) = Ok s.
Proof. apply decode_encode_mode. Qed.

(** 'replace' decoding never fails, and agrees with strict decoding
    whenever the latter succeeds. *)
Lemma emit_events_replace_ok evs r s :
  r = Ok s -> exists s', emit_events Replace evs r = Ok s'.
Proof.
  intros ->. induction evs as [|[c|] evs [s' IH]]; simpl; [eauto| |];
    rewrite IH; eauto.
Qed.

Lemma decode_go_replace_ok st bs : exists s, decode_go Replace st bs = Ok s.
Proof.
  revert st. induction bs as [|b bs IH]; intros st; simpl.
  - destruct st; [eauto|simpl; eauto].
  - destruct (step st b) as [evs st']. destruct (IH st') as [s Hs].
    exact (emit_events_replace_ok evs _ s Hs).
Qed.

Lemma emit_events_strict_replace evs r s :
  emit_events Strict evs r = Ok s -> exists r', r = Ok r' /\
    emit_events Replace evs (Ok r') = Ok s.
Proof.
  revert s. induction evs as [|[c|] evs IH]; intros s; simpl.
  - intros ->. eauto.
  - destruct (emit_events Strict evs r) as [s'|] eqn:E; [|discriminate].
    intros [= <-]. destruct (IH s' eq_refl) as (r' & -> & H). exists r'.
    split; [done|]. by rewrite H.
  - discriminate.
Qed.

Lemma decode_go_strict_replace st bs s :
  decode_go Strict st bs = Ok s -> decode_go Replace st bs = Ok s.
Proof.
  revert st s. induction bs as [|b bs IH]; intros st s; simpl.
  - by destruct st.
  - destruct (step st b) as [evs st']. intros H.
    apply emit_events_strict_replace in H as (r' & Hr & H).
    by rewrite (IH _ _ Hr).
Qed.

Lemma decode_replace_agrees bs s : decode bs = Ok s -> decode_replace bs = s.
Proof. unfold decode_replace. intros H. by rewrite (decode_go_strict_replace _ _ _ H). Qed.

End Utf8.
