(* ===== verification/Base64.v ===== *)
(** * Base64: binascii's decoder and the program's [safe_decode]
      (src/freefq.py, lines 34-43)

    [a2b_base64] is CPython's [binascii.a2b_base64] with
    [strict_mode=False] (what [base64.b64decode] with [validate=False]
    calls): a scan over the input that keeps the position in the current
    quad, the leftover bits and the run of '=' seen; characters outside
    the alphabet are skipped, a '=' once two characters of a quad are
    known ends the data when the quad is complete with padding, and
    input that stops in the middle of a quad raises binascii.Error.  The
    bytes produced are those the C code stores,
    [(leftchar << 2) | (ch >> 4)] and so on.  [b64decode] and
    [urlsafe_b64decode] first encode their [str] argument to ASCII
    (ValueError otherwise); the URL-safe one maps '-' and '_' to '+' and
    '/'.  [safe_decode] pads its argument with '=' to a multiple of four
    characters and calls [urlsafe_b64decode].

    [b64encode] (base64.b64encode) and [urlsafe_nopad] (the unpadded
    URL-safe encoding subscription links use) serve the round-trip
    theorems: [safe_decode] inverts both. *)

From S2P Require Import Prelude PyStr.
Open Scope Z_scope.

Module Base64.

(** The value of a character of the standard alphabet. *)
Definition b64_index (c : Z) : option Z :=
  if (65 <=? c) && (c <=? 90) then Some (c - 65)
  else if (97 <=? c) && (c <=? 122) then Some (c - 71)
  else if (48 <=? c) && (c <=? 57) then Some (c + 4)
  else if c =? 43 then Some 62
  else if c =? 47 then Some 63
  else None.

(** The scan of [binascii.a2b_base64]: quad position [q], leftover bits
    [left], count of '=' [pads], output so far (reversed). *)
Fixpoint a2b_go (q left pads : Z) (acc : list Z) (s : list Z) : res (list Z) :=
  match s with
  | [] => if q =? 0 then Ok (rev acc) else Raise BinasciiError
  | c :: r =>
      if c =? 61 then
        if q >=? 2 then
          if q + (pads + 1) >=? 4 then Ok (rev acc)
          else a2b_go q left (pads + 1) acc r
        else a2b_go q left pads acc r
      else
        match b64_index c with
        | None => a2b_go q left pads acc r
        | Some v =>
            if q =? 0 then a2b_go 1 v 0 acc r
            else if q =? 1 then
              a2b_go 2 (Z.land v 15) 0 (Z.lor (Z.shiftl left 2) (Z.shiftr v 4) :: acc) r
            else if q =? 2 then
              a2b_go 3 (Z.land v 3) 0 (Z.lor (Z.shiftl left 4) (Z.shiftr v 2) :: acc) r
            else a2b_go 0 0 0 (Z.lor (Z.shiftl left 6) v :: acc) r
        end
  end.

Definition a2b_base64 (s : list Z) : res (list Z) := a2b_go 0 0 0 [] s.

(** [str.encode('ascii')] *)
Definition ascii_encode (s : pystr) : res pybytes :=
  if forallb (fun c => c <? 128) s then Ok s else Raise ValueError.

(** [base64.b64decode(s)] for a [str] [s]. *)
Definition b64decode (s : pystr) : res pybytes :=
  bs <- ascii_encode s ;; a2b_base64 bs.

Definition urlsafe_char (c : Z) : Z :=
  if c =? 45 then 43 else if c =? 95 then 47 else c.

(** [base64.urlsafe_b64decode(s)] *)
Definition urlsafe_b64decode (s : pystr) : res pybytes :=
  bs <- ascii_encode s ;; a2b_base64 (map urlsafe_char bs).

(** The program's [safe_decode]. *)
Definition safe_decode (s : pystr) : res pybytes :=
  let num := Z.of_nat (length s) mod 4 in
  let s' := if num =? 0 then s else s ++ repeat 61 (Z.to_nat (4 - num)) in
  urlsafe_b64decode s'.

(** ** Encoders, for the round trips *)

Definition b64_char (v : Z) : Z :=
  if v <? 26 then 65 + v
  else if v <? 52 then 71 + v
  else if v <? 62 then v - 4
  else if v =? 62 then 43 else 47.

Definition quad (b1 b2 b3 : Z) : list Z :=
  [b64_char (b1 / 4); b64_char (b1 mod 4 * 16 + b2 / 16);
   b64_char (b2 mod 16 * 4 + b3 / 64); b64_char (b3 mod 64)].

(** [base64.b64encode] *)
Fixpoint b64encode (bs : list Z) : list Z :=
  match bs with
  | b1 :: b2 :: b3 :: r => quad b1 b2 b3 ++ b64encode r
  | [b1; b2] => [b64_char (b1 / 4); b64_char (b1 mod 4 * 16 + b2 / 16);
                 b64_char (b2 mod 16 * 4); 61]
  | [b1] => [b64_char (b1 / 4); b64_char (b1 mod 4 * 16); 61; 61]
  | [] => []
  end.

Definition urlsafe_enc_char (c : Z) : Z :=
  if c =? 43 then 45 else if c =? 47 then 95 else c.

(** The URL-safe encoding with its '=' padding removed. *)
Definition urlsafe_nopad (bs : list Z) : list Z :=
  map urlsafe_enc_char (List.filter (fun c => negb (c =? 61)) (b64encode bs)).

Definition is_byte (b : Z) : Prop := 0 <= b < 256.

(** ** The alphabet *)

#[local] Opaque Z.div Z.modulo.

Lemma b64_char_ok v :
  0 <= v < 64 -> (b64_char v =? 61) = false /\ b64_index (b64_char v) = Some v.
Proof.
  intros. unfold b64_char. zcase; unfold b64_index; zcase; split; try done; f_equal; lia.
Qed.

(** ** Recombining the bytes *)

Lemma recombine b a x k :
  0 <= k -> 0 <= b -> a = b / 2 ^ k -> x = b mod 2 ^ k -> Z.lor (Z.shiftl a k) x = b.
Proof.
  intros Hk Hb -> ->. rewrite lor_shiftl by (try apply Z.mod_pos_bound; lia).
  rewrite Z.mul_comm. symmetry. apply Z.div_mod. lia.
Qed.

(** Rewrite the alphabet lookups of the encoder's characters. *)
Ltac b64_chars :=
  repeat match goal with
         | |- context [b64_char ?v =? 61] =>
             let E := fresh in let I := fresh in
             destruct (b64_char_ok v) as [E I]; [zlia|rewrite E, I; clear E I; cbn]
         end.

Lemma a2b_quad b1 b2 b3 acc r :
  is_byte b1 -> is_byte b2 -> is_byte b3 ->
  a2b_go 0 0 0 acc (quad b1 b2 b3 ++ r) = a2b_go 0 0 0 (b3 :: b2 :: b1 :: acc) r.
Proof.
  unfold is_byte. intros H1 H2 H3. unfold quad. cbn. b64_chars.
  change 15 with (2 ^ 4 - 1). change 3 with (2 ^ 2 - 1).
  rewrite !land_low_bits, !Z.shiftr_div_pow2 by lia.
  repeat f_equal.
  - apply (recombine b3 _ _ 6); pow_lit; zlia.
  - apply (recombine b2 _ _ 4); pow_lit; zlia.
  - apply (recombine b1 _ _ 2); pow_lit; zlia.
Qed.

(** Induction following the encoder: groups of three bytes, then a tail
    of at most two. *)
Lemma b64_ind (P : list Z -> Prop) :
  P [] -> (forall b1, P [b1]) -> (forall b1 b2, P [b1; b2]) ->
  (forall b1 b2 b3 r, P r -> P (b1 :: b2 :: b3 :: r)) -> forall bs, P bs.
Proof.
  intros H0 H1 H2 H3. fix IH 1. intros [|b1 [|b2 [|b3 r]]]; [exact H0|apply H1|apply H2|].
  apply H3, IH.
Qed.

Lemma a2b_b64encode bs acc :
  Forall is_byte bs -> a2b_go 0 0 0 acc (b64encode bs) = Ok (rev acc ++ bs).
Proof.
  revert acc. induction bs as [|b1|b1 b2|b1 b2 b3 r IH] using b64_ind;
    intros acc Hf; repeat rewrite Forall_cons_iff in Hf; unfold is_byte in Hf.
  - by rewrite app_nil_r.
  - cbn. b64_chars. rewrite Z.shiftr_div_pow2 by lia. do 3 f_equal.
    apply (recombine b1 _ _ 2); pow_lit; zlia.
  - cbn. b64_chars. change 15 with (2 ^ 4 - 1).
    rewrite !land_low_bits, !Z.shiftr_div_pow2 by lia. cbn. rewrite <- app_assoc. do 2 f_equal.
    cbn. f_equal; [|f_equal]; [apply (recombine b1 _ _ 2)|apply (recombine b2 _ _ 4)];
      pow_lit; zlia.
  - destruct Hf as (H1 & H2 & H3 & Hr). cbn [b64encode].
    rewrite a2b_quad, IH by done. cbn. by rewrite <- !app_assoc.
Qed.

(** ** [safe_decode] inverts the encoders *)

(** The characters the encoder writes before its padding. *)
(** The URL-safe alphabet. *)
Definition urlsafe_alpha (c : Z) : Prop :=
  (65 <= c <= 90) \/ (97 <= c <= 122) \/ (48 <= c <= 57) \/ c = 45 \/ c = 95.

Definition b64_good (c : Z) : Prop :=
  c <> 61 /\ urlsafe_char c = c /\ urlsafe_char (urlsafe_enc_char c) = c /\
  0 <= c < 128 /\ urlsafe_alpha (urlsafe_enc_char c).

Lemma urlsafe_char_enc c :
  c <> 45 -> c <> 95 -> urlsafe_char c = c /\ urlsafe_char (urlsafe_enc_char c) = c.
Proof.
  intros. unfold urlsafe_enc_char. zcase; unfold urlsafe_char; zcase; done.
Qed.

Lemma b64_char_good v : 0 <= v < 64 -> b64_good (b64_char v).
Proof.
  intros. assert (b64_char v <> 45 /\ b64_char v <> 95 /\ b64_char v <> 61 /\
                  0 <= b64_char v < 128) as (? & ? & ? & ?).
  { unfold b64_char. zcase; lia. }
  destruct (urlsafe_char_enc (b64_char v)) as [? ?]; [done..|].
  assert (urlsafe_alpha (urlsafe_enc_char (b64_char v))).
  { unfold urlsafe_alpha, urlsafe_enc_char, b64_char. zcase; lia. }
  unfold b64_good. split_and!; (done || lia).
Qed.

Local Ltac good_chars :=
  repeat (constructor 2; [apply b64_char_good; zlia|]); constructor 1.

(** The encoding is a body of alphabet characters and at most two '=',
    four characters per group. *)
Lemma b64encode_shape bs :
  Forall is_byte bs -> exists body k,
    b64encode bs = body ++ repeat 61 k /\ Forall b64_good body /\
    ((length body + k) mod 4 = 0 /\ k <= 2)%nat.
Proof.
  induction bs as [|b1|b1 b2|b1 b2 b3 r IH] using b64_ind; intros Hf;
    repeat rewrite Forall_cons_iff in Hf; unfold is_byte in Hf.
  - exists [], 0%nat. split_and!; [done|constructor|done|lia].
  - exists [b64_char (b1 / 4); b64_char (b1 mod 4 * 16)], 2%nat.
    split_and!; [reflexivity|good_chars|done|lia].
  - exists [b64_char (b1 / 4); b64_char (b1 mod 4 * 16 + b2 / 16);
            b64_char (b2 mod 16 * 4)], 1%nat.
    split_and!; [reflexivity|good_chars|done|lia].
  - destruct Hf as (H1 & H2 & H3 & Hr).
    destruct (IH Hr) as (body & k & Hb & Hg & Hl & Hk).
    exists (quad b1 b2 b3 ++ body), k. cbn [b64encode]. rewrite Hb, <- app_assoc.
    split_and!; [done|apply Forall_app; split; [unfold quad; good_chars|done]| |done].
    rewrite length_app. cbn [length quad].
    rewrite <- Nat.add_assoc, <- Nat.Div0.add_mod_idemp_r, Hl by lia. done.
Qed.

(** Decoding a body mapped by a character map that [urlsafe_char]
    undoes, followed by padding. *)
Lemma urlsafe_b64decode_body f body k :
  (forall c, b64_good c -> urlsafe_char (f c) = c /\ 0 <= f c < 128) ->
  Forall b64_good body ->
  urlsafe_b64decode (map f body ++ repeat 61 k) = a2b_base64 (body ++ repeat 61 k).
Proof.
  intros Hf Hb. unfold urlsafe_b64decode, ascii_encode.
  rewrite Forall_forall in Hb.
  replace (forallb _ (map f body ++ repeat 61 k)) with true.
  2:{ symmetry. apply forallb_forall. intros c [(c' & <- & Hc)%in_map_iff | ->%repeat_spec]%in_app_or.
      - destruct (Hf c' (Hb c' Hc)) as [_ ?]. apply Z.ltb_lt. lia.
      - done. }
  cbn. rewrite map_app, map_map, map_repeat. do 2 f_equal. rewrite <- (map_id body) at 2. apply map_ext_in.
  intros c Hc. apply (Hf c (Hb c Hc)).
Qed.

(** [safe_decode]'s padding of a body of length [n] whose encoding has
    [k] '=': it appends exactly those [k]. *)
Lemma safe_decode_pad (s : list Z) k :
  ((length s + k) mod 4 = 0 /\ k <= 2)%nat ->
  (let num := Z.of_nat (length s) mod 4 in
   if num =? 0 then s else s ++ repeat 61 (Z.to_nat (4 - num))) = s ++ repeat 61 k.
Proof.
  intros [Hl Hk]. apply (f_equal Z.of_nat) in Hl. rewrite Nat2Z.inj_mod in Hl.
  cbn zeta. zcase.
  - replace k with 0%nat by zlia. by rewrite app_nil_r.
  - do 2 f_equal. zlia.
Qed.

Lemma filter_body body k :
  Forall b64_good body ->
  List.filter (fun c => negb (c =? 61)) (body ++ repeat 61 k) = body.
Proof.
  intros Hb. rewrite filter_app. replace (List.filter _ (repeat 61 k)) with (@nil Z).
  - rewrite app_nil_r. induction Hb as [|c body [? _] _ IH]; [done|]. simpl.
    zcase. by rewrite IH.
  - induction k; [done|]. simpl. done.
Qed.

Lemma a2b_base64_b64encode bs : Forall is_byte bs -> a2b_base64 (b64encode bs) = Ok bs.
Proof. intros. unfold a2b_base64. by rewrite a2b_b64encode. Qed.

(** Padded standard encoding. *)
Lemma safe_decode_b64encode_ok bs : Forall is_byte bs -> safe_decode (b64encode bs) = Ok bs.
Proof.
  intros Hb. destruct (b64encode_shape bs Hb) as (body & k & He & Hg & Hl).
  unfold safe_decode. rewrite He, (safe_decode_pad _ 0).
  2:{ rewrite length_app, repeat_length, Nat.add_0_r. split; [apply Hl|lia]. }
  cbn [repeat]. rewrite app_nil_r, <- (map_id body) at 1.
  rewrite urlsafe_b64decode_body by (done || (intros c (_ & ? & _ & ? & _); done)).
  rewrite <- He. by apply a2b_base64_b64encode.
Qed.

(** Unpadded URL-safe encoding. *)
Lemma safe_decode_nopad_ok bs : Forall is_byte bs -> safe_decode (urlsafe_nopad bs) = Ok bs.
Proof.
  intros Hb. destruct (b64encode_shape bs Hb) as (body & k & He & Hg & Hl).
  unfold urlsafe_nopad, safe_decode. rewrite He, filter_body by done.
  rewrite (safe_decode_pad _ k) by (rewrite length_map; exact Hl).
  rewrite urlsafe_b64decode_body
    by (done || (intros c (_ & _ & ? & _ & ?); unfold urlsafe_alpha in *; split; [done|lia])).
  rewrite <- He. by apply a2b_base64_b64encode.
Qed.

(** The encoding is ASCII text. *)
Lemma b64encode_ascii bs : Forall is_byte bs -> Forall (fun c => 0 <= c < 128) (b64encode bs).
Proof.
  intros Hb. destruct (b64encode_shape bs Hb) as (body & k & He & Hg & _).
  rewrite He. apply Forall_app. split.
  - eapply List.Forall_impl; [|exact Hg]. by intros c (_ & _ & _ & ? & _).
  - apply List.Forall_forall. intros c Hc%repeat_spec. lia.
Qed.

Lemma ascii_encode_ok s : Forall (fun c => 0 <= c < 128) s -> ascii_encode s = Ok s.
Proof.
  intros Hs. unfold ascii_encode. replace (forallb _ s) with true; [done|].
  symmetry. apply forallb_forall. intros c Hc. rewrite Forall_forall in Hs.
  destruct (Hs c); [first [done | by apply list_elem_of_In]|]. by zcase.
Qed.

(** [base64.b64decode] inverts [base64.b64encode]. *)
Lemma b64decode_b64encode bs : Forall is_byte bs -> b64decode (b64encode bs) = Ok bs.
Proof.
  intros Hb. unfold b64decode. rewrite ascii_encode_ok by (by apply b64encode_ascii).
  cbn. by apply a2b_base64_b64encode.
Qed.

(** ** The encoding without its padding *)

Definition strip_pad (s : list Z) : list Z := List.filter (fun c => negb (c =? 61)) s.

Lemma b64_char_not_pad v : 0 <= v < 64 -> (b64_char v =? 61) = false.
Proof. apply b64_char_ok. Qed.

Lemma b64_index_char v : 0 <= v < 64 -> b64_index (b64_char v) = Some v.
Proof. apply b64_char_ok. Qed.

Lemma strip_pad_quad b1 b2 b3 :
  is_byte b1 -> is_byte b2 -> is_byte b3 -> strip_pad (quad b1 b2 b3) = quad b1 b2 b3.
Proof.
  unfold is_byte. intros. unfold strip_pad, quad. cbn [List.filter].
  rewrite !b64_char_not_pad by zlia. reflexivity.
Qed.

(** A byte string whose length is not a multiple of three leaves the
    last quad of its unpadded encoding incomplete: the strict scan
    raises binascii.Error. *)
Lemma a2b_strip_pad bs acc :
  Forall is_byte bs -> (length bs mod 3 <> 0)%nat ->
  a2b_go 0 0 0 acc (strip_pad (b64encode bs)) = Raise BinasciiError.
Proof.
  revert acc. induction bs as [|b1|b1 b2|b1 b2 b3 r IH] using b64_ind;
    intros acc Hf Hl; repeat rewrite Forall_cons_iff in Hf; unfold is_byte in Hf.
  - done.
  - cbn. repeat (rewrite b64_char_not_pad by zlia; cbn).
    repeat (rewrite b64_index_char by zlia; cbn). reflexivity.
  - cbn. repeat (rewrite b64_char_not_pad by zlia; cbn).
    repeat (rewrite b64_index_char by zlia; cbn). reflexivity.
  - destruct Hf as (H1 & H2 & H3 & Hr). cbn [b64encode]. unfold strip_pad.
    rewrite filter_app. fold (strip_pad (quad b1 b2 b3)). fold (strip_pad (b64encode r)).
    rewrite strip_pad_quad, a2b_quad by done. apply IH; [done|].
    cbn [length] in Hl. replace (S (S (S (length r)))) with (length r + 1 * 3)%nat in Hl by lia.
    by rewrite Nat.Div0.mod_add in Hl.
Qed.

Lemma b64decode_strip_pad bs :
  Forall is_byte bs -> (length bs mod 3 <> 0)%nat ->
  b64decode (strip_pad (b64encode bs)) = Raise BinasciiError.
Proof.
  intros Hb Hl. unfold b64decode. rewrite ascii_encode_ok.
  - cbn. by apply a2b_strip_pad.
  - apply Forall_filter_sub. by apply b64encode_ascii.
Qed.

(** The encoding of a non-empty byte string starts with an alphabet
    character. *)
Lemma b64encode_head b1 r : exists t, b64encode (b1 :: r) = b64_char (b1 / 4) :: t.
Proof. destruct r as [|b2 [|b3 r]]; eexists; reflexivity. Qed.

(** The unpadded URL-safe encoding is written in the URL-safe alphabet. *)
Lemma urlsafe_nopad_alpha bs : Forall is_byte bs -> Forall urlsafe_alpha (urlsafe_nopad bs).
Proof.
  intros Hb. destruct (b64encode_shape bs Hb) as (body & k & He & Hg & _).
  unfold urlsafe_nopad. rewrite He, filter_body by done.
  apply Forall_map. eapply List.Forall_impl; [|exact Hg]. by intros c (_ & _ & _ & _ & ?).
Qed.

(** The unpadded URL-safe encoding of a non-empty byte string starts
    with a character of the URL-safe alphabet. *)
Lemma urlsafe_nopad_head b1 r :
  0 <= b1 < 256 -> exists c t, urlsafe_nopad (b1 :: r) = c :: t /\ urlsafe_alpha c.
Proof.
  intros Hb. destruct (b64encode_head b1 r) as [t Ht].
  destruct (b64_char_good (b1 / 4)) as (? & _ & _ & _ & ?); [zlia|].
  unfold urlsafe_nopad. rewrite Ht. simpl. destruct (Z.eqb_spec (b64_char (b1 / 4)) 61); [done|].
  simpl. eauto.
Qed.

(** C8: [safe_decode] inverts base64 encoding in both forms the
    subscriptions use: for every byte string, decoding its standard
    padded encoding, and decoding its URL-safe encoding with the '='
    padding removed, both give it back. *)
Theorem safe_decode_roundtrip bs :
  Forall is_byte bs ->
  safe_decode (b64encode bs) = Ok bs /\ safe_decode (urlsafe_nopad bs) = Ok bs.
Proof. intros Hb. split; [apply safe_decode_b64encode_ok|apply safe_decode_nopad_ok]; done. Qed.

Lemma safe_decode_roundtrip_witness :
  Forall is_byte [112; 97; 115; 115; 251] /\
  (safe_decode (b64encode [112; 97; 115; 115; 251]) = Ok [112; 97; 115; 115; 251] /\
   safe_decode (urlsafe_nopad [112; 97; 115; 115; 251]) = Ok [112; 97; 115; 115; 251]).
Proof.
  assert (Hb : Forall is_byte [112; 97; 115; 115; 251]) by (repeat constructor; lia).
  split; [exact Hb|]. apply safe_decode_roundtrip. exact Hb.
Defined.

End Base64.
