(* ===== verification/Percent.v ===== *)
(** * Percent-decoding: [urllib.parse.unquote]

    CPython's [unquote(string)] with its defaults (encoding 'utf-8',
    errors 'replace'): a string without '%' is returned as it is;
    otherwise every maximal run of ASCII characters is percent-decoded
    to bytes by [unquote_to_bytes] ('%' followed by two hexadecimal
    digits is that byte, any other '%' stays) and the bytes are decoded
    as UTF-8 with U+FFFD for malformed sequences, while the non-ASCII
    characters between the runs are kept.  [quote] ([quote(s, safe='')])
    is the encoder the round trip [unquote_quote] inverts. *)

From S2P Require Import Prelude PyStr Utf8.
Open Scope Z_scope.

Module Percent.

Definition hex_val (c : Z) : option Z :=
  if (48 <=? c) && (c <=? 57) then Some (c - 48)
  else if (65 <=? c) && (c <=? 70) then Some (c - 55)
  else if (97 <=? c) && (c <=? 102) then Some (c - 87)
  else None.

(** [unquote_to_bytes] on the UTF-8 bytes of its argument. *)
Fixpoint unquote_to_bytes (s : list Z) : list Z :=
  match s with
  | [] => []
  | c :: t =>
      if c =? 37 then
        match t with
        | h1 :: h2 :: r =>
            match hex_val h1, hex_val h2 with
            | Some a, Some b => a * 16 + b :: unquote_to_bytes r
            | _, _ => 37 :: unquote_to_bytes t
            end
        | _ => 37 :: unquote_to_bytes t
        end
      else c :: unquote_to_bytes t
  end.

(** One ASCII run, percent-decoded and decoded as UTF-8 ('replace'). *)
Definition flush (run : list Z) : list Z :=
  Utf8.decode_replace (unquote_to_bytes (Utf8.encode run)).

(** The loop over [_asciire.split(string)]: [run] is the current ASCII
    run, reversed. *)
Fixpoint unquote_go (run : list Z) (s : list Z) : list Z :=
  match s with
  | [] => flush (rev run)
  | c :: r =>
      if c <? 128 then unquote_go (c :: run) r
      else flush (rev run) ++ c :: unquote_go [] r
  end.

Definition unquote (s : pystr) : pystr :=
  if existsb (fun c => c =? 37) s then unquote_go [] s else s.

(** ** The encoder *)

Definition hex_digit (v : Z) : Z := if v <? 10 then 48 + v else 55 + v.

(** Python's always-safe characters: letters, digits and [_.-~]. *)
Definition unreserved (b : Z) : bool :=
  ((65 <=? b) && (b <=? 90)) || ((97 <=? b) && (b <=? 122)) ||
  ((48 <=? b) && (b <=? 57)) || (b =? 95) || (b =? 46) || (b =? 45) || (b =? 126).

Definition quote_byte (b : Z) : list Z :=
  if unreserved b then [b] else [37; hex_digit (b / 16); hex_digit (b mod 16)].

Definition quote (s : pystr) : pystr := flat_map quote_byte (Utf8.encode s).

(** ** Lemmas *)

#[local] Opaque Z.div Z.modulo.

Definition ascii (c : Z) : Prop := 0 <= c < 128.

Lemma encode_ascii s : Forall ascii s -> Utf8.encode s = s.
Proof.
  induction 1 as [|c s Hc _ IH]; [done|]. unfold ascii in Hc.
  unfold Utf8.encode in *. simpl. rewrite IH. unfold Utf8.encode_cp. by zcase.
Qed.

Lemma decode_replace_encode s : Forall Utf8.scalar s -> Utf8.decode_replace (Utf8.encode s) = s.
Proof. intros. unfold Utf8.decode_replace. by rewrite Utf8.decode_encode_mode. Qed.

Lemma decode_replace_ascii s : Forall ascii s -> Utf8.decode_replace s = s.
Proof.
  intros H. rewrite <- (encode_ascii s) at 1 by done. apply decode_replace_encode.
  eapply List.Forall_impl; [|exact H]. intros c Hc. unfold ascii, Utf8.scalar in *. lia.
Qed.

Lemma unquote_to_bytes_no_pct s : Forall (fun c => c <> 37) s -> unquote_to_bytes s = s.
Proof. induction 1 as [|c s Hc _ IH]; [done|]. simpl. zcase. by rewrite IH. Qed.

Lemma flush_plain run : Forall (fun c => ascii c /\ c <> 37) run -> flush run = run.
Proof.
  intros H. unfold flush. rewrite encode_ascii by (eapply List.Forall_impl; [|exact H]; by intros c []).
  rewrite unquote_to_bytes_no_pct by (eapply List.Forall_impl; [|exact H]; by intros c []).
  apply decode_replace_ascii. eapply List.Forall_impl; [|exact H]. by intros c [].
Qed.

(** An all-ASCII string is one run. *)
Lemma unquote_go_ascii run s :
  Forall ascii s -> unquote_go run s = flush (rev run ++ s).
Proof.
  revert run. induction s as [|c s IH]; intros run Hs; simpl.
  - by rewrite app_nil_r.
  - apply Forall_cons_iff in Hs as [Hc Hs]. unfold ascii in Hc. zcase.
    rewrite IH by done. simpl. by rewrite <- app_assoc.
Qed.

(** Without '%', the general path returns its argument: the shortcut of
    [unquote] is only an optimisation. *)
Lemma unquote_go_plain run s :
  Forall (fun c => ascii c /\ c <> 37) run -> Forall (fun c => 0 <= c /\ c <> 37) s ->
  unquote_go run s = rev run ++ s.
Proof.
  revert run. induction s as [|c s IH]; intros run Hr Hs; simpl.
  - rewrite app_nil_r. apply flush_plain. by apply Forall_rev.
  - apply Forall_cons_iff in Hs as [Hc Hs]. zcase.
    + rewrite IH; [simpl; by rewrite <- app_assoc| |done].
      constructor; [unfold ascii; lia|done].
    + rewrite flush_plain by (by apply Forall_rev). by rewrite IH.
Qed.

Lemma unquote_general s : Forall (fun c => 0 <= c) s -> unquote s = unquote_go [] s.
Proof.
  intros H. unfold unquote. destruct (existsb _ s) eqn:E; [done|].
  rewrite unquote_go_plain; [done|constructor|].
  apply Forall_forall. intros c Hc. rewrite Forall_forall in H.
  split; [by apply H|]. intros ->.
  assert (existsb (fun c => c =? 37) s = true) as E' by (apply existsb_exists; eauto).
  congruence.
Qed.

(** ** The round trip *)

Lemma hex_val_digit v : 0 <= v < 16 -> hex_val (hex_digit v) = Some v.
Proof. intros. unfold hex_digit. zcase; unfold hex_val; zcase; f_equal; lia. Qed.

Lemma quote_byte_ascii b : 0 <= b < 256 -> Forall ascii (quote_byte b).
Proof.
  intros. unfold quote_byte, unreserved, ascii.
  destruct (_ || _) eqn:E; repeat constructor; unfold hex_digit; zcase; zlia.
Qed.

Lemma unquote_quote_byte b r :
  0 <= b < 256 -> unquote_to_bytes (quote_byte b ++ r) = b :: unquote_to_bytes r.
Proof.
  intros Hb. unfold quote_byte. destruct (unreserved b) eqn:E; simpl.
  - assert (b <> 37) by (intros ->; discriminate E). by zcase.
  - rewrite !hex_val_digit by zlia. f_equal. zlia.
Qed.

Lemma unquote_to_bytes_quote bs :
  Forall (fun b => 0 <= b < 256) bs -> unquote_to_bytes (flat_map quote_byte bs) = bs.
Proof.
  induction 1 as [|b bs Hb _ IH]; [done|]. simpl. by rewrite unquote_quote_byte, IH.
Qed.

Lemma quote_ascii s : Forall Utf8.scalar s -> Forall ascii (quote s).
Proof.
  intros Hs. unfold quote. apply Forall_flat_map.
  eapply List.Forall_impl; [|exact (Utf8.encode_bytes s Hs)]. apply quote_byte_ascii.
Qed.

(** The quoted text is printable ASCII: no control character, no space. *)
Lemma quote_byte_printable b : 0 <= b < 256 -> Forall (fun c => 32 < c < 128) (quote_byte b).
Proof.
  intros. unfold quote_byte, unreserved.
  destruct (_ || _) eqn:E; repeat constructor; unfold hex_digit; zcase; try zlia.
  all: rewrite !orb_true_iff, !andb_true_iff, !Z.leb_le, !Z.eqb_eq in E; lia.
Qed.

Lemma quote_printable s : Forall Utf8.scalar s -> Forall (fun c => 32 < c < 128) (quote s).
Proof.
  intros Hs. unfold quote. apply Forall_flat_map.
  eapply List.Forall_impl; [|exact (Utf8.encode_bytes s Hs)]. apply quote_byte_printable.
Qed.

(** CPython's [unquote] inverts [quote(s, safe='')] on every string of
    Unicode scalar values. *)
Lemma unquote_quote s : Forall Utf8.scalar s -> unquote (quote s) = s.
Proof.
  intros Hs. pose proof (Utf8.encode_bytes s Hs) as Hb. pose proof (quote_ascii s Hs).
  rewrite unquote_general by (eapply List.Forall_impl; [|done]; unfold ascii; lia).
  rewrite unquote_go_ascii by done. unfold flush. simpl.
  rewrite encode_ascii by done. unfold quote. rewrite unquote_to_bytes_quote by done.
  by apply decode_replace_encode.
Qed.

End Percent.
