(* ===== verification/PyRegex.v ===== *)
(** * [re.match] for the patterns of [decode_ss_node]

    The three patterns the program matches, [(.*?)@( .* ):( .* )],
    [(.*?):( .* )] and [(.*?):( .* )@( .* ):( .* )], are sequences of literal
    characters and capturing groups [( .* )] (greedy) or [(.*?)] (lazy),
    with [.] any character but a newline and the match anchored at the
    start of the string only.  [re_match] is the backtracking search of
    CPython's [sre] engine for such patterns: a greedy group tries the
    longest run of non-newline characters first and gives back one
    character at a time, a lazy group tries the shortest first; the
    first way the rest of the pattern matches fixes the groups.

    The lemmas characterise the match directly: a lazy group before a
    literal stops at the literal's first occurrence, a greedy group at
    its last occurrence on the line. *)

From S2P Require Import Prelude PyStr.
Open Scope Z_scope.

Module PyRegex.

Inductive item :=
| Lit (c : Z)
| Grp (lazy : bool).

(** The length of the run of non-newline characters at the head. *)
Fixpoint line_len (s : list Z) : nat :=
  match s with
  | c :: r => if c =? 10 then 0%nat else S (line_len r)
  | [] => 0%nat
  end.

Fixpoint first_some {A} (f : nat -> option A) (ks : list nat) : option A :=
  match ks with
  | [] => None
  | k :: ks' => match f k with Some a => Some a | None => first_some f ks' end
  end.

(** The groups of the first match of pattern [p] at the start of [s]. *)
Fixpoint re_match (p : list item) (s : list Z) : option (list (list Z)) :=
  match p with
  | [] => Some []
  | Lit c :: p' =>
      match s with
      | d :: s' => if d =? c then re_match p' s' else None
      | [] => None
      end
  | Grp lazy :: p' =>
      let ks := seq 0 (S (line_len s)) in
      first_some (fun k => gs ← re_match p' (drop k s); Some (take k s :: gs))
                 (if lazy then ks else rev ks)
  end.

(** [matcher.group(i)] *)
Definition group (gs : list (list Z)) (i : nat) : list Z := nth (pred i) gs [].

(** [(.*?)@( .* ):( .* )] *)
Definition pat_at : list item := [Grp true; Lit 64; Grp false; Lit 58; Grp false].
(** [(.*?):( .* )] *)
Definition pat_colon : list item := [Grp true; Lit 58; Grp false].
(** [(.*?):( .* )@( .* ):( .* )] *)
Definition pat_full : list item :=
  [Grp true; Lit 58; Grp false; Lit 64; Grp false; Lit 58; Grp false].

(** ** The search *)

Lemma re_match_grp lazy p' s :
  re_match (Grp lazy :: p') s =
  first_some (fun k => gs ← re_match p' (drop k s); Some (take k s :: gs))
             (if lazy then seq 0 (S (line_len s)) else rev (seq 0 (S (line_len s)))).
Proof. reflexivity. Qed.

Section FirstSome.
Context {A : Type} (f : nat -> option A).

Lemma first_some_app l1 j l2 a :
  Forall (fun k => f k = None) l1 -> f j = Some a -> first_some f (l1 ++ j :: l2) = Some a.
Proof. induction 1 as [|k l1 Hk _ IH]; intros Hj; simpl; [by rewrite Hj|by rewrite Hk, IH]. Qed.

Lemma first_some_None l : Forall (fun k => f k = None) l -> first_some f l = None.
Proof. induction 1 as [|k l Hk _ IH]; simpl; [done|by rewrite Hk]. Qed.
End FirstSome.

Lemma seq_split j n : (j <= n)%nat -> seq 0 (S n) = seq 0 j ++ j :: seq (S j) (n - j).
Proof.
  intros. replace (S n) with (j + S (n - j))%nat by lia. rewrite seq_app. done.
Qed.

Definition no_nl (s : list Z) : Prop := Forall (fun x => x <> 10) s.

Lemma line_len_app u t : no_nl u -> line_len (u ++ t) = (length u + line_len t)%nat.
Proof. induction 1 as [|x u Hx _ IH]; simpl; [done|]. zcase. by rewrite IH. Qed.

Lemma line_len_full t : no_nl t -> line_len t = length t.
Proof. intros H. rewrite <- (app_nil_r t) at 1. rewrite line_len_app by done. simpl. lia. Qed.

Lemma lit_mismatch c p' x r : x <> c -> re_match (Lit c :: p') (x :: r) = None.
Proof. intros. simpl. by zcase. Qed.

(** No occurrence of [c]: the literal fails at every position. *)
Lemma lit_absent c p' t i : Forall (fun x => x <> c) t -> re_match (Lit c :: p') (drop i t) = None.
Proof.
  intros Ht. apply (Forall_drop _ i) in Ht.
  destruct (drop i t) as [|x r]; [done|]. apply lit_mismatch. by inversion Ht.
Qed.

Lemma drop_app_cons k (u t : list Z) c :
  (k <= length u)%nat -> drop k (u ++ c :: t) = drop k u ++ c :: t.
Proof. intros. rewrite drop_app_le by lia. done. Qed.

(** ** Groups *)

(** A lazy group followed by a literal stops at the literal's first
    occurrence. *)
Lemma lazy_lit c p' u t gs :
  c <> 10 -> Forall (fun x => x <> c /\ x <> 10) u -> re_match p' t = Some gs ->
  re_match (Grp true :: Lit c :: p') (u ++ c :: t) = Some (u :: gs).
Proof.
  intros Hc Hu Ht. assert (no_nl u) by (eapply List.Forall_impl; [|exact Hu]; by intros x []).
  rewrite re_match_grp. rewrite (seq_split (length u)).
  2:{ rewrite line_len_app by done. lia. }
  apply first_some_app.
  - apply Forall_forall. intros k Hk%in_seq.
    rewrite drop_app_cons by lia. destruct (drop k u) as [|x r] eqn:E.
    { apply (f_equal length) in E. rewrite length_drop in E. simpl in E. lia. }
    apply (Forall_drop _ k) in Hu. rewrite E in Hu. inversion Hu as [|? ? [? ?]].
    simpl. by zcase.
  - rewrite drop_app_length, take_app_length. simpl. zcase. by rewrite Ht.
Qed.

(** A greedy group followed by a literal stops at the last position of
    the line where the rest of the pattern matches. *)
Lemma greedy_lit c p' v t gs :
  c <> 10 -> no_nl v -> re_match p' t = Some gs ->
  (forall i, (i <= line_len t)%nat -> re_match (Lit c :: p') (drop i t) = None) ->
  re_match (Grp false :: Lit c :: p') (v ++ c :: t) = Some (v :: gs).
Proof.
  intros Hc Hv Ht Hlast. rewrite re_match_grp.
  assert (Hn : line_len (v ++ c :: t) = (length v + S (line_len t))%nat).
  { rewrite line_len_app by done. simpl. by zcase. }
  rewrite Hn, (seq_split (length v)) by lia. rewrite rev_app_distr. cbn [rev].
  rewrite <- app_assoc. cbn [app]. apply first_some_app.
  - apply Forall_rev, Forall_forall. intros k Hk%in_seq.
    replace (drop k (v ++ c :: t)) with (drop (k - length v - 1) t).
    + cbv beta. rewrite Hlast by lia. done.
    + rewrite drop_app_ge by lia. replace (k - length v)%nat with (S (k - length v - 1)) by lia.
      cbn [drop]. f_equal. lia.
  - rewrite drop_app_length, take_app_length. simpl. zcase. by rewrite Ht.
Qed.

(** A greedy group at the end of the pattern takes the rest of the line. *)
Lemma greedy_end t : no_nl t -> re_match [Grp false] t = Some [t].
Proof.
  intros Ht. rewrite re_match_grp. rewrite line_len_full by done.
  rewrite seq_S, rev_app_distr. cbn [rev app first_some Nat.add].
  by rewrite drop_all, firstn_all.
Qed.

Lemma drop_line_head s k x r :
  (k <= line_len s)%nat -> drop k s = x :: r ->
  x = 10 \/ (k < line_len s)%nat /\ s !! k = Some x.
Proof.
  revert k. induction s as [|y s IH]; intros k Hk E; [by destruct k|].
  cbn [line_len] in Hk. destruct k as [|k]; simpl in E.
  - injection E as -> ->. destruct (Z.eqb_spec x 10) as [|Hne]; [by left|right].
    cbn [line_len]. rewrite (proj2 (Z.eqb_neq _ _) Hne). split; [lia|done].
  - destruct (Z.eqb_spec y 10) as [->|Hne]; [cbn in Hk; lia|].
    assert (line_len (y :: s) = S (line_len s)) as -> by (cbn; by zcase).
    destruct (IH k) as [?|[? ?]]; [lia|done|by left|right; split; [lia|done]].
Qed.

(** A literal missing from the first line: no match. *)
Lemma lit_not_on_line b c p' s :
  c <> 10 -> Forall (fun x => x <> c) (take (line_len s) s) ->
  re_match (Grp b :: Lit c :: p') s = None.
Proof.
  intros Hc Hs. rewrite re_match_grp. apply first_some_None.
  assert (Forall (fun k => (k <= line_len s)%nat) (seq 0 (S (line_len s)))).
  { apply Forall_forall. intros k Hk%in_seq. lia. }
  eapply List.Forall_impl; [|destruct b; [done|by apply Forall_rev]].
  intros k Hk. cbv beta in Hk |- *. destruct (drop k s) as [|x r] eqn:E; [done|].
  simpl. destruct (drop_line_head s k x r Hk E) as [->|[Hlt Hx]]; zcase; try done.
  exfalso. apply (Forall_lookup_1 _ _ k x Hs); [|done].
  rewrite lookup_take, decide_True by lia. done.
Qed.

(** ** The three patterns *)

(** Discharge [Forall] side conditions from [free_of] hypotheses. *)
Local Ltac fa :=
  unfold no_nl in *;
  repeat first [ apply Forall_app; split | constructor ];
  first [ lia
        | match goal with
          | H : free_of _ ?s |- Forall _ ?s =>
              apply (free_of_Forall _ _ _ H); intros ? Hx;
              rewrite ?not_elem_of_cons in Hx; lia
          end ].

(** [(.*?)@( .* ):( .* )] on [userinfo@server:port]: the user info has no
    '@', the port no ':'. *)
Lemma match_at u srv port :
  free_of [64; 10] u -> free_of [10] srv -> free_of [58; 10] port ->
  re_match pat_at (u ++ 64 :: srv ++ 58 :: port) = Some [u; srv; port].
Proof.
  intros Hu Hs Hp. apply lazy_lit; [lia|fa|]. apply greedy_lit; [lia|fa| |].
  - apply greedy_end. fa.
  - intros i _. apply lit_absent. fa.
Qed.

(** [(.*?):( .* )] on [method:password]: the method has no ':'. *)
Lemma match_colon m pw :
  free_of [58; 10] m -> free_of [10] pw ->
  re_match pat_colon (m ++ 58 :: pw) = Some [m; pw].
Proof. intros Hm Hp. apply lazy_lit; [lia|fa|]. apply greedy_end. fa. Qed.

(** [(.*?):( .* )@( .* ):( .* )] on [method:password@server:port]. *)
Lemma match_full m pw srv port :
  free_of [58; 10] m -> free_of [10] pw -> free_of [64; 10] srv ->
  free_of [58; 64; 10] port ->
  re_match pat_full (m ++ 58 :: pw ++ 64 :: srv ++ 58 :: port) = Some [m; pw; srv; port].
Proof.
  intros Hm Hw Hs Hp. apply lazy_lit; [lia|fa|]. apply greedy_lit; [lia|fa| |].
  - apply greedy_lit; [lia|fa|apply greedy_end; fa|]. intros i _. apply lit_absent. fa.
  - intros i _. apply lit_absent. fa.
Qed.

End PyRegex.
