(* ===== verification/Codec.v ===== *)
(** * The URI decoders: [decode_v2ray_node], [decode_ss_node],
      [decode_ssr_node] (src/freefq.py, lines 46-148)

    Each decoder loops over a list of URI lines (bytes), decodes each
    line as UTF-8, drops the scheme by slicing, skips an empty or
    whitespace-only rest, and otherwise builds one dict.  The loops have
    no exception handler: an error in any line (a malformed UTF-8 line,
    bad base64, a missing '=' in a parameter, a missing "/?" in an ssr
    link) aborts the whole call, which [res] and [res_concat_map] model.
    A [continue] of the code is an element that contributes nothing.

    - [v2ray_node]: base64 ([b64decode]), UTF-8, then [json.loads],
      which is the section variable [json_loads]: every theorem holds
      for any JSON parser.
    - [ss_node]: the '#' fragment is the percent-decoded name, the "/?"
      query holds ';'-separated [key=value] plugin options, and the rest
      is either [base64(method:password)@server:port] (SIP002) or
      [base64(method:password@server:port)], split by the [re.match]
      patterns of [PyRegex].
    - [ssr_node]: [base64(server:port:protocol:method:obfs:b64(pw)/?params)]
      with '&'-separated [key=base64(value)] parameters.

    The link builders ([ss_link], [ss_legacy_link], [vmess_link],
    [ssr_link]) write the links the round-trip theorems decode; they are
    not code of the program.  The theorems: each decoder recovers the
    fields of a well-formed link (C5-C7, C30), skips blank links and ssr
    bodies without six fields (C27, C28), emits at most one record per
    line (C26), and raises on the malformed links of C20, C21 and C29.
    [ssr_spec_scenario] evaluates the spec's worked ssr example, which
    the code rejects with UnicodeDecodeError.

    The logging calls are not modelled (they only print). *)

From S2P Require Import Prelude PyStr PyVal Utf8 Base64 Percent PyRegex.
Open Scope Z_scope.

Module Codec.

Import PyRegex.

(** [not s or s.isspace()] *)
Definition empty_or_space (s : pystr) : bool :=
  match s with [] => true | _ => isspace s end.

(** ** vmess *)

Section V2ray.
Variable json_loads : pystr -> res pyval.

Definition v2ray_node (node : pybytes) : res (list pyval) :=
  text <- Utf8.decode node ;;
  let decode_proxy := slice_from text 8 in
  if empty_or_space decode_proxy then Ok [] else
  raw <- Base64.b64decode decode_proxy ;;
  proxy_str <- Utf8.decode raw ;;
  proxy_dict <- json_loads proxy_str ;;
  Ok [proxy_dict].

Definition decode_v2ray_node (nodes : list pybytes) : res (list pyval) :=
  res_concat_map v2ray_node nodes.
End V2ray.

(** ** ss *)

(** [if param.find('#') > -1: ...] *)
Definition ss_fragment (info : dict) (param : pystr) : dict * pystr :=
  if py_find param (lit "#") >? -1 then
    let remark := Percent.unquote (slice_from param (py_find param (lit "#") + 1)) in
    (dset info (lit "name") (VStr remark), slice_to param (py_find param (lit "#")))
  else (info, param).

(** One plugin option: [key_value = p.split('=')];
    [info[key_value[0]] = key_value[1]]. *)
Definition ss_plugin_opt (info : dict) (p : pystr) : res dict :=
  let key_value := py_split p (lit "=") in
  v <- py_index key_value 1 ;;
  k <- py_index key_value 0 ;;
  Ok (dset info k (VStr v)).

(** [if param.find('/?') > -1: ...] *)
Definition ss_plugin (info : dict) (param : pystr) : res (dict * pystr) :=
  if py_find param (lit "/?") >? -1 then
    let plugin := Percent.unquote (slice_from param (py_find param (lit "/?") + 2)) in
    let param' := slice_to param (py_find param (lit "/?")) in
    info' <- res_fold ss_plugin_opt info (py_split plugin (lit ";")) ;;
    Ok (info', param')
  else Ok (info, param).

(** The user info and the address; [None] is a [continue]. *)
Definition ss_userinfo (info : dict) (param : pystr) : res (option dict) :=
  if py_find param (lit "@") >? -1 then
    match re_match pat_at param with
    | None => Ok None
    | Some gs =>
        let info1 := dset (dset info (lit "server") (VStr (group gs 2)))
                          (lit "port") (VStr (group gs 3)) in
        raw <- Base64.safe_decode (group gs 1) ;;
        txt <- Utf8.decode raw ;;
        match re_match pat_colon txt with
        | None => Ok None
        | Some gs2 =>
            Ok (Some (dset (dset info1 (lit "method") (VStr (group gs2 1)))
                           (lit "password") (VStr (group gs2 2))))
        end
    end
  else
    raw <- Base64.safe_decode param ;;
    txt <- Utf8.decode raw ;;
    match re_match pat_full txt with
    | None => Ok None
    | Some gs =>
        Ok (Some (dset (dset (dset (dset info
              (lit "method") (VStr (group gs 1))) (lit "password") (VStr (group gs 2)))
              (lit "server") (VStr (group gs 3))) (lit "port") (VStr (group gs 4))))
    end.

Definition ss_node (node : pybytes) : res (list pyval) :=
  text <- Utf8.decode node ;;
  let decode_proxy := slice_from text 5 in
  if empty_or_space decode_proxy then Ok [] else
  let '(info, param) := ss_fragment [] decode_proxy in
  ip <- ss_plugin info param ;;
  r <- ss_userinfo ip.1 ip.2 ;;
  Ok (match r with Some info' => [VDict info'] | None => [] end).

Definition decode_ss_node (nodes : list pybytes) : res (list pyval) :=
  res_concat_map ss_node nodes.

(** ** ssr *)

(** One parameter: [info[key_value[0]] = safe_decode(key_value[1]).decode('utf-8')]. *)
Definition ssr_param (info : dict) (p : pystr) : res dict :=
  let key_value := py_split p (lit "=") in
  v <- py_index key_value 1 ;;
  raw <- Base64.safe_decode v ;;
  s <- Utf8.decode raw ;;
  k <- py_index key_value 0 ;;
  Ok (dset info k (VStr s)).

(** The part of the loop body after the check [len(parts) != 6]: the
    dict of the six fields, the password and the parameters. *)
Definition ssr_info (parts : list pystr) : res (list pyval) :=
  (* [parts[i]] for i < 6 = len(parts) *)
  let part i := nth i parts [] in
  let info : dict :=
    [(lit "server", VStr (part 0%nat)); (lit "port", VStr (part 1%nat));
     (lit "protocol", VStr (part 2%nat)); (lit "method", VStr (part 3%nat));
     (lit "obfs", VStr (part 4%nat))] in
  let password_params := py_split (part 5%nat) (lit "/?") in
  pw0 <- py_index password_params 0 ;;
  raw_pw <- Base64.safe_decode pw0 ;;
  pw <- Utf8.decode raw_pw ;;
  let info := dset info (lit "password") (VStr pw) in
  ps <- py_index password_params 1 ;;
  info' <- res_fold ssr_param info (py_split ps (lit "&")) ;;
  Ok [VDict info'].

Definition ssr_node (node : pybytes) : res (list pyval) :=
  text <- Utf8.decode node ;;
  let decode_proxy := slice_from text 6 in
  if empty_or_space decode_proxy then Ok [] else
  raw <- Base64.safe_decode decode_proxy ;;
  proxy_str <- Utf8.decode raw ;;
  let parts := py_split proxy_str (lit ":") in
  if negb (Nat.eqb (length parts) 6) then Ok [] else ssr_info parts.

Definition decode_ssr_node (nodes : list pybytes) : res (list pyval) :=
  res_concat_map ssr_node nodes.

(** ** Links, for the round trips *)

(** A SIP002 ss link:
    [ss://base64url(method:password)@server:port#quote(name)]. *)
Definition ss_link (m pw srv port name : pystr) : pybytes :=
  Utf8.encode (lit "ss://" ++ Base64.urlsafe_nopad (Utf8.encode (m ++ 58 :: pw)) ++
               64 :: srv ++ 58 :: port ++ 35 :: Percent.quote name).

(** A legacy ss link:
    [ss://base64(method:password@server:port)#quote(name)]. *)
Definition ss_legacy_link (m pw srv port name : pystr) : pybytes :=
  Utf8.encode (lit "ss://" ++ Base64.b64encode (Utf8.encode (m ++ 58 :: pw ++ 64 :: srv ++ 58 :: port)) ++
               35 :: Percent.quote name).

(** A vmess link: [vmess://base64(json)]. *)
Definition vmess_link (j : pystr) : pybytes :=
  Utf8.encode (lit "vmess://" ++ Base64.b64encode (Utf8.encode j)).

(** An ssr link: [ssr://base64url(server:port:protocol:method:obfs:
    base64url(password)/?k1=base64url(v1)&k2=...)]. *)
Definition ssr_query (params : list (pystr * pystr)) : pystr :=
  py_join [38] (map (fun kv => kv.1 ++ 61 :: Base64.urlsafe_nopad (Utf8.encode kv.2)) params).

(** The ssr link carrying six ':'-separated fields. *)
Definition ssr_link_parts (parts : list pystr) : pybytes :=
  Utf8.encode (lit "ssr://" ++ Base64.urlsafe_nopad (Utf8.encode (py_join [58] parts))).

Definition ssr_last (pw : pystr) (params : list (pystr * pystr)) : pystr :=
  Base64.urlsafe_nopad (Utf8.encode pw) ++ [47; 63] ++ ssr_query params.

Definition ssr_link server port protocol method obfs pw params : pybytes :=
  ssr_link_parts [server; port; protocol; method; obfs; ssr_last pw params].

(** ** Lemmas *)

(** Prove [free_of] goals on concatenations from [free_of] hypotheses on
    the pieces. *)
Ltac free_tac :=
  repeat first [ apply free_of_app; split | apply free_of_cons; split; [decide_closed|]
               | apply Forall_nil ];
  try (eapply free_of_sub; [eassumption|decide_closed]).

(** The URL-safe alphabet holds none of the link's delimiters. *)
Lemma urlsafe_free s :
  Forall Base64.urlsafe_alpha s -> free_of [10; 35; 38; 47; 58; 61; 63; 64] s.
Proof.
  intros H. eapply List.Forall_impl; [|exact H]. intros x Hx.
  unfold Base64.urlsafe_alpha in Hx. rewrite !not_elem_of_cons. split_and!; try lia.
  apply not_elem_of_nil.
Qed.

(** The standard alphabet and its padding hold none of '\n', '#', ':',
    '?' or '@'. *)
Lemma b64encode_free bs : Forall Base64.is_byte bs -> free_of [10; 35; 58; 63; 64] (Base64.b64encode bs).
Proof.
  intros Hb. destruct (Base64.b64encode_shape bs Hb) as (body & k & -> & Hg & _).
  apply free_of_app. split.
  - eapply List.Forall_impl; [|exact Hg]. intros c (_ & _ & _ & _ & Ha).
    unfold Base64.urlsafe_alpha, Base64.urlsafe_enc_char in Ha.
    rewrite !not_elem_of_cons. split_and!; [..|apply not_elem_of_nil]; intros ->; cbn in Ha; lia.
  - apply List.Forall_forall. intros c ->%repeat_spec. decide_closed.
Qed.

Lemma urlsafe_scalar s : Forall Base64.urlsafe_alpha s -> Forall Utf8.scalar s.
Proof.
  intros H. eapply List.Forall_impl; [|exact H]. intros x Hx.
  unfold Base64.urlsafe_alpha, Utf8.scalar in *. lia.
Qed.

Lemma ascii_scalar s : Forall Percent.ascii s -> Forall Utf8.scalar s.
Proof.
  intros H. eapply List.Forall_impl; [|exact H]. intros x Hx.
  unfold Percent.ascii, Utf8.scalar in *. lia.
Qed.

Lemma empty_or_space_false s c : c ∈ s -> is_space c = false -> empty_or_space s = false.
Proof.
  intros Hc Hs. destruct s as [|x r]; [by apply elem_of_nil in Hc|].
  unfold empty_or_space, isspace. apply not_true_is_false. intros H.
  apply forallb_forall with (x := c) in H; [congruence|]. by apply list_elem_of_In.
Qed.

(** Dropping the scheme of a link. *)
Lemma slice_scheme (scheme r : list Z) n :
  n = Z.of_nat (length scheme) -> slice_from (scheme ++ r) n = r.
Proof. intros ->. rewrite <- (Z.add_0_r (Z.of_nat _)). by rewrite slice_from_app. Qed.

Lemma b64_char_not_space v : 0 <= v < 64 -> is_space (Base64.b64_char v) = false.
Proof. intros. unfold Base64.b64_char. zcase; unfold is_space; zcase; reflexivity. Qed.

Lemma urlsafe_not_space c : Base64.urlsafe_alpha c -> is_space c = false.
Proof. unfold Base64.urlsafe_alpha, is_space. intros. zcase; reflexivity. Qed.

(** The unpadded URL-safe encoding of a non-empty text is neither empty
    nor blank. *)
Lemma nopad_not_blank s : s <> [] -> Forall Utf8.scalar s ->
  empty_or_space (Base64.urlsafe_nopad (Utf8.encode s)) = false.
Proof.
  intros Hne Hs. pose proof (Utf8.encode_bytes s Hs) as Hb.
  destruct s as [|x s]; [done|]. destruct (Utf8.encode (x :: s)) as [|b1 r] eqn:E;
    [by apply Utf8.encode_cons_nonempty in E|].
  destruct (Base64.urlsafe_nopad_head b1 r) as (c & t & -> & Hc); [by inversion Hb|].
  apply (empty_or_space_false _ c); [left|by apply urlsafe_not_space].
Qed.

(** [safe_decode(...).decode('utf-8')] of an unpadded URL-safe encoding. *)
Lemma safe_decode_text s :
  Forall Utf8.scalar s -> Base64.safe_decode (Base64.urlsafe_nopad (Utf8.encode s)) = Ok (Utf8.encode s).
Proof. intros. by apply Base64.safe_decode_nopad_ok, Utf8.encode_bytes. Qed.

(** *** ss *)

Lemma ss_fragment_split info param frag :
  35 ∉ param ->
  ss_fragment info (param ++ 35 :: frag) =
  (dset info (lit "name") (VStr (Percent.unquote frag)), param).
Proof.
  intros H. unfold ss_fragment. change (lit "#") with [35].
  rewrite py_find_single_app by done. zcase.
  rewrite slice_from_app, slice_to_app by lia. done.
Qed.

Lemma ss_fragment_absent info param : 35 ∉ param -> ss_fragment info param = (info, param).
Proof.
  intros H. unfold ss_fragment. change (lit "#") with [35]. by rewrite py_find_absent.
Qed.

Lemma ss_plugin_split info param q :
  47 ∉ param ->
  ss_plugin info (param ++ [47; 63] ++ q) =
  (info' <- res_fold ss_plugin_opt info (py_split (Percent.unquote q) (lit ";")) ;;
   Ok (info', param)).
Proof.
  intros H. unfold ss_plugin. change (lit "/?") with [47; 63]. unfold py_find.
  rewrite find_idx_head_app by done. zcase.
  rewrite slice_from_app, slice_to_app by lia. done.
Qed.

Lemma ss_plugin_absent info param : 47 ∉ param -> ss_plugin info param = Ok (info, param).
Proof. intros H. unfold ss_plugin. change (lit "/?") with [47; 63]. by rewrite py_find_absent. Qed.

Lemma ss_plugin_no_query info param : 63 ∉ param -> ss_plugin info param = Ok (info, param).
Proof.
  intros H. unfold ss_plugin. change (lit "/?") with [47; 63].
  by rewrite (py_find_absent_elem 63) by (done || by right; left).
Qed.

Lemma ss_userinfo_at info u srv port bs txt :
  free_of [64; 10] u -> free_of [10] srv -> free_of [58; 10] port ->
  Base64.safe_decode u = Ok bs -> Utf8.decode bs = Ok txt ->
  ss_userinfo info (u ++ 64 :: srv ++ 58 :: port) =
  match re_match pat_colon txt with
  | None => Ok None
  | Some gs2 =>
      Ok (Some (dset (dset (dset (dset info (lit "server") (VStr srv)) (lit "port") (VStr port))
                  (lit "method") (VStr (group gs2 1))) (lit "password") (VStr (group gs2 2))))
  end.
Proof.
  intros Hu Hs Hp Hb Ht. unfold ss_userinfo. change (lit "@") with [64].
  rewrite py_find_single_app by (apply (free_of_notin [64; 10]); [done|by left]). zcase.
  rewrite match_at by done. cbn [group nth pred]. by rewrite Hb, Ht.
Qed.

(** The body of the ss loop on one SIP002 link. *)
Lemma ss_node_link m pw srv port name :
  Forall Utf8.scalar (m ++ pw ++ srv ++ port ++ name) ->
  free_of [58; 10] m -> free_of [10] pw -> free_of [35; 47; 10] srv ->
  free_of [35; 47; 58; 10] port ->
  ss_node (ss_link m pw srv port name) =
  Ok [VDict [(lit "name", VStr name); (lit "server", VStr srv); (lit "port", VStr port);
             (lit "method", VStr m); (lit "password", VStr pw)]].
Proof.
  intros Hsc Hm Hw Hs Hp. rewrite !Forall_app in Hsc. destruct Hsc as (Sm & Sw & Ss & Sp & Sn).
  set (cred := m ++ 58 :: pw).
  assert (Hcred : Forall Utf8.scalar cred).
  { apply Forall_app. split; [done|]. constructor; [unfold Utf8.scalar; lia|done]. }
  pose proof (Base64.urlsafe_nopad_alpha _ (Utf8.encode_bytes _ Hcred)) as Ha.
  set (u := Base64.urlsafe_nopad (Utf8.encode cred)) in *.
  pose proof (urlsafe_free u Ha) as Hu.
  unfold ss_link. fold cred u. unfold ss_node.
  change (lit "ss://") with [115; 115; 58; 47; 47].
  rewrite Utf8.utf8_decode_encode.
  2:{ repeat first [apply Forall_app; split | constructor]; try (unfold Utf8.scalar; lia);
      try done; [by apply urlsafe_scalar|by apply ascii_scalar, Percent.quote_ascii]. }
  rewrite slice_scheme by reflexivity.
  rewrite (empty_or_space_false _ 64); [|apply elem_of_app; right; left|reflexivity].
  replace (u ++ 64 :: srv ++ 58 :: port ++ 35 :: Percent.quote name)
    with ((u ++ 64 :: srv ++ 58 :: port) ++ 35 :: Percent.quote name)
    by (repeat (rewrite <- app_assoc || rewrite <- app_comm_cons); reflexivity).
  rewrite ss_fragment_split by (apply (free_of_notin [35]); [free_tac|decide_closed]).
  rewrite ss_plugin_absent by (apply (free_of_notin [47]); [free_tac|decide_closed]).
  cbn [fst snd]. rewrite (ss_userinfo_at _ _ _ _ (Utf8.encode cred) cred) by
    (free_tac || apply Base64.safe_decode_nopad_ok, Utf8.encode_bytes, Hcred ||
     by apply Utf8.utf8_decode_encode).
  unfold cred. rewrite match_colon by free_tac. rewrite Percent.unquote_quote by done.
  reflexivity.
Qed.

(** An ss link is a line of bytes: it starts with "ss://", and has no
    '\n' or '\r' when the server and the port have none. *)
Lemma ss_link_line m pw srv port name :
  Forall Utf8.scalar (m ++ pw ++ srv ++ port ++ name) ->
  free_of [10; 13] srv -> free_of [10; 13] port ->
  (exists r, ss_link m pw srv port name = lit "ss://" ++ r) /\
  free_of [10; 13] (ss_link m pw srv port name) /\
  Forall Base64.is_byte (ss_link m pw srv port name).
Proof.
  intros Hsc Hs Hp. rewrite !Forall_app in Hsc. destruct Hsc as (Sm & Sw & Ss & Sp & Sn).
  assert (Hcred : Forall Utf8.scalar (m ++ 58 :: pw)).
  { apply Forall_app. split; [done|]. constructor; [unfold Utf8.scalar; lia|done]. }
  pose proof (Base64.urlsafe_nopad_alpha _ (Utf8.encode_bytes _ Hcred)) as Ha.
  pose proof (Percent.quote_printable name Sn) as Hq.
  set (u := Base64.urlsafe_nopad (Utf8.encode (m ++ 58 :: pw))) in *.
  assert (Ht : Forall Utf8.scalar (lit "ss://" ++ u ++ 64 :: srv ++ 58 :: port ++ 35 :: Percent.quote name)).
  { assert (Hsc : forall c, 0 <= c < 128 -> Utf8.scalar c) by (unfold Utf8.scalar; lia).
    apply Forall_app; split; [decide_closed|]. apply Forall_app; split; [by apply urlsafe_scalar|].
    constructor; [apply Hsc; lia|]. apply Forall_app; split; [done|].
    constructor; [apply Hsc; lia|]. apply Forall_app; split; [done|].
    constructor; [apply Hsc; lia|]. eapply List.Forall_impl; [|exact Hq]. intros c Hc. apply Hsc. cbv beta in Hc. lia. }
  unfold ss_link. fold u. split_and!.
  - eexists. rewrite Utf8.encode_app. reflexivity.
  - apply Utf8.encode_free; [decide_closed|done|].
    repeat first [apply free_of_app; split | apply free_of_cons; split; [decide_closed|]]; try done.
    + decide_closed.
    + eapply List.Forall_impl; [|exact Ha]. intros c Hc.
      unfold Base64.urlsafe_alpha in Hc. rewrite !not_elem_of_cons.
      split_and!; [lia|lia|apply not_elem_of_nil].
    + eapply List.Forall_impl; [|exact Hq]. intros c Hc. cbv beta in Hc. rewrite !not_elem_of_cons.
      split_and!; [lia|lia|apply not_elem_of_nil].
  - by apply Utf8.encode_bytes.
Qed.

(** C5: decoding a SIP002 ss link recovers every field: the link built
    from a method, a password, a server, a port and a name gives one
    dict with the name (percent-decoded), server, port, method and
    password, in that order, provided the fields are Unicode text, the
    method has no ':', no field has a line break, and the server and
    port have no '#' or '/' (the port no ':' either). *)
Theorem decode_ss_node_sip002 m pw srv port name :
  Forall Utf8.scalar (m ++ pw ++ srv ++ port ++ name) ->
  free_of [58; 10] m -> free_of [10] pw -> free_of [35; 47; 10] srv ->
  free_of [35; 47; 58; 10] port ->
  decode_ss_node [ss_link m pw srv port name] =
  Ok [VDict [(lit "name", VStr name); (lit "server", VStr srv); (lit "port", VStr port);
             (lit "method", VStr m); (lit "password", VStr pw)]].
Proof.
  intros. unfold decode_ss_node. cbn [res_concat_map]. by rewrite ss_node_link.
Qed.

(** C30: decoding a legacy ss link (the whole [method:password@server:port]
    in standard padded base64) recovers every field, under the
    conditions the three groups of [(.*?):( .* )@( .* ):( .* )] need:
    no ':' in the method, no '@' in the server, neither in the port,
    no line break anywhere. *)
Theorem decode_ss_node_legacy m pw srv port name :
  Forall Utf8.scalar (m ++ pw ++ srv ++ port ++ name) ->
  free_of [58; 10] m -> free_of [10] pw -> free_of [64; 10] srv -> free_of [58; 64; 10] port ->
  decode_ss_node [ss_legacy_link m pw srv port name] =
  Ok [VDict [(lit "name", VStr name); (lit "method", VStr m); (lit "password", VStr pw);
             (lit "server", VStr srv); (lit "port", VStr port)]].
Proof.
  intros Hsc Hm Hw Hs Hp. rewrite !Forall_app in Hsc. destruct Hsc as (Sm & Sw & Ss & Sp & Sn).
  set (cred := m ++ 58 :: pw ++ 64 :: srv ++ 58 :: port).
  assert (Hcred : Forall Utf8.scalar cred).
  { repeat first [apply Forall_app; split | constructor]; (done || unfold Utf8.scalar; lia). }
  pose proof (Utf8.encode_bytes _ Hcred) as Hb.
  set (u := Base64.b64encode (Utf8.encode cred)).
  pose proof (b64encode_free _ Hb) as Hu. fold u in Hu.
  assert (Su : Forall Utf8.scalar u).
  { eapply List.Forall_impl; [|by apply Base64.b64encode_ascii]. unfold Utf8.scalar. lia. }
  unfold decode_ss_node, ss_legacy_link. fold cred u. cbn [res_concat_map]. unfold ss_node.
  change (lit "ss://") with [115; 115; 58; 47; 47].
  rewrite Utf8.utf8_decode_encode.
  2:{ repeat first [apply Forall_app; split | constructor]; try (unfold Utf8.scalar; lia);
      [done|by apply ascii_scalar, Percent.quote_ascii]. }
  rewrite slice_scheme by reflexivity.
  rewrite (empty_or_space_false _ 35); [|apply elem_of_app; right; left|reflexivity].
  rewrite ss_fragment_split by (apply (free_of_notin _ _ 35 Hu); decide_closed).
  rewrite ss_plugin_no_query by (apply (free_of_notin _ _ 63 Hu); decide_closed).
  cbn [fst snd]. unfold ss_userinfo. change (lit "@") with [64].
  rewrite (py_find_absent 64) by (apply (free_of_notin _ _ 64 Hu); decide_closed). cbv beta iota.
  unfold u. rewrite Base64.safe_decode_b64encode_ok by done. cbv beta iota.
  rewrite Utf8.utf8_decode_encode by done. cbv beta iota.
  unfold cred. rewrite match_full by done. rewrite Percent.unquote_quote by done.
  reflexivity.
Qed.

(** C7: decoding a vmess link gives what [json.loads] makes of the
    JSON text the link carries: for any JSON parser and any non-empty
    text, the decoder parses exactly that text, and emits its result or
    raises its error. *)
Theorem decode_v2ray_node_link json_loads j :
  Forall Utf8.scalar j -> j <> [] ->
  decode_v2ray_node json_loads [vmess_link j] = (d <- json_loads j ;; Ok [d]).
Proof.
  intros Hj Hne. pose proof (Utf8.encode_bytes j Hj) as Hb.
  destruct (Utf8.encode j) as [|b1 r] eqn:E.
  { destruct j as [|c j]; [done|]. unfold Utf8.encode in E. simpl in E.
    unfold Utf8.encode_cp in E. repeat destruct (_ <? _); discriminate. }
  destruct (Base64.b64encode_head b1 r) as [t Ht].
  assert (Hb1 : 0 <= b1 < 256) by (by inversion Hb).
  unfold decode_v2ray_node, vmess_link. rewrite E. cbn [res_concat_map]. unfold v2ray_node.
  rewrite Utf8.utf8_decode_encode.
  2:{ apply Forall_app. split; [decide_closed|].
      eapply List.Forall_impl; [|exact (Base64.b64encode_ascii _ Hb)].
      unfold Utf8.scalar. lia. }
  rewrite slice_scheme by reflexivity. rewrite Ht at 1.
  rewrite (empty_or_space_false _ (Base64.b64_char (b1 / 4)));
    [|left|apply b64_char_not_space; zlia].
  rewrite Base64.b64decode_b64encode by done. rewrite <- E, Utf8.utf8_decode_encode by done.
  cbn. by destruct (json_loads j).
Qed.

(** *** ssr *)

Definition ssr_piece (kv : pystr * pystr) : pystr :=
  kv.1 ++ 61 :: Base64.urlsafe_nopad (Utf8.encode kv.2).

(** The parameters the link was built from. *)
Definition ssr_param_ok (kv : pystr * pystr) : Prop :=
  free_of [58; 47; 38; 61] kv.1 /\ Forall Utf8.scalar (kv.1 ++ kv.2).

Lemma ssr_piece_free kv : ssr_param_ok kv -> free_of [58; 47; 38] (ssr_piece kv).
Proof.
  intros [Hk Hs]. apply Forall_app in Hs as [_ Hv]. unfold ssr_piece. free_tac.
  eapply free_of_sub; [apply urlsafe_free, Base64.urlsafe_nopad_alpha, Utf8.encode_bytes, Hv|].
  decide_closed.
Qed.

Lemma ssr_param_step info kv :
  ssr_param_ok kv -> ssr_param info (ssr_piece kv) = Ok (dset info kv.1 (VStr kv.2)).
Proof.
  intros [Hk Hs]. apply Forall_app in Hs as [_ Hv]. unfold ssr_param, ssr_piece.
  change (lit "=") with [61]. change (61 :: ?u) with ([61] ++ u).
  rewrite py_split_head by (apply (free_of_notin [58; 47; 38; 61]); [done|decide_closed]).
  rewrite py_split_absent.
  2:{ apply (free_of_notin [10; 35; 38; 47; 58; 61; 63; 64]); [|decide_closed].
      by apply urlsafe_free, Base64.urlsafe_nopad_alpha, Utf8.encode_bytes. }
  cbn [py_index lookup list_lookup]. rewrite safe_decode_text by done. cbn.
  by rewrite Utf8.utf8_decode_encode.
Qed.

Lemma ssr_params_fold info params :
  Forall ssr_param_ok params ->
  res_fold ssr_param info (map ssr_piece params) =
  Ok (fold_left (fun d kv => dset d kv.1 (VStr kv.2)) params info).
Proof.
  revert info. induction params as [|kv params IH]; intros info Hp; [done|].
  apply Forall_cons_iff in Hp as [Hkv Hp]. simpl. rewrite ssr_param_step by done.
  by apply IH.
Qed.

Lemma ssr_query_split params :
  params <> [] -> Forall ssr_param_ok params ->
  py_split (ssr_query params) [38] = map ssr_piece params.
Proof.
  intros Hne Hp. apply py_split_join_single.
  - by destruct params.
  - apply Forall_map. eapply List.Forall_impl; [|exact Hp]. intros kv Hkv.
    apply (free_of_notin [58; 47; 38]); [by apply ssr_piece_free|decide_closed].
Qed.

(** An ssr link built from ':'-free fields: the decoder sees the
    fields unchanged, and only a link of six of them reaches
    [ssr_info]; any other count is skipped. *)
Lemma ssr_node_fields parts :
  Forall (fun p => free_of [58] p /\ Forall Utf8.scalar p) parts ->
  ssr_node (ssr_link_parts parts) = if Nat.eqb (length parts) 6 then ssr_info parts else Ok [].
Proof.
  intros Hp.
  assert (Hb : Forall Utf8.scalar (py_join [58] parts)).
  { apply Forall_py_join; [repeat constructor; unfold Utf8.scalar; lia|].
    eapply List.Forall_impl; [|exact Hp]. by intros q []. }
  unfold ssr_node, ssr_link_parts. change (lit "ssr://") with [115; 115; 114; 58; 47; 47].
  rewrite Utf8.utf8_decode_encode.
  2:{ apply Forall_app. split; [decide_closed|].
      by apply urlsafe_scalar, Base64.urlsafe_nopad_alpha, Utf8.encode_bytes. }
  rewrite slice_scheme by reflexivity.
  destruct (decide (py_join [58] parts = [])) as [E|Hne].
  { rewrite E. destruct parts as [|x [|y l]]; [done|done|].
    rewrite py_join_cons in E by done. by apply app_eq_nil in E as [_ []%app_eq_nil]. }
  rewrite nopad_not_blank by done.
  rewrite safe_decode_text by done. cbv beta iota.
  rewrite Utf8.utf8_decode_encode by done. cbv beta iota.
  change (lit ":") with [58]. rewrite py_split_join_single.
  - by destruct (Nat.eqb _ 6).
  - by destruct parts.
  - eapply List.Forall_impl; [|exact Hp]. intros q [Hq _].
    apply (free_of_notin [58]); [done|by left].
Qed.

Lemma ssr_node_parts parts :
  length parts = 6%nat -> Forall (fun p => free_of [58] p /\ Forall Utf8.scalar p) parts ->
  ssr_node (ssr_link_parts parts) = ssr_info parts.
Proof. intros Hl Hp. by rewrite ssr_node_fields, Hl. Qed.

Lemma ssr_info_link server port protocol method obfs pw params :
  Forall Utf8.scalar pw -> params <> [] -> Forall ssr_param_ok params ->
  ssr_info [server; port; protocol; method; obfs; ssr_last pw params] =
  Ok [VDict (fold_left (fun d kv => dset d kv.1 (VStr kv.2)) params
       [(lit "server", VStr server); (lit "port", VStr port);
        (lit "protocol", VStr protocol); (lit "method", VStr method);
        (lit "obfs", VStr obfs); (lit "password", VStr pw)])].
Proof.
  intros Hw Hne Hp.
  assert (Hqf : free_of [58; 47] (ssr_query params)).
  { apply free_of_py_join; [decide_closed|]. apply Forall_map.
    eapply List.Forall_impl; [|exact Hp]. intros kv Hkv.
    eapply free_of_sub; [by apply ssr_piece_free|decide_closed]. }
  pose proof (urlsafe_free _ (Base64.urlsafe_nopad_alpha _ (Utf8.encode_bytes _ Hw))) as Hupf.
  unfold ssr_info, ssr_last. cbn [nth]. change (lit "/?") with [47; 63].
  rewrite py_split_head by (apply (free_of_notin [10; 35; 38; 47; 58; 61; 63; 64]); [done|decide_closed]).
  rewrite py_split_absent by (apply (free_of_notin [58; 47]); [done|decide_closed]).
  cbn [py_index lookup list_lookup]. rewrite safe_decode_text by done. cbv beta iota.
  rewrite Utf8.utf8_decode_encode by done. cbv beta iota.
  change (lit "&") with [38]. rewrite ssr_query_split, ssr_params_fold by done.
  reflexivity.
Qed.

(** The last field of a link built from a password and parameters has
    no ':' and is Unicode text. *)
Lemma ssr_last_ok pw params :
  Forall Utf8.scalar pw -> Forall ssr_param_ok params ->
  free_of [58] (ssr_last pw params) /\ Forall Utf8.scalar (ssr_last pw params).
Proof.
  intros Hw Hp. pose proof (Base64.urlsafe_nopad_alpha _ (Utf8.encode_bytes _ Hw)) as Ha.
  assert (Hq : free_of [58] (ssr_query params) /\ Forall Utf8.scalar (ssr_query params)).
  { split; apply Forall_py_join; try (repeat constructor; (decide_closed || (unfold Utf8.scalar; lia)));
      apply Forall_map; eapply List.Forall_impl; try exact Hp.
    - intros kv Hkv. eapply free_of_sub; [by apply ssr_piece_free|decide_closed].
    - intros kv [_ Hkv]. apply Forall_app in Hkv as [Hk Hv]. apply Forall_app. split; [done|].
      constructor; [unfold Utf8.scalar; lia|]. by apply urlsafe_scalar, Base64.urlsafe_nopad_alpha, Utf8.encode_bytes. }
  destruct Hq as [Hq1 Hq2]. unfold ssr_last. split.
  - apply free_of_app. split; [eapply free_of_sub; [by apply urlsafe_free|decide_closed]|].
    apply free_of_app. split; [decide_closed|done].
  - apply Forall_app. split; [by apply urlsafe_scalar|].
    apply Forall_app. split; [repeat constructor; unfold Utf8.scalar; lia|done].
Qed.

(** C6: decoding an ssr link recovers every field: the six
    ':'-separated fields, the base64 password and every [key=value]
    parameter (each value base64-decoded and stored under its key, in
    order), provided the fields are Unicode text, the five leading fields
    have no ':', the keys have none of ':', '/', '&', '=', and the link
    has at least one parameter. *)
Theorem decode_ssr_node_link server port protocol method obfs pw params :
  Forall (fun p => free_of [58] p /\ Forall Utf8.scalar p) [server; port; protocol; method; obfs] ->
  Forall Utf8.scalar pw -> params <> [] -> Forall ssr_param_ok params ->
  decode_ssr_node [ssr_link server port protocol method obfs pw params] =
  Ok [VDict (fold_left (fun d kv => dset d kv.1 (VStr kv.2)) params
       [(lit "server", VStr server); (lit "port", VStr port);
        (lit "protocol", VStr protocol); (lit "method", VStr method);
        (lit "obfs", VStr obfs); (lit "password", VStr pw)])].
Proof.
  intros Hf Hw Hne Hp. unfold decode_ssr_node, ssr_link. cbn [res_concat_map].
  rewrite ssr_node_parts; [|reflexivity|].
  2:{ change [server; port; protocol; method; obfs; ssr_last pw params]
        with ([server; port; protocol; method; obfs] ++ [ssr_last pw params]).
      apply Forall_app. split; [done|]. constructor; [by apply ssr_last_ok|constructor]. }
  by rewrite ssr_info_link.
Qed.

(** C20: an ssr link whose last field has no "/?" query (only the
    base64 password) makes the decoder raise IndexError
    ([password_params[1]]), which aborts the whole call instead of
    skipping the link. *)
Theorem decode_ssr_node_no_query server port protocol method obfs pw :
  Forall (fun p => free_of [58] p /\ Forall Utf8.scalar p) [server; port; protocol; method; obfs] ->
  Forall Utf8.scalar pw ->
  decode_ssr_node [ssr_link_parts [server; port; protocol; method; obfs;
                                   Base64.urlsafe_nopad (Utf8.encode pw)]] = Raise IndexError.
Proof.
  intros Hf Hw. pose proof (Base64.urlsafe_nopad_alpha _ (Utf8.encode_bytes _ Hw)) as Ha.
  pose proof (urlsafe_free _ Ha) as Hu.
  unfold decode_ssr_node. cbn [res_concat_map]. rewrite ssr_node_parts; [|reflexivity|].
  - unfold ssr_info. cbn [nth]. change (lit "/?") with [47; 63].
    rewrite py_split_absent by (apply (free_of_notin [10; 35; 38; 47; 58; 61; 63; 64]); [done|decide_closed]).
    cbn [py_index lookup list_lookup]. rewrite safe_decode_text by done. cbv beta iota.
    by rewrite Utf8.utf8_decode_encode.
  - change [server; port; protocol; method; obfs; Base64.urlsafe_nopad (Utf8.encode pw)]
      with ([server; port; protocol; method; obfs] ++ [Base64.urlsafe_nopad (Utf8.encode pw)]).
    apply Forall_app. split; [done|]. repeat constructor.
    + eapply free_of_sub; [exact Hu|decide_closed].
    + by apply urlsafe_scalar.
Qed.

(** C21: an ss link whose plugin query holds an option without '='
    makes the decoder raise IndexError ([key_value[1]]), aborting the
    whole call: here the query is one such option, with no '%', ';', '#'
    or '=' in it. *)
Theorem decode_ss_node_plugin_no_eq param q :
  Forall Utf8.scalar (param ++ q) -> free_of [35; 47] param -> free_of [35; 37; 59; 61] q ->
  decode_ss_node [Utf8.encode (lit "ss://" ++ param ++ [47; 63] ++ q)] = Raise IndexError.
Proof.
  intros Hs Hp Hq. apply Forall_app in Hs as [Sp Sq].
  unfold decode_ss_node. cbn [res_concat_map]. unfold ss_node.
  change (lit "ss://") with [115; 115; 58; 47; 47].
  rewrite Utf8.utf8_decode_encode.
  2:{ apply Forall_app. split; [decide_closed|]. apply Forall_app. split; [done|].
      repeat constructor; try (unfold Utf8.scalar; lia); done. }
  rewrite slice_scheme by reflexivity.
  rewrite (empty_or_space_false _ 47); [|apply elem_of_app; right; left|reflexivity].
  rewrite ss_fragment_absent by (apply (free_of_notin [35]); [free_tac|decide_closed]).
  rewrite ss_plugin_split by (apply (free_of_notin [35; 47]); [done|decide_closed]).
  replace (Percent.unquote q) with q.
  2:{ unfold Percent.unquote. replace (existsb _ q) with false; [done|].
      symmetry. apply not_true_is_false. intros (c & Hc & E)%existsb_exists.
      apply Z.eqb_eq in E as ->. by apply (free_of_notin _ _ 37 Hq); [right; left|apply list_elem_of_In]. }
  change (lit ";") with [59].
  rewrite py_split_absent by (apply (free_of_notin _ _ 59 Hq); decide_closed).
  cbn [res_fold]. unfold ss_plugin_opt. change (lit "=") with [61].
  rewrite py_split_absent by (apply (free_of_notin _ _ 61 Hq); decide_closed).
  reflexivity.
Qed.

Lemma decode_ss_node_plugin_no_eq_witness :
  decode_ss_node [Utf8.encode (lit "ss://" ++ lit "YWVzOnB3QGg6MQ" ++ [47; 63] ++ lit "plugin")] =
  Raise IndexError.
Proof. apply decode_ss_node_plugin_no_eq; decide_closed. Defined.

Lemma decode_v2ray_node_link_witness :
  Forall Utf8.scalar (lit "{}") /\ lit "{}" <> [] /\
  decode_v2ray_node (fun s => Ok (VStr s)) [vmess_link (lit "{}")] =
  (d <- Ok (VStr (lit "{}")) ;; Ok [d]).
Proof.
  assert (H1 : Forall Utf8.scalar (lit "{}")) by decide_closed.
  assert (H2 : lit "{}" <> []) by discriminate.
  split; [exact H1|split; [exact H2|]]. apply decode_v2ray_node_link; [exact H1|exact H2].
Defined.

Lemma decode_ssr_node_link_witness :
  decode_ssr_node [ssr_link (lit "1.2.3.4") (lit "443") (lit "origin") (lit "aes-256-cfb")
                     (lit "plain") (lit "pwd") [(lit "remarks", [0x8282; 0x70B9])]] =
  Ok [VDict [(lit "server", VStr (lit "1.2.3.4")); (lit "port", VStr (lit "443"));
             (lit "protocol", VStr (lit "origin")); (lit "method", VStr (lit "aes-256-cfb"));
             (lit "obfs", VStr (lit "plain")); (lit "password", VStr (lit "pwd"));
             (lit "remarks", VStr [0x8282; 0x70B9])]].
Proof. apply decode_ssr_node_link; (decide_closed || discriminate). Defined.

Lemma decode_ssr_node_no_query_witness :
  decode_ssr_node [ssr_link_parts [lit "1.2.3.4"; lit "443"; lit "origin"; lit "aes-256-cfb";
                                   lit "plain"; Base64.urlsafe_nopad (Utf8.encode (lit "pwd"))]] =
  Raise IndexError.
Proof. apply decode_ssr_node_no_query; decide_closed. Defined.

(** *** Bounds *)

Lemma v2ray_node_le json_loads node zs : v2ray_node json_loads node = Ok zs -> (length zs <= 1)%nat.
Proof. unfold v2ray_node. intros H. res_break H; res_inv; simpl; lia. Qed.

Lemma ss_node_le node zs : ss_node node = Ok zs -> (length zs <= 1)%nat.
Proof.
  unfold ss_node. intros H. res_break H; res_inv; try (simpl; lia).
  destruct (ss_fragment [] _) as [info param]. res_break H.
  lazymatch type of H with Ok (match ?o with Some _ => _ | None => _ end) = _ => destruct o end;
    res_inv; simpl; lia.
Qed.

Lemma ssr_node_le node zs : ssr_node node = Ok zs -> (length zs <= 1)%nat.
Proof.
  unfold ssr_node, ssr_info. intros H. res_break H; res_inv; simpl; lia.
Qed.

(** C26: each decoder returns at most one record per input line, so
    its output is never longer than its input. *)
Theorem decoders_bounded json_loads nodes :
  (forall ys, decode_v2ray_node json_loads nodes = Ok ys -> (length ys <= length nodes)%nat) /\
  (forall ys, decode_ss_node nodes = Ok ys -> (length ys <= length nodes)%nat) /\
  (forall ys, decode_ssr_node nodes = Ok ys -> (length ys <= length nodes)%nat).
Proof.
  split_and!; intros ys; apply res_concat_map_length_le;
    [apply v2ray_node_le|apply ss_node_le|apply ssr_node_le].
Qed.

Lemma decoders_bounded_witness :
  (forall ys, decode_v2ray_node (fun _ => Raise JSONDecodeError) [lit "vmess://"] = Ok ys ->
              (length ys <= 1)%nat) /\
  (forall ys, decode_ss_node [lit "vmess://"] = Ok ys -> (length ys <= 1)%nat) /\
  (forall ys, decode_ssr_node [lit "vmess://"] = Ok ys -> (length ys <= 1)%nat).
Proof. exact (decoders_bounded (fun _ => Raise JSONDecodeError) [lit "vmess://"]). Defined.

Lemma decode_ss_node_sip002_witness :
  decode_ss_node [ss_link (lit "aes-128-gcm") (lit "pa:ss") (lit "1.2.3.4") (lit "8388")
                          (0x8282 :: lit " 1")] =
  Ok [VDict [(lit "name", VStr (0x8282 :: lit " 1")); (lit "server", VStr (lit "1.2.3.4"));
             (lit "port", VStr (lit "8388")); (lit "method", VStr (lit "aes-128-gcm"));
             (lit "password", VStr (lit "pa:ss"))]].
Proof. apply decode_ss_node_sip002; decide_closed. Defined.

(** *** Skipped lines and rejected links *)

Lemma is_space_scalar c : is_space c = true -> Utf8.scalar c.
Proof.
  unfold is_space, Utf8.scalar. rewrite !orb_true_iff, !andb_true_iff, !Z.leb_le, !Z.eqb_eq.
  lia.
Qed.

Lemma empty_or_space_blank w : Forall (fun c => is_space c = true) w -> empty_or_space w = true.
Proof.
  intros Hw. destruct w as [|c r]; [done|]. unfold empty_or_space, isspace.
  apply forallb_forall. intros x Hx. rewrite Forall_forall in Hw.
  apply Hw. first [done | by apply list_elem_of_In].
Qed.

(** C27: a link whose text after the scheme is empty or whitespace
    only is skipped by each decoder: it adds nothing and raises
    nothing. *)
Theorem decoders_skip_blank json_loads w :
  Forall (fun c => is_space c = true) w ->
  decode_v2ray_node json_loads [Utf8.encode (lit "vmess://" ++ w)] = Ok [] /\
  decode_ss_node [Utf8.encode (lit "ss://" ++ w)] = Ok [] /\
  decode_ssr_node [Utf8.encode (lit "ssr://" ++ w)] = Ok [].
Proof.
  intros Hw. pose proof (empty_or_space_blank w Hw) as Hb.
  assert (Hs : Forall Utf8.scalar w) by (eapply List.Forall_impl; [|exact Hw]; apply is_space_scalar).
  split_and!; unfold decode_v2ray_node, decode_ss_node, decode_ssr_node; cbn [res_concat_map];
    unfold v2ray_node, ss_node, ssr_node;
    rewrite Utf8.utf8_decode_encode by (apply Forall_app; split; [decide_closed|done]);
    rewrite slice_scheme, Hb by reflexivity; reflexivity.
Qed.

Lemma decoders_skip_blank_witness :
  decode_v2ray_node (fun _ => Raise JSONDecodeError) [Utf8.encode (lit "vmess://" ++ [32; 9; 12288])] = Ok [] /\
  decode_ss_node [Utf8.encode (lit "ss://" ++ [32; 9; 12288])] = Ok [] /\
  decode_ssr_node [Utf8.encode (lit "ssr://" ++ [32; 9; 12288])] = Ok [].
Proof. apply decoders_skip_blank. decide_closed. Defined.

(** C28: an ssr link whose decoded body does not have exactly six
    ':'-separated fields is skipped, without an error. *)
Theorem decode_ssr_node_field_count parts :
  length parts <> 6%nat -> Forall (fun p => free_of [58] p /\ Forall Utf8.scalar p) parts ->
  decode_ssr_node [ssr_link_parts parts] = Ok [].
Proof.
  intros Hl Hp. unfold decode_ssr_node. cbn [res_concat_map].
  rewrite ssr_node_fields by done. apply Nat.eqb_neq in Hl. by rewrite Hl.
Qed.

Lemma decode_ssr_node_field_count_witness :
  decode_ssr_node [ssr_link_parts [lit "h"; lit "443"; lit "origin"; lit "aes"; lit "plain";
                                   lit "cHc"; lit "x"]] = Ok [].
Proof. apply decode_ssr_node_field_count; [discriminate|decide_closed]. Defined.

(** C29: a vmess link carrying its base64 without the '=' padding (the
    body's length not a multiple of three) makes the decoder raise
    binascii.Error: [b64decode] is called directly, not the padding
    [safe_decode] the other schemes use. *)
Theorem decode_v2ray_node_unpadded json_loads j :
  Forall Utf8.scalar j -> (length (Utf8.encode j) mod 3 <> 0)%nat ->
  decode_v2ray_node json_loads
    [Utf8.encode (lit "vmess://" ++ Base64.strip_pad (Base64.b64encode (Utf8.encode j)))] =
  Raise BinasciiError.
Proof.
  intros Hj Hl. pose proof (Utf8.encode_bytes j Hj) as Hb.
  assert (Ha : Forall Utf8.scalar (Base64.strip_pad (Base64.b64encode (Utf8.encode j)))).
  { apply Forall_filter_sub. eapply List.Forall_impl; [|by apply Base64.b64encode_ascii].
    unfold Utf8.scalar. lia. }
  unfold decode_v2ray_node. cbn [res_concat_map]. unfold v2ray_node.
  rewrite Utf8.utf8_decode_encode by (apply Forall_app; split; [decide_closed|done]).
  rewrite slice_scheme by reflexivity.
  destruct (Utf8.encode j) as [|b1 r] eqn:E; [done|]. apply Forall_cons_iff in Hb as Hb1.
  destruct (Base64.b64encode_head b1 r) as [t Ht].
  rewrite (empty_or_space_false _ (Base64.b64_char (b1 / 4))).
  - rewrite Base64.b64decode_strip_pad by done. reflexivity.
  - rewrite Ht. unfold Base64.strip_pad. cbn [List.filter].
    rewrite Base64.b64_char_not_pad by zlia. left.
  - apply b64_char_not_space. zlia.
Qed.

Lemma decode_v2ray_node_unpadded_witness :
  decode_v2ray_node (fun _ => Raise JSONDecodeError)
    [Utf8.encode (lit "vmess://" ++ Base64.strip_pad (Base64.b64encode (Utf8.encode (lit "{}"))))] =
  Raise BinasciiError.
Proof. apply decode_v2ray_node_unpadded; [decide_closed|discriminate]. Defined.

Lemma decode_ss_node_legacy_witness :
  decode_ss_node [ss_legacy_link (lit "aes") (lit "p:w") (lit "h") (lit "1") (lit "My N")] =
  Ok [VDict [(lit "name", VStr (lit "My N")); (lit "method", VStr (lit "aes"));
             (lit "password", VStr (lit "p:w")); (lit "server", VStr (lit "h"));
             (lit "port", VStr (lit "1"))]].
Proof. apply decode_ss_node_legacy; decide_closed. Defined.

(** The spec's worked ssr example: a link whose body is
    [example.com:443:origin:aes-256-cfb:plain:cGFzcw==/?obfs-param=abc].
    The code base64-decodes the value [abc] of the parameter, which gives
    bytes that are not UTF-8, so the call raises UnicodeDecodeError
    instead of producing the record the spec describes. *)
Lemma ssr_spec_scenario :
  decode_ssr_node
    [Utf8.encode (lit "ssr://" ++
       Base64.urlsafe_nopad (lit "example.com:443:origin:aes-256-cfb:plain:cGFzcw==/?obfs-param=abc"))] =
  Raise UnicodeDecodeError.
Proof. vm_compute. reflexivity. Qed.

End Codec.
