(* ===== verification/Normalize.v ===== *)
(** * Normalizer layer: [v2ray_to_clash], [ss_to_clash], [ssr_to_clash]
      (src/freefq.py, lines 222-330)

    Each normaliser loops over decoded dicts and, for each, builds the
    Clash record as a dict literal (evaluated left to right, so the
    first failing [.strip()] or [int()] raises first), deletes the keys
    whose value is None, applies its emit condition and appends the
    record and [obj['name']] to the two lists of the result.  The shared
    loop is [collect]; the per-item bodies are [v2ray_item], [ss_item]
    and [ssr_item].

    Theorems: the two output lists are index-aligned (every name is the
    [name] field of the record at the same index); emitted records hold
    no None value, a string name with no surrounding whitespace and an
    integer port; [v2ray_to_clash] emits nothing for items without
    [aid]; [ssr_to_clash] drops items whose name starts with one of the
    two reserved markers; and the error and divergence cases the code
    has (a whitespace-only name kept as "", a missing [ps] raising
    KeyError, a missing [add] emitted without [server]). *)

From S2P Require Import Prelude PyStr PyVal.
Open Scope Z_scope.

Module Normalize.

(** ** Keys *)

Definition k_name := lit "name".
Definition k_type := lit "type".
Definition k_server := lit "server".
Definition k_port := lit "port".
Definition k_uuid := lit "uuid".
Definition k_alterId := lit "alterId".
Definition k_cipher := lit "cipher".
Definition k_udp := lit "udp".
Definition k_network := lit "network".
Definition k_tls := lit "tls".
Definition k_ws_path := lit "ws-path".
Definition k_ws_headers := lit "ws-headers".
Definition k_password := lit "password".
Definition k_plugin := lit "plugin".
Definition k_plugin_opts := lit "plugin-opts".
Definition k_obfs := lit "obfs".
Definition k_protocol := lit "protocol".
Definition k_obfs_param := lit "obfs-param".
Definition k_protocol_param := lit "protocol-param".

(** The keys of the decoded dicts. *)
Definition k_ps := lit "ps".
Definition k_add := lit "add".
Definition k_id := lit "id".
Definition k_aid := lit "aid".
Definition k_net := lit "net".
Definition k_path := lit "path".
Definition k_host := lit "host".
Definition k_method := lit "method".
Definition k_obfs_host := lit "obfs-host".
Definition k_mode := lit "mode".
Definition k_remarks := lit "remarks".
Definition k_obfsparam := lit "obfsparam".
Definition k_protoparam := lit "protoparam".

(** "剩余流量" (remaining traffic) and "过期时间" (expiry time). *)
Definition marker_traffic : pystr := [0x5269; 0x4F59; 0x6D41; 0x91CF].
Definition marker_expiry : pystr := [0x8FC7; 0x671F; 0x65F6; 0x95F4].

(** ** Shared pieces *)

(** [item.get(k).strip() if item.get(k) else None] *)
Definition strip_if_truthy (item : pyval) (k : pystr) : res pyval :=
  v <- py_get item k ;;
  if truthy v then py_strip v else Ok VNone.

(** [item.get(k1) is None and item.get(k2) is None and ...], with
    Python's short-circuit. *)
Fixpoint all_none (item : pyval) (ks : list pystr) : res bool :=
  match ks with
  | [] => Ok true
  | k :: r => v <- py_get item k ;; if is_none v then all_none item r else Ok false
  end.

(** [obj['name']] where [obj] is the record. *)
Definition emit (o : dict) : res (list (pyval * pyval)) :=
  name <- py_getitem (VDict o) k_name ;; Ok [(VDict o, name)].

(** The loop [for item in arr: ... proxies['proxy_list'].append(obj);
    proxies['proxy_names'].append(obj['name'])] around a body that emits
    zero or one (record, name) pair. *)
Definition collect (body : pyval -> res (list (pyval * pyval))) (arr : list pyval)
  : res feed :=
  ps <- res_concat_map body arr ;;
  Ok (mk_feed (map fst ps) (map snd ps)).

(** ** v2ray_to_clash *)

Definition v2ray_obj (item : pyval) : res dict :=
  name <- strip_if_truthy item k_ps ;;
  add <- py_get item k_add ;;
  portv <- py_get item k_port ;;
  port <- py_int portv ;;
  id <- py_get item k_id ;;
  aid <- py_get item k_aid ;;
  net <- py_get item k_net ;;
  tls <- py_get item k_tls ;;
  path <- py_get item k_path ;;
  host <- py_get item k_host ;;
  Ok [(k_name, name); (k_type, VStr (lit "vmess")); (k_server, add);
      (k_port, VInt port); (k_uuid, id); (k_alterId, aid);
      (k_cipher, VStr (lit "auto")); (k_udp, VBool true); (k_network, net);
      (k_tls, if py_eq_str tls (lit "tls") then VBool true else VNone);
      (k_ws_path, path);
      (k_ws_headers, if truthy host then VDict [(lit "Host", host)] else VNone)].

Definition v2ray_item (item : pyval) : res (list (pyval * pyval)) :=
  skip <- all_none item [k_ps; k_add; k_port; k_id; k_aid] ;;
  if skip then Ok [] else
  obj <- v2ray_obj item ;;
  let o := drop_none obj in
  if is_none (get_or_none o k_alterId) then Ok [] else emit o.

Definition v2ray_to_clash (arr : list pyval) : res feed := collect v2ray_item arr.

(** ** ss_to_clash *)

(** [obj[k_outer][k_inner] = v]: the nested dict is updated in place. *)
Definition set_nested (obj : dict) (k_outer k_inner : pystr) (v : pyval) : res dict :=
  inner <- py_getitem (VDict obj) k_outer ;;
  inner' <- py_setitem inner k_inner v ;;
  Ok (dset obj k_outer inner').

(** The dict literal of lines 274-283. *)
Definition ss_literal (name server : pyval) (port : Z) (method password pl plugin : pyval)
  : dict :=
  [(k_name, name); (k_type, VStr (lit "ss")); (k_server, server);
   (k_port, VInt port); (k_cipher, method); (k_password, password);
   (k_plugin, pl); (k_plugin_opts, if truthy plugin then VDict [] else VNone)].

Definition ss_obj (item : pyval) : res dict :=
  name <- strip_if_truthy item k_name ;;
  server <- py_get item k_server ;;
  portv <- py_get item k_port ;;
  port <- py_int portv ;;
  method <- py_get item k_method ;;
  password <- py_get item k_password ;;
  plugin <- py_get item k_plugin ;;
  pl <- (if truthy plugin
         then b <- py_startswith plugin (lit "obfs") ;;
              Ok (if b then VStr (lit "obfs") else VNone)
         else Ok VNone) ;;
  let obj := ss_literal name server port method password pl plugin in
  obfs <- py_get item k_obfs ;;
  obj <- (if truthy obfs then set_nested obj k_plugin_opts k_mode obfs else Ok obj) ;;
  host <- py_get item k_obfs_host ;;
  if truthy host then set_nested obj k_plugin_opts k_host host else Ok obj.

Definition ss_item (item : pyval) : res (list (pyval * pyval)) :=
  obj <- ss_obj item ;; emit (drop_none obj).

Definition ss_to_clash (arr : list pyval) : res feed := collect ss_item arr.

(** ** ssr_to_clash *)

Definition ssr_obj (item : pyval) : res dict :=
  name <- strip_if_truthy item k_remarks ;;
  server <- py_get item k_server ;;
  portv <- py_get item k_port ;;
  port <- py_int portv ;;
  method <- py_get item k_method ;;
  password <- py_get item k_password ;;
  obfs <- py_get item k_obfs ;;
  protocol <- py_get item k_protocol ;;
  obfsparam <- py_get item k_obfsparam ;;
  protoparam <- py_get item k_protoparam ;;
  Ok [(k_name, name); (k_type, VStr (lit "ssr")); (k_server, server);
      (k_port, VInt port); (k_cipher, method); (k_password, password);
      (k_obfs, obfs); (k_protocol, protocol); (k_obfs_param, obfsparam);
      (k_protocol_param, protoparam); (k_udp, VBool true)].

Definition ssr_item (item : pyval) : res (list (pyval * pyval)) :=
  obj <- ssr_obj item ;;
  let o := drop_none obj in
  let nm := get_or_none o k_name in
  if truthy nm then
    b1 <- py_startswith nm marker_traffic ;;
    if b1 then Ok [] else
    b2 <- py_startswith nm marker_expiry ;;
    if b2 then Ok [] else emit o
  else Ok [].

Definition ssr_to_clash (arr : list pyval) : res feed := collect ssr_item arr.

(** ** The records the normalisers emit *)

Definition record_name (r : pyval) : pyval :=
  match r with VDict d => get_or_none d k_name | _ => VNone end.

(** What the spec calls a ProxyRecord: a dict with distinct keys holding
    no None, whose [name] is a string without surrounding whitespace and
    whose [port] is an integer. *)
Definition good_record (r : pyval) : Prop :=
  exists d, r = VDict d /\ NoDup (keys d) /\ Forall (fun kv => kv.2 <> VNone) d /\
    (exists s, get_or_none d k_name = VStr s /\ strip s = s) /\
    (exists z, get_or_none d k_port = VInt z).

(** A record under construction, before the None keys are deleted. *)
Definition good_obj (obj : dict) : Prop :=
  NoDup (keys obj) /\
  (get_or_none obj k_name = VNone \/
   exists s, get_or_none obj k_name = VStr (strip s)) /\
  (exists z, get_or_none obj k_port = VInt z).

Lemma strip_if_truthy_ok item k v :
  strip_if_truthy item k = Ok v -> v = VNone \/ exists s, v = VStr (strip s).
Proof.
  unfold strip_if_truthy. destruct (py_get item k) as [w|]; [|discriminate].
  destruct (truthy w); [|intros [= <-]; by left].
  destruct w; try discriminate. intros [= <-]. right. eauto.
Qed.

Lemma emit_Ok o ps :
  emit o = Ok ps -> exists v, dget o k_name = Some v /\ ps = [(VDict o, v)].
Proof.
  unfold emit, py_getitem. destruct (dget o k_name) as [v|]; [|discriminate].
  intros [= <-]. eauto.
Qed.

(** Every pair a body emits from a good object is a good record with its
    own name. *)
Lemma emit_good obj ps :
  good_obj obj -> emit (drop_none obj) = Ok ps ->
  Forall (fun p => good_record p.1 /\ p.2 = record_name p.1) ps.
Proof.
  intros (Hnd & Hname & Hport) (v & Hv & ->)%emit_Ok.
  rewrite drop_none_filter in Hv |- * by done.
  pose proof (dget_filter_present _ _ _ Hnd Hv) as [Hg Hne].
  assert (Hget : forall k, get_or_none (List.filter present obj) k = get_or_none obj k)
    by (intros; by apply get_or_none_filter_present).
  repeat constructor; simpl.
  - exists (List.filter present obj). split; [done|].
    split; [by apply keys_filter_NoDup|].
    split; [apply filter_present_no_none|]. rewrite !Hget. split; [|done].
    unfold get_or_none in Hname at 1 2. rewrite Hg in Hname.
    destruct Hname as [->|[s ->]]; [done|].
    exists (strip s). unfold get_or_none. rewrite Hg. split; [done|apply strip_idem].
  - unfold get_or_none. by rewrite Hv.
Qed.

(** The keys of a dict literal are distinct: decided by computation
    (the values are carried along unevaluated). *)
Ltac decide_keys := apply (bool_decide_unpack _); vm_compute; exact I.

Lemma v2ray_obj_good item obj : v2ray_obj item = Ok obj -> good_obj obj.
Proof.
  unfold v2ray_obj. destruct (strip_if_truthy item k_ps) as [name|] eqn:En;
    [|discriminate]. intros H; res_break H; injection H as <-;
    (split; [decide_keys|split; [|eexists; reflexivity]]);
    replace (get_or_none _ k_name) with name by reflexivity;
    by apply strip_if_truthy_ok in En.
Qed.

Lemma ssr_obj_good item obj : ssr_obj item = Ok obj -> good_obj obj.
Proof.
  unfold ssr_obj. destruct (strip_if_truthy item k_remarks) as [name|] eqn:En;
    [|discriminate]. intros H. res_break H. injection H as <-.
  split; [decide_keys|split; [|eexists; reflexivity]].
  replace (get_or_none _ k_name) with name by reflexivity.
  by apply strip_if_truthy_ok in En.
Qed.

Lemma set_nested_ok obj ko ki v obj' :
  set_nested obj ko ki v = Ok obj' ->
  exists inner, obj' = dset obj ko inner.
Proof.
  unfold set_nested. destruct (py_getitem (VDict obj) ko); [|discriminate].
  destruct (py_setitem _ ki v) as [inner|]; [|discriminate]. intros [= <-]. eauto.
Qed.

Lemma set_nested_good obj ki v obj' :
  good_obj obj -> k_plugin_opts ∈ keys obj ->
  set_nested obj k_plugin_opts ki v = Ok obj' ->
  good_obj obj' /\ k_plugin_opts ∈ keys obj'.
Proof.
  intros (Hnd & Hn & Hp) Hin (inner & ->)%set_nested_ok.
  unfold good_obj. rewrite !keys_dset_in by done. split; [|done]. split; [done|].
  rewrite !get_or_none_dset_ne by (by vm_compute). done.
Qed.

Lemma ss_obj_good item obj : ss_obj item = Ok obj -> good_obj obj.
Proof.
  unfold ss_obj. destruct (strip_if_truthy item k_name) as [name|] eqn:En;
    [|discriminate]. apply strip_if_truthy_ok in En.
  destruct (py_get item k_server) as [server|]; [|discriminate].
  destruct (py_get item k_port) as [pv|]; [|discriminate].
  destruct (py_int pv) as [port|]; [|discriminate].
  destruct (py_get item k_method) as [method|]; [|discriminate].
  destruct (py_get item k_password) as [password|]; [|discriminate].
  destruct (py_get item k_plugin) as [plugin|]; [|discriminate].
  destruct (if truthy plugin then _ else _) as [pl|]; [|discriminate].
  assert (Hg : good_obj (ss_literal name server port method password pl plugin) /\
               k_plugin_opts ∈ keys (ss_literal name server port method password pl plugin)).
  { split; [split; [decide_keys|split; [|eexists; reflexivity]]|decide_keys].
    by replace (get_or_none _ k_name) with name by reflexivity. }
  destruct (py_get item k_obfs) as [obfs|]; [|discriminate].
  destruct (if truthy obfs then _ else _) as [o1|] eqn:E1; [|discriminate].
  assert (Hg1 : good_obj o1 /\ k_plugin_opts ∈ keys o1).
  { destruct (truthy obfs); [|by injection E1 as <-].
    destruct Hg. by eapply set_nested_good. }
  destruct (py_get item k_obfs_host) as [host|]; [|discriminate].
  destruct (truthy host); [|intros [= <-]; apply Hg1].
  intros H. destruct Hg1. by eapply set_nested_good.
Qed.

Definition good_pair (p : pyval * pyval) : Prop :=
  good_record p.1 /\ p.2 = record_name p.1.

Lemma v2ray_item_good item ps : v2ray_item item = Ok ps -> Forall good_pair ps.
Proof.
  unfold v2ray_item. destruct (all_none _ _) as [[]|]; try discriminate;
    [by intros [= <-]|].
  destruct (v2ray_obj item) as [obj|] eqn:E; [|discriminate].
  destruct (is_none _); [by intros [= <-]|].
  apply emit_good. by eapply v2ray_obj_good.
Qed.

Lemma ss_item_good item ps : ss_item item = Ok ps -> Forall good_pair ps.
Proof.
  unfold ss_item. destruct (ss_obj item) as [obj|] eqn:E; [|discriminate].
  apply emit_good. by eapply ss_obj_good.
Qed.

Lemma ssr_item_good item ps : ssr_item item = Ok ps -> Forall good_pair ps.
Proof.
  unfold ssr_item. destruct (ssr_obj item) as [obj|] eqn:E; [|discriminate].
  destruct (truthy _); [|by intros [= <-]].
  destruct (py_startswith _ marker_traffic) as [[]|]; try discriminate;
    [by intros [= <-]|].
  destruct (py_startswith _ marker_expiry) as [[]|]; try discriminate;
    [by intros [= <-]|].
  apply emit_good. by eapply ssr_obj_good.
Qed.

Lemma collect_good body arr f :
  (forall item ps, body item = Ok ps -> Forall good_pair ps) ->
  collect body arr = Ok f ->
  Forall good_record (proxy_list f) /\ proxy_names f = map record_name (proxy_list f).
Proof.
  intros Hb. unfold collect.
  destruct (res_concat_map body arr) as [ps|] eqn:E; [|discriminate].
  intros [= <-]. simpl. apply (res_concat_map_Forall _ _ _ _ (fun x zs _ H => Hb x zs H)) in E.
  split.
  - apply Forall_map, Forall_forall. intros p Hp.
    rewrite Forall_forall in E. exact (proj1 (E p Hp)).
  - rewrite map_map. induction E as [|[r n] ps [_ Hn] _ IH]; [done|].
    simpl in *. by rewrite Hn, IH.
Qed.

(** The record [ss_to_clash] makes of the dict the ss decoder builds
    from a link with a name and an integer port. *)
Lemma ss_item_link name srv port m pw z :
  name <> [] -> int_of_str port = Some z ->
  ss_item (VDict [(lit "name", VStr name); (lit "server", VStr srv); (lit "port", VStr port);
                  (lit "method", VStr m); (lit "password", VStr pw)]) =
  Ok [(VDict [(k_name, VStr (strip name)); (k_type, VStr (lit "ss")); (k_server, VStr srv);
              (k_port, VInt z); (k_cipher, VStr m); (k_password, VStr pw)], VStr (strip name))].
Proof.
  intros Hn Hz. unfold ss_item, ss_obj, strip_if_truthy, py_get.
  cbv [get_or_none dget]. simpl. rewrite bool_decide_false by done. rewrite Hz. reflexivity.
Qed.

(** ** Properties of the normalisers *)

(** C9: for each of the three normalisers, the two output lists are
    index-aligned: the name at index i is the [name] field of the record
    at index i. *)
Theorem normalizers_aligned arr :
  (forall f, v2ray_to_clash arr = Ok f -> proxy_names f = map record_name (proxy_list f)) /\
  (forall f, ss_to_clash arr = Ok f -> proxy_names f = map record_name (proxy_list f)) /\
  (forall f, ssr_to_clash arr = Ok f -> proxy_names f = map record_name (proxy_list f)).
Proof.
  split; [|split]; intros f Hf; eapply collect_good; [|exact Hf| |exact Hf| |exact Hf].
  all: eauto using v2ray_item_good, ss_item_good, ssr_item_good.
Qed.

(** C10: every record the three normalisers emit is a dict with distinct
    keys, no None value, a string name without surrounding whitespace
    and an integer port. *)
Theorem normalizers_records_good arr :
  (forall f, v2ray_to_clash arr = Ok f -> Forall good_record (proxy_list f)) /\
  (forall f, ss_to_clash arr = Ok f -> Forall good_record (proxy_list f)) /\
  (forall f, ssr_to_clash arr = Ok f -> Forall good_record (proxy_list f)).
Proof.
  split; [|split]; intros f Hf; eapply collect_good; [|exact Hf| |exact Hf| |exact Hf].
  all: eauto using v2ray_item_good, ss_item_good, ssr_item_good.
Qed.

Lemma v2ray_obj_alterId d obj :
  v2ray_obj (VDict d) = Ok obj -> get_or_none obj k_alterId = get_or_none d k_aid.
Proof.
  unfold v2ray_obj. cbn [py_get]. destruct (strip_if_truthy _ _); [|discriminate].
  destruct (py_int _); [|discriminate]. intros [= <-]. reflexivity.
Qed.

Lemma v2ray_item_no_aid d ps :
  get_or_none d k_aid = VNone -> v2ray_item (VDict d) = Ok ps -> ps = [].
Proof.
  intros Ha. unfold v2ray_item.
  destruct (all_none _ _) as [[]|]; try discriminate; [by intros [= <-]|].
  destruct (v2ray_obj (VDict d)) as [obj|] eqn:E; [|discriminate].
  pose proof (v2ray_obj_good _ _ E) as [Hnd _].
  rewrite drop_none_filter, get_or_none_filter_present by done.
  rewrite (v2ray_obj_alterId _ _ E), Ha. simpl. by intros [= <-].
Qed.

(** C18: [v2ray_to_clash] emits no record for decoded items that carry
    no [aid] (or a None one): the output is empty, whatever else the
    items hold. *)
Theorem v2ray_no_aid_empty arr f :
  Forall (fun item => exists d, item = VDict d /\ get_or_none d k_aid = VNone) arr ->
  v2ray_to_clash arr = Ok f -> f = empty_feed.
Proof.
  intros Harr. unfold v2ray_to_clash, collect.
  destruct (res_concat_map _ _) as [ps|] eqn:E; [|discriminate].
  intros [= <-]. apply res_concat_map_nil in E as ->; [done|].
  intros item zs Hin. rewrite Forall_forall in Harr.
  destruct (Harr item) as (d & -> & Hd); [by apply list_elem_of_In|].
  by apply v2ray_item_no_aid.
Qed.

Lemma ssr_obj_name d s obj :
  get_or_none d k_remarks = VStr s -> ssr_obj (VDict d) = Ok obj ->
  get_or_none obj k_name = if bool_decide (s = []) then VNone else VStr (strip s).
Proof.
  intros Hr. unfold ssr_obj, strip_if_truthy. cbn [py_get]. rewrite Hr. simpl.
  destruct (bool_decide (s = [])); simpl;
    destruct (py_int _); try discriminate; by intros [= <-].
Qed.

Lemma ssr_item_marker d s z :
  get_or_none d k_remarks = VStr s ->
  startswith (strip s) marker_traffic || startswith (strip s) marker_expiry = true ->
  py_int (get_or_none d k_port) = Ok z ->
  ssr_item (VDict d) = Ok [].
Proof.
  intros Hr Hm Hp. unfold ssr_item.
  destruct (ssr_obj (VDict d)) as [obj|] eqn:E.
  2:{ revert E. unfold ssr_obj, strip_if_truthy. cbn [py_get]. rewrite Hr, Hp.
      by destruct (truthy _). }
  pose proof (ssr_obj_good _ _ E) as [Hnd _].
  rewrite drop_none_filter, get_or_none_filter_present by done.
  rewrite (ssr_obj_name _ _ _ Hr E).
  destruct s as [|c0 s0]; [by vm_compute in Hm|]. rewrite bool_decide_false by done.
  destruct (strip (c0 :: s0)) as [|c r] eqn:Es; [by vm_compute in Hm|].
  cbn [truthy py_startswith]. rewrite bool_decide_false by done. cbn [negb].
  destruct (startswith (c :: r) marker_traffic) eqn:E1; [done|].
  cbn [orb] in Hm. by rewrite Hm.
Qed.

(** C17: an item of [ssr_to_clash] whose name starts with "剩余流量" or
    "过期时间" contributes nothing, wherever it stands in the input, once
    its port parses ([int()] runs before the name test). *)
Theorem ssr_marker_excluded l1 l2 d s z :
  get_or_none d k_remarks = VStr s ->
  startswith (strip s) marker_traffic || startswith (strip s) marker_expiry = true ->
  py_int (get_or_none d k_port) = Ok z ->
  ssr_to_clash (l1 ++ VDict d :: l2) = ssr_to_clash (l1 ++ l2).
Proof.
  intros Hr Hm Hp. unfold ssr_to_clash, collect.
  rewrite !res_concat_map_app. cbn [res_concat_map].
  rewrite (ssr_item_marker d s z) by done. cbn [app].
  destruct (res_concat_map ssr_item l1); [|done].
  by destruct (res_concat_map ssr_item l2).
Qed.

Lemma all_none_dict d ks :
  all_none (VDict d) ks = Ok (forallb (fun k => is_none (get_or_none d k)) ks).
Proof.
  induction ks as [|k ks IH]; [done|]. cbn [all_none py_get forallb].
  by destruct (is_none (get_or_none d k)).
Qed.

Lemma v2ray_obj_name_none d obj :
  get_or_none d k_ps = VNone -> v2ray_obj (VDict d) = Ok obj ->
  get_or_none obj k_name = VNone.
Proof.
  unfold v2ray_obj, strip_if_truthy. cbn [py_get]. intros ->. simpl.
  destruct (py_int _); [|discriminate]. by intros [= <-].
Qed.

(** C22: a decoded vmess item with an [aid] but no [ps] makes
    [v2ray_to_clash] raise KeyError ([obj['name']] after the None name was
    deleted), which aborts the whole conversion, whatever follows it. *)
Theorem v2ray_missing_ps_keyerror d z rest :
  get_or_none d k_ps = VNone -> get_or_none d k_aid <> VNone ->
  py_int (get_or_none d k_port) = Ok z ->
  v2ray_to_clash (VDict d :: rest) = Raise KeyError.
Proof.
  intros Hps Haid Hp. unfold v2ray_to_clash, collect. cbn [res_concat_map].
  unfold v2ray_item. rewrite all_none_dict.
  assert (Hf : forallb (fun k => is_none (get_or_none d k))
                 [k_ps; k_add; k_port; k_id; k_aid] = false).
  { apply not_true_iff_false. rewrite forallb_forall. intros H.
    specialize (H k_aid ltac:(simpl; tauto)). apply Haid.
    by destruct (get_or_none d k_aid). }
  rewrite Hf.
  destruct (v2ray_obj (VDict d)) as [obj|] eqn:E.
  2:{ revert E. unfold v2ray_obj, strip_if_truthy. cbn [py_get]. rewrite Hps, Hp.
      done. }
  pose proof (v2ray_obj_good _ _ E) as [Hnd _].
  rewrite drop_none_filter, get_or_none_filter_present by done.
  rewrite (v2ray_obj_alterId _ _ E). destruct (is_none (get_or_none d k_aid)) eqn:Ea;
    [by destruct (get_or_none d k_aid)|].
  unfold emit, py_getitem. rewrite dget_filter_present_None; [done|done|].
  by apply (v2ray_obj_name_none d).
Qed.

Lemma set_nested_other obj ko ki v obj' k :
  k <> ko -> set_nested obj ko ki v = Ok obj' -> get_or_none obj' k = get_or_none obj k.
Proof.
  intros Hk (inner & ->)%set_nested_ok. by apply get_or_none_dset_ne.
Qed.

Lemma ss_obj_name_falsy d obj :
  truthy (get_or_none d k_name) = false -> ss_obj (VDict d) = Ok obj ->
  get_or_none obj k_name = VNone.
Proof.
  intros Hn. unfold ss_obj, strip_if_truthy. cbn [py_get]. rewrite Hn.
  destruct (py_int _) as [port|]; [|discriminate].
  destruct (if truthy (get_or_none d k_plugin) then _ else _) as [pl|]; [|discriminate].
  set (o0 := ss_literal _ _ _ _ _ _ _).
  assert (H0 : get_or_none o0 k_name = VNone) by reflexivity.
  destruct (if truthy (get_or_none d k_obfs) then _ else _) as [o1|] eqn:E1;
    [|discriminate].
  assert (H1 : get_or_none o1 k_name = VNone).
  { destruct (truthy (get_or_none d k_obfs)); [|by injection E1 as <-].
    erewrite set_nested_other; [done| |exact E1]. by vm_compute. }
  destruct (truthy (get_or_none d k_obfs_host)); [|by intros [= <-]].
  intros E2. erewrite set_nested_other; [done| |exact E2]. by vm_compute.
Qed.

(** C23: a decoded ss item without a name (no [#...] fragment in the
    URI) makes [ss_to_clash] raise KeyError at [obj['name']] once its
    record is built, aborting the whole conversion. *)
Theorem ss_missing_name_keyerror d rest :
  truthy (get_or_none d k_name) = false -> is_ok (ss_obj (VDict d)) = true ->
  ss_to_clash (VDict d :: rest) = Raise KeyError.
Proof.
  intros Hn Hok. unfold ss_to_clash, collect. cbn [res_concat_map]. unfold ss_item.
  destruct (ss_obj (VDict d)) as [obj|] eqn:E; [|done].
  pose proof (ss_obj_good _ _ E) as [Hnd _].
  unfold emit, py_getitem. rewrite drop_none_filter by done.
  rewrite dget_filter_present_None; [done|done|]. by eapply ss_obj_name_falsy.
Qed.

Lemma v2ray_obj_name_str d s obj :
  get_or_none d k_ps = VStr s -> v2ray_obj (VDict d) = Ok obj ->
  get_or_none obj k_name = if bool_decide (s = []) then VNone else VStr (strip s).
Proof.
  intros Hr. unfold v2ray_obj, strip_if_truthy. cbn [py_get]. rewrite Hr. simpl.
  destruct (bool_decide (s = [])); simpl;
    destruct (py_int _); try discriminate; by intros [= <-].
Qed.

(** C24: a vmess item whose [ps] is non-empty but all whitespace is
    emitted with the empty name "" (the code tests the name before
    stripping it), although names are meant to be non-empty. *)
Theorem v2ray_blank_name_kept d s z :
  get_or_none d k_ps = VStr s -> s <> [] -> strip s = [] ->
  get_or_none d k_aid <> VNone -> py_int (get_or_none d k_port) = Ok z ->
  exists f, v2ray_to_clash [VDict d] = Ok f /\ proxy_names f = [VStr []].
Proof.
  intros Hps Hne Hs Haid Hp. unfold v2ray_to_clash, collect. cbn [res_concat_map].
  unfold v2ray_item. rewrite all_none_dict.
  assert (Hf : forallb (fun k => is_none (get_or_none d k))
                 [k_ps; k_add; k_port; k_id; k_aid] = false) by (simpl; by rewrite Hps).
  rewrite Hf.
  destruct (v2ray_obj (VDict d)) as [obj|] eqn:E.
  2:{ revert E. unfold v2ray_obj, strip_if_truthy. cbn [py_get]. rewrite Hps, Hp.
      by destruct (truthy _). }
  pose proof (v2ray_obj_good _ _ E) as [Hnd _].
  rewrite drop_none_filter, get_or_none_filter_present by done.
  rewrite (v2ray_obj_alterId _ _ E).
  destruct (is_none (get_or_none d k_aid)) eqn:Ea; [by destruct (get_or_none d k_aid)|].
  pose proof (v2ray_obj_name_str _ _ _ Hps E) as Hn.
  rewrite bool_decide_false, Hs in Hn by done.
  unfold emit, py_getitem.
  destruct (dget (List.filter present obj) k_name) as [v|] eqn:Ed.
  - pose proof (dget_filter_present _ _ _ Hnd Ed) as [Hg _].
    unfold get_or_none in Hn. rewrite Hg in Hn. subst v.
    eexists. split; [reflexivity|done].
  - exfalso. pose proof (get_or_none_filter_present _ k_name Hnd) as Hg.
    unfold get_or_none in Hg at 1. by rewrite Ed, Hn in Hg.
Qed.

(** ** Witnesses *)

Definition d_vmess : dict :=
  [(k_ps, VStr (lit " hk-1 ")); (k_add, VStr (lit "1.2.3.4"));
   (k_port, VStr (lit "443")); (k_id, VStr (lit "b831381d")); (k_aid, VStr (lit "0"));
   (k_net, VStr (lit "ws")); (k_tls, VStr (lit "tls"))].

Definition d_ss : dict :=
  [(k_name, VStr (lit "jp")); (k_server, VStr (lit "5.6.7.8"));
   (k_port, VStr (lit "8388")); (k_method, VStr (lit "aes-256-gcm"));
   (k_password, VStr (lit "pw")); (k_plugin, VStr (lit "obfs-local"));
   (k_obfs, VStr (lit "http")); (k_obfs_host, VStr (lit "cdn.example"))].

Definition d_ssr_info : dict :=
  [(k_server, VStr (lit "9.9.9.9")); (k_port, VStr (lit "443"));
   (k_remarks, VStr (marker_traffic ++ lit ": 10GB"))].

Definition d_ssr : dict :=
  [(k_server, VStr (lit "9.9.9.9")); (k_port, VStr (lit "443"));
   (k_remarks, VStr (lit "us-1")); (k_method, VStr (lit "aes-256-cfb"))].

Definition sample_items : list pyval := [VDict d_vmess; VDict d_ss; VDict d_ssr].

Definition feed_of (r : res feed) : feed :=
  match r with Ok f => f | Raise _ => empty_feed end.

Lemma normalizers_aligned_witness :
  proxy_names (feed_of (ssr_to_clash sample_items)) =
  map record_name (proxy_list (feed_of (ssr_to_clash sample_items))).
Proof.
  apply (proj2 (proj2 (normalizers_aligned sample_items))).
  vm_compute. reflexivity.
Defined.

Lemma normalizers_records_good_witness :
  Forall good_record (proxy_list (feed_of (ss_to_clash [VDict d_ss]))).
Proof.
  apply (proj1 (proj2 (normalizers_records_good [VDict d_ss]))).
  vm_compute. reflexivity.
Defined.

Definition d_vmess_noaid : dict := take 4 d_vmess.

Lemma v2ray_no_aid_empty_witness :
  feed_of (v2ray_to_clash [VDict d_vmess_noaid]) = empty_feed.
Proof.
  apply (v2ray_no_aid_empty [VDict d_vmess_noaid]).
  - repeat constructor. exists d_vmess_noaid. split; [done|]. by vm_compute.
  - vm_compute. reflexivity.
Defined.

Lemma ssr_marker_excluded_witness :
  ssr_to_clash ([VDict d_ssr] ++ VDict d_ssr_info :: []) = ssr_to_clash [VDict d_ssr].
Proof.
  apply (ssr_marker_excluded [VDict d_ssr] [] d_ssr_info (marker_traffic ++ lit ": 10GB") 443);
    vm_compute; reflexivity.
Defined.

Lemma v2ray_missing_ps_keyerror_witness :
  v2ray_to_clash [VDict (drop 1 d_vmess); VDict d_vmess] = Raise KeyError.
Proof.
  apply (v2ray_missing_ps_keyerror (drop 1 d_vmess) 443); vm_compute; [reflexivity|discriminate|reflexivity].
Defined.

Lemma ss_missing_name_keyerror_witness :
  ss_to_clash [VDict (drop 1 d_ss); VDict d_ss] = Raise KeyError.
Proof. apply ss_missing_name_keyerror; vm_compute; reflexivity. Defined.

Lemma v2ray_blank_name_kept_witness :
  exists f, v2ray_to_clash [VDict ((k_ps, VStr (lit "   ")) :: drop 1 d_vmess)] = Ok f /\
    proxy_names f = [VStr []].
Proof.
  apply (v2ray_blank_name_kept _ (lit "   ") 443); vm_compute;
    [reflexivity|discriminate|reflexivity|discriminate|reflexivity].
Defined.

End Normalize.
