(* ===== verification/Aggregator.v ===== *)
(** * Subscription aggregation: [get_proxies] (src/freefq.py, lines 151-219)

    [get_proxies(urls)] splits [urls] on ';', fetches every URL and
    tries [base64.b64decode] on the body.  When that raises (any
    exception: the [except Exception] covers only the decode), the body
    is read as a Clash YAML document: the list under [proxies] (or
    [Proxy]) is taken, each node's name is stripped, the ClashR keys
    [protocolparam]/[obfsparam] are renamed to [protocol-param]/
    [obfs-param], [udp] is set to True, and the nodes and their names are
    appended to the result.  Otherwise the decoded bytes are split into
    lines and each line is dispatched on its scheme to a decoder of
    [Codec] and a normaliser of [Normalize]; after every line, whatever
    [clash_node] holds is appended to the result.

    [clash_node] starts as the list [[]] and is only reassigned by a
    recognised line, so an unrecognised line appends the previous line's
    records again, and an unrecognised first line raises TypeError
    ([[]['proxy_list']]).  [clash_state] models the variable: [None] is
    the initial [[]], [Some f] a feed.

    The network, the YAML parser and the JSON parser are the section
    variables [fetch], [yaml_load] and [json_loads]: the theorems hold
    for every behaviour of them.  They show that the line loop computes
    the concatenation of the lines' records when every line is a link
    (C4) and repeats the last records otherwise (C14, C15), what the
    YAML branch does to a node (C19, C31), that the whole feed is a list
    of dicts aligned with its names (C35), that a base64 subscription of well-formed ss
    links is converted into the records of all its links, the whole
    chain of decoders and normalisers included (C37), that a Clash YAML
    subscription of dict nodes yields all its nodes (C40), and that the URLs
    are independent: the result on a list of URLs is the concatenation
    of the results on each (C39). *)

From S2P Require Import Prelude PyStr PyVal Utf8 Base64 Codec Normalize.
Open Scope Z_scope.

Module Aggregator.

Import Normalize.

Section GetProxies.
Variable fetch : pystr -> res pystr.
Variable yaml_load : pystr -> res pyval.
Variable json_loads : pystr -> res pyval.

(** ** The YAML branch *)

Definition k_protocolparam := lit "protocolparam".

(** [if node.get(k_old): node[k_new] = node[k_old]; del node[k_old]] *)
Definition rename_key (node : pyval) (k_old k_new : pystr) : res pyval :=
  v <- py_get node k_old ;;
  if truthy v then
    x <- py_getitem node k_old ;;
    node' <- py_setitem node k_new x ;;
    py_delitem node' k_old
  else Ok node.

(** The body of [for node in tmp_list]. *)
Definition yaml_node (node : pyval) : res pyval :=
  g <- py_get node k_name ;;
  nm <- (if truthy g then n <- py_getitem node k_name ;; py_strip n else Ok VNone) ;;
  node1 <- py_setitem node k_name nm ;;
  node2 <- rename_key node1 k_protocolparam k_protocol_param ;;
  node3 <- rename_key node2 k_obfsparam k_obfs_param ;;
  py_setitem node3 k_udp (VBool true).

(** The [except] branch: [None] is its [continue] with nothing added. *)
Definition yaml_branch (response : pystr) : res feed :=
  yml <- yaml_load response ;;
  p <- py_get yml (lit "proxies") ;;
  tmp <- (if truthy p then Ok (Some p)
          else q <- py_get yml (lit "Proxy") ;; Ok (if truthy q then Some q else None)) ;;
  match tmp with
  | None => Ok empty_feed
  | Some t =>
      nodes <- py_iter t ;;
      nodes_list <- res_list_map yaml_node nodes ;;
      names <- res_list_map (fun n => py_get n k_name) nodes_list ;;
      Ok (mk_feed nodes_list names)
  end.

(** ** The base64 branch *)

(** The value of [clash_node] after one line: a recognised line decodes
    and normalises to a new feed, any other line keeps the old value. *)
Definition node_step (clash : option feed) (node : pybytes) : res (option feed) :=
  if startswith node (lit "vmess://") then
    d <- Codec.decode_v2ray_node json_loads [node] ;; f <- v2ray_to_clash d ;; Ok (Some f)
  else if startswith node (lit "ss://") then
    d <- Codec.decode_ss_node [node] ;; f <- ss_to_clash d ;; Ok (Some f)
  else if startswith node (lit "ssr://") then
    d <- Codec.decode_ssr_node [node] ;; f <- ssr_to_clash d ;; Ok (Some f)
  else Ok clash.

(** [for node in nodes_list: ...; proxy_list['proxy_list'].extend(
    clash_node['proxy_list']); ...] *)
Fixpoint lines_loop (acc : feed) (clash : option feed) (nodes : list pybytes) : res feed :=
  match nodes with
  | [] => Ok acc
  | node :: rest =>
      c <- node_step clash node ;;
      match c with
      | None => Raise TypeError
      | Some f => lines_loop (feed_app acc f) (Some f) rest
      end
  end.

(** One URL. *)
Definition url_step (acc : feed) (url : pystr) : res feed :=
  response <- fetch url ;;
  match Base64.b64decode response with
  | Raise _ => f <- yaml_branch response ;; Ok (feed_app acc f)
  | Ok raw => lines_loop acc None (splitlines raw)
  end.

Definition get_proxies (urls : pystr) : res feed :=
  res_fold url_step empty_feed (py_split urls (lit ";")).

(** ** What each line should contribute *)

Definition recognised (node : pybytes) : bool :=
  startswith node (lit "vmess://") || startswith node (lit "ss://") ||
  startswith node (lit "ssr://").

(** The records a line stands for: its decoded and normalised records
    when it is a proxy link, nothing otherwise. *)
Definition line_feed (node : pybytes) : res feed :=
  if startswith node (lit "vmess://") then
    d <- Codec.decode_v2ray_node json_loads [node] ;; v2ray_to_clash d
  else if startswith node (lit "ss://") then
    d <- Codec.decode_ss_node [node] ;; ss_to_clash d
  else if startswith node (lit "ssr://") then
    d <- Codec.decode_ssr_node [node] ;; ssr_to_clash d
  else Ok empty_feed.

(** The intended loop: the lines' records, concatenated in order. *)
Definition lines_spec (acc : feed) (nodes : list pybytes) : res feed :=
  res_fold (fun a n => f <- line_feed n ;; Ok (feed_app a f)) acc nodes.

(** ** Lemmas *)

Lemma node_step_recognised c node :
  recognised node = true -> node_step c node = (f <- line_feed node ;; Ok (Some f)).
Proof.
  unfold recognised, node_step, line_feed.
  destruct (startswith node (lit "vmess://")); [by repeat (res_case; cbn)|].
  destruct (startswith node (lit "ss://")); [by repeat (res_case; cbn)|].
  destruct (startswith node (lit "ssr://")); [by repeat (res_case; cbn)|done].
Qed.

Lemma node_step_other c node : recognised node = false -> node_step c node = Ok c.
Proof.
  unfold recognised, node_step. intros H. apply orb_false_iff in H as [H H3].
  apply orb_false_iff in H as [H1 H2]. by rewrite H1, H2, H3.
Qed.

Lemma feed_app_assoc a b c : feed_app (feed_app a b) c = feed_app a (feed_app b c).
Proof. destruct a, b, c. unfold feed_app. simpl. by rewrite !app_assoc. Qed.

(** Renaming a key of a dict never fails: a truthy value moves from
    the old key to the new one, the old key then holds nothing truthy,
    and the other keys are as they were. *)
Lemma rename_key_ok d k_old k_new :
  k_old <> k_new -> exists d', rename_key (VDict d) k_old k_new = Ok (VDict d') /\
    get_or_none d' k_new = (if truthy (get_or_none d k_old) then get_or_none d k_old
                            else get_or_none d k_new) /\
    truthy (get_or_none d' k_old) = false /\
    forall k, k <> k_old -> k <> k_new -> get_or_none d' k = get_or_none d k.
Proof.
  intros Hne. unfold rename_key. cbn [py_get]. destruct (truthy (get_or_none d k_old)) eqn:T.
  - destruct (dget d k_old) as [x|] eqn:Ex; [|by unfold get_or_none in T; rewrite Ex in T].
    exists (ddel (dset d k_new x) k_old). unfold get_or_none. split_and!.
    + cbn [py_getitem]. rewrite Ex. cbn. by rewrite dget_dset_ne, Ex.
    + by rewrite dget_ddel_ne, dget_dset_eq, Ex.
    + by rewrite dget_ddel_eq.
    + intros k H1 H2. by rewrite dget_ddel_ne, dget_dset_ne by done.
  - exists d. split_and!; [done..|rewrite T; done|done].
Qed.

(** ** Each URL on its own *)

Lemma feed_app_empty_l f : feed_app empty_feed f = f.
Proof. by destruct f. Qed.

(** The line loop only appends to what it is given. *)
Lemma lines_loop_acc acc c nodes :
  lines_loop acc c nodes = (f <- lines_loop empty_feed c nodes ;; Ok (feed_app acc f)).
Proof.
  revert acc c. induction nodes as [|n nodes IH]; intros acc c; simpl.
  - destruct acc. unfold feed_app. cbn. by rewrite !app_nil_r.
  - destruct (node_step c n) as [[f|]|]; [|done|done]. cbv beta iota.
    rewrite IH, (IH (feed_app empty_feed f)), feed_app_empty_l.
    destruct (lines_loop empty_feed (Some f) nodes); [|done]. by rewrite feed_app_assoc.
Qed.

Lemma url_step_acc acc u :
  url_step acc u = (f <- url_step empty_feed u ;; Ok (feed_app acc f)).
Proof.
  unfold url_step. destruct (fetch u) as [resp|]; [|done]. cbv beta iota.
  destruct (Base64.b64decode resp); [apply lines_loop_acc|].
  destruct (yaml_branch resp); [|done]. by rewrite feed_app_empty_l.
Qed.

Lemma get_proxies_single u : 59 ∉ u -> get_proxies u = url_step empty_feed u.
Proof.
  intros Hu. unfold get_proxies. change (lit ";") with [59]. rewrite py_split_absent by done.
  cbn [res_fold]. by destruct (url_step empty_feed u).
Qed.

(** ** The shape of the feed *)

(** Every record is a dict and the names are the records' [name]
    fields, index by index (the spec's alignment invariant). *)
Definition aligned (f : feed) : Prop :=
  Forall (fun r => exists d, r = VDict d) (proxy_list f) /\
  proxy_names f = map record_name (proxy_list f).

Lemma aligned_empty : aligned empty_feed.
Proof. split; constructor. Qed.

Lemma aligned_app a b : aligned a -> aligned b -> aligned (feed_app a b).
Proof.
  intros [Ha Na] [Hb Nb]. split; cbn; [by apply Forall_app|by rewrite Na, Nb, map_app].
Qed.

Lemma collect_aligned body arr f :
  (forall item ps, body item = Ok ps -> Forall good_pair ps) -> collect body arr = Ok f ->
  aligned f.
Proof.
  intros Hb Hf. destruct (collect_good body arr f Hb Hf) as [Hg Hn]. split; [|done].
  eapply List.Forall_impl; [|exact Hg]. intros r (d & -> & _). eauto.
Qed.

Lemma line_feed_aligned n f : line_feed n = Ok f -> aligned f.
Proof.
  unfold line_feed. intros H. res_break H;
    [eapply collect_aligned; [exact v2ray_item_good|exact H]
    |eapply collect_aligned; [exact ss_item_good|exact H]
    |eapply collect_aligned; [exact ssr_item_good|exact H]
    |injection H as <-; apply aligned_empty].
Qed.

Lemma node_step_aligned c n f :
  (forall g, c = Some g -> aligned g) -> node_step c n = Ok (Some f) -> aligned f.
Proof.
  intros Hc. destruct (recognised n) eqn:R.
  - rewrite node_step_recognised by done. destruct (line_feed n) eqn:E; [|discriminate].
    intros [= <-]. by eapply line_feed_aligned.
  - rewrite node_step_other by done. intros [= ->]. by apply Hc.
Qed.

Lemma lines_loop_aligned acc c nodes r :
  aligned acc -> (forall g, c = Some g -> aligned g) -> lines_loop acc c nodes = Ok r ->
  aligned r.
Proof.
  revert acc c. induction nodes as [|n nodes IH]; intros acc c Ha Hc; simpl; [by intros [= <-]|].
  destruct (node_step c n) as [[f|]|] eqn:E; try discriminate.
  pose proof (node_step_aligned c n f Hc E). apply IH; [by apply aligned_app|by intros g [= <-]].
Qed.

Lemma py_setitem_dict v k x v' : py_setitem v k x = Ok v' -> exists d, v' = VDict d.
Proof. destruct v; cbn; intros H; try discriminate H. injection H as <-. eauto. Qed.

Lemma yaml_node_dict n n' : yaml_node n = Ok n' -> exists d, n' = VDict d.
Proof. unfold yaml_node. intros H. res_break H. by eapply py_setitem_dict. Qed.

Lemma yaml_branch_aligned resp f : yaml_branch resp = Ok f -> aligned f.
Proof.
  unfold yaml_branch. intros H. res_break H. destruct a1 as [t|]; [|injection H as <-; apply aligned_empty].
  res_break H. injection H as <-.
  assert (Hd : Forall (fun r => exists d, r = VDict d) a2).
  { eapply Forall2_Forall_right; [|exact (res_list_map_inv _ _ _ E3)].
    intros x y. apply yaml_node_dict. }
  split; [done|]. cbn. rewrite (res_list_map_pure _ record_name) in E4; [by injection E4|].
  intros x Hx%list_elem_of_In. rewrite Forall_forall in Hd. by destruct (Hd x Hx) as [d ->].
Qed.

Lemma url_step_aligned acc u f : aligned acc -> url_step acc u = Ok f -> aligned f.
Proof.
  intros Ha. unfold url_step. destruct (fetch u) as [resp|]; [|discriminate]. cbv beta iota.
  destruct (Base64.b64decode resp).
  - apply lines_loop_aligned; [done|discriminate].
  - intros H. res_break H. injection H as <-. by apply aligned_app, (yaml_branch_aligned resp).
Qed.

(** The name step of [yaml_node] succeeds when a truthy name is a
    string. *)
Lemma yaml_name_ok d :
  (truthy (get_or_none d k_name) = true -> exists s, get_or_none d k_name = VStr s) ->
  exists nm, (if truthy (get_or_none d k_name)
              then n <- py_getitem (VDict d) k_name ;; py_strip n else Ok VNone) = Ok nm.
Proof.
  intros Hn. destruct (truthy _) eqn:T; [|by eexists]. destruct (Hn eq_refl) as [s Hs].
  unfold get_or_none in Hs. cbn [py_getitem].
  destruct (dget d k_name); [subst; by eexists|discriminate].
Qed.

(** A node the YAML branch accepts: a dict whose name, when truthy, is
    a string. *)
Definition yaml_node_ok (n : pyval) : Prop :=
  exists d, n = VDict d /\
    (truthy (get_or_none d k_name) = true -> exists s, get_or_none d k_name = VStr s).

Lemma yaml_node_total n : yaml_node_ok n -> exists d', yaml_node n = Ok (VDict d').
Proof.
  intros (d & -> & Hn). unfold yaml_node. cbn [py_get].
  destruct (yaml_name_ok d Hn) as [nm ->]. cbn [py_setitem]. cbv beta iota.
  destruct (rename_key_ok (dset d k_name nm) k_protocolparam k_protocol_param)
    as (d2 & -> & _); [decide_closed|]. cbv beta iota.
  destruct (rename_key_ok d2 k_obfsparam k_obfs_param) as (d3 & -> & _); [decide_closed|].
  cbn [py_setitem]. eauto.
Qed.

(** ** A subscription of SIP002 ss links *)

(** The fields of one link, as its publisher wrote them. *)
Record ss_entry := mk_ss_entry {
  e_method : pystr; e_password : pystr; e_server : pystr; e_port : pystr; e_name : pystr }.

Definition ss_entry_link (e : ss_entry) : pybytes :=
  Codec.ss_link (e_method e) (e_password e) (e_server e) (e_port e) (e_name e).

(** The conditions of C5, no line break in the server and the port, a
    name, and a port that [int()] accepts. *)
Definition ss_entry_ok (e : ss_entry) : Prop :=
  Forall Utf8.scalar (e_method e ++ e_password e ++ e_server e ++ e_port e ++ e_name e) /\
  free_of [58; 10] (e_method e) /\ free_of [10] (e_password e) /\
  free_of [35; 47; 10; 13] (e_server e) /\ free_of [35; 47; 58; 10; 13] (e_port e) /\
  e_name e <> [] /\ int_of_str (e_port e) <> None.

Definition ss_entry_port (e : ss_entry) : Z :=
  match int_of_str (e_port e) with Some z => z | None => 0 end.

(** The Clash record of a link. *)
Definition ss_entry_record (e : ss_entry) : pyval :=
  VDict [(k_name, VStr (strip (e_name e))); (k_type, VStr (lit "ss"));
         (k_server, VStr (e_server e)); (k_port, VInt (ss_entry_port e));
         (k_cipher, VStr (e_method e)); (k_password, VStr (e_password e))].

Definition ss_entry_name (e : ss_entry) : pyval := VStr (strip (e_name e)).

Lemma ss_entry_line e :
  ss_entry_ok e ->
  (exists r, ss_entry_link e = lit "ss://" ++ r) /\
  free_of [10; 13] (ss_entry_link e) /\ Forall Base64.is_byte (ss_entry_link e).
Proof.
  intros (Hs & _ & _ & Hsv & Hp & _). unfold ss_entry_link. apply Codec.ss_link_line; [exact Hs| |];
    (eapply free_of_sub; [eassumption|decide_closed]).
Qed.

Lemma line_feed_ss e :
  ss_entry_ok e -> line_feed (ss_entry_link e) = Ok (mk_feed [ss_entry_record e] [ss_entry_name e]).
Proof.
  intros He. pose proof He as (Hs & Hm & Hw & Hsv & Hp & Hn & Hz).
  destruct (ss_entry_line e He) as [[r Hr] _]. unfold line_feed. rewrite Hr.
  replace (startswith (lit "ss://" ++ r) (lit "vmess://")) with false by reflexivity.
  rewrite startswith_app. unfold Codec.decode_ss_node. cbn [res_concat_map]. rewrite <- Hr.
  unfold ss_entry_link. rewrite Codec.ss_node_link;
    [|done|done|done|eapply free_of_sub; [exact Hsv|decide_closed]
     |eapply free_of_sub; [exact Hp|decide_closed]].
  cbv beta iota. unfold ss_to_clash, collect. cbn [res_concat_map].
  destruct (int_of_str (e_port e)) as [z|] eqn:Ez; [|done].
  unfold ss_entry_record, ss_entry_name, ss_entry_port. rewrite Ez.
  rewrite app_nil_r. cbn [res_concat_map]. rewrite (ss_item_link _ _ _ _ _ z) by done. reflexivity.
Qed.

Lemma lines_loop_ss acc c es :
  Forall ss_entry_ok es ->
  lines_loop acc c (map ss_entry_link es) =
  Ok (feed_app acc (mk_feed (map ss_entry_record es) (map ss_entry_name es))).
Proof.
  revert acc c. induction es as [|e es IH]; intros acc c Hes.
  - destruct acc. unfold feed_app. cbn. by rewrite !app_nil_r.
  - apply Forall_cons_iff in Hes as [He Hes]. cbn [map lines_loop].
    destruct (ss_entry_line e He) as [[r Hr] _].
    rewrite node_step_recognised
      by (unfold recognised; rewrite Hr, startswith_app, orb_true_r; reflexivity).
    rewrite line_feed_ss by done. cbv beta iota. rewrite IH by done.
    rewrite feed_app_assoc. reflexivity.
Qed.

(** ** Theorems *)

(** C4: on a subscription whose lines are all proxy links, the loop of
    [get_proxies] computes its intended result: the records of every
    line, appended in order. *)
Theorem lines_loop_refines acc c nodes :
  forallb recognised nodes = true -> lines_loop acc c nodes = lines_spec acc nodes.
Proof.
  unfold lines_spec. revert acc c. induction nodes as [|n nodes IH]; intros acc c H; [done|].
  apply andb_true_iff in H as [Hn H]. simpl. rewrite node_step_recognised by done.
  destruct (line_feed n); [|done]. cbn. by apply IH.
Qed.

(** C14: a line that is not a proxy link appends the records of the
    last proxy link again: after a link that yields the feed [f], every
    following unrecognised line adds [f] once more. *)
Theorem lines_loop_stale acc n f js :
  node_step None n = Ok (Some f) -> forallb (fun j => negb (recognised j)) js = true ->
  lines_loop acc None (n :: js) = Ok (fold_left feed_app (repeat f (S (length js))) acc).
Proof.
  intros Hn Hjs. simpl. rewrite Hn. cbn. clear Hn. revert acc.
  induction js as [|j js IH]; intros acc; [done|].
  apply andb_true_iff in Hjs as [Hj Hjs]. apply negb_true_iff in Hj.
  simpl. rewrite node_step_other by done. cbn. by apply IH.
Qed.

(** C15: an unrecognised first line makes the whole call raise
    TypeError ([[]['proxy_list']]): [clash_node] is still the initial
    empty list. *)
Theorem get_proxies_first_line_type_error url response raw junk rest :
  59 ∉ url -> fetch url = Ok response -> Base64.b64decode response = Ok raw ->
  splitlines raw = junk :: rest -> recognised junk = false ->
  get_proxies url = Raise TypeError.
Proof.
  intros Hu Hf Hb Hs Hj. unfold get_proxies. change (lit ";") with [59].
  rewrite py_split_absent by done. simpl. unfold url_step. rewrite Hf. cbn.
  rewrite Hb, Hs. simpl. by rewrite node_step_other.
Qed.

(** C19: [yaml_node] normalises a Clash node: the result is a dict with
    [udp] True, a name that is None or a string without surrounding
    whitespace, and no truthy [protocolparam] or [obfsparam] left. *)
Theorem yaml_node_normalises node node' :
  yaml_node node = Ok node' ->
  exists d, node' = VDict d /\ dget d k_udp = Some (VBool true) /\
    (get_or_none d k_name = VNone \/ exists s, get_or_none d k_name = VStr s /\ strip s = s) /\
    truthy (get_or_none d k_protocolparam) = false /\ truthy (get_or_none d k_obfsparam) = false.
Proof.
  unfold yaml_node. destruct node as [| | | | |d]; try discriminate. cbn [py_get].
  set (g := get_or_none d k_name).
  assert (Hnm : forall nm, (if truthy g then n <- py_getitem (VDict d) k_name ;; py_strip n
                            else Ok VNone) = Ok nm ->
                nm = VNone \/ exists s, nm = VStr s /\ strip s = s).
  { intros nm. destruct (truthy g); [|intros [= <-]; by left].
    unfold py_getitem. destruct (dget d k_name) as [v|]; [|intros [=]]. cbn beta iota.
    destruct v; cbn; intros H; try discriminate H. injection H as <-.
    right. eexists. split; [done|]. apply strip_idem. }
  destruct (if truthy g then _ else _) as [nm|] eqn:Enm; [|discriminate].
  specialize (Hnm nm eq_refl). cbn [py_setitem].
  destruct (rename_key_ok (dset d k_name nm) k_protocolparam k_protocol_param)
    as (d2 & -> & _ & T2 & K2); [decide_closed|]. cbv beta iota.
  destruct (rename_key_ok d2 k_obfsparam k_obfs_param) as (d3 & -> & _ & T3 & K3);
    [decide_closed|]. cbn.
  intros [= <-]. exists (dset d3 k_udp (VBool true)).
  split_and!; [done|apply dget_dset_eq| | |].
  - rewrite get_or_none_dset_ne, K3, K2, get_or_none_dset_eq by decide_closed. done.
  - rewrite !get_or_none_dset_ne, K3 by decide_closed. done.
  - rewrite get_or_none_dset_ne by decide_closed. done.
Qed.

(** C31: on a dict whose name, when truthy, is a string, [yaml_node]
    succeeds and moves the parameters: [protocol-param] ends up holding
    [protocolparam] when that is truthy and keeps its own value
    otherwise, and likewise [obfs-param] and [obfsparam]. *)
Theorem yaml_node_moves_params d :
  (truthy (get_or_none d k_name) = true -> exists s, get_or_none d k_name = VStr s) ->
  exists d', yaml_node (VDict d) = Ok (VDict d') /\
    get_or_none d' k_protocol_param =
      (if truthy (get_or_none d k_protocolparam) then get_or_none d k_protocolparam
       else get_or_none d k_protocol_param) /\
    get_or_none d' k_obfs_param =
      (if truthy (get_or_none d k_obfsparam) then get_or_none d k_obfsparam
       else get_or_none d k_obfs_param).
Proof.
  intros Hn. unfold yaml_node. cbn [py_get].
  destruct (yaml_name_ok d Hn) as [nm ->]. cbn [py_setitem]. cbv beta iota.
  destruct (rename_key_ok (dset d k_name nm) k_protocolparam k_protocol_param)
    as (d2 & -> & V2 & _ & K2); [decide_closed|]. cbv beta iota.
  destruct (rename_key_ok d2 k_obfsparam k_obfs_param) as (d3 & -> & V3 & _ & K3);
    [decide_closed|]. cbn [py_setitem]. eexists. split; [reflexivity|]. split.
  - rewrite get_or_none_dset_ne, K3, V2, !get_or_none_dset_ne by decide_closed. reflexivity.
  - rewrite get_or_none_dset_ne, V3, !K2, !get_or_none_dset_ne by decide_closed. reflexivity.
Qed.

(** C35: whatever the subscriptions hold, the feed [get_proxies]
    returns is well typed and aligned: every record is a dict, and the
    list of names is the list of the records' [name] fields, index by
    index, across URLs, YAML and base64 bodies, and the stale records of
    unrecognised lines alike. *)
Theorem get_proxies_aligned urls f :
  get_proxies urls = Ok f ->
  Forall (fun r => exists d, r = VDict d) (proxy_list f) /\
  proxy_names f = map record_name (proxy_list f).
Proof.
  apply (res_fold_inv aligned); [|apply aligned_empty]. intros a u a' Ha. by apply url_step_aligned.
Qed.

(** C37: a base64 subscription of well-formed SIP002 ss links is
    converted completely: [get_proxies] returns, for each link in
    order, its Clash record (name, type ss, server, integer port,
    cipher, password) and its name, across decoding the body, splitting
    it into lines, decoding each link and normalising it. *)
Theorem get_proxies_ss_subscription url es :
  59 ∉ url -> Forall ss_entry_ok es ->
  fetch url = Ok (Base64.b64encode (py_join [10] (map ss_entry_link es))) ->
  get_proxies url = Ok (mk_feed (map ss_entry_record es) (map ss_entry_name es)).
Proof.
  intros Hu Hes Hf. unfold get_proxies. change (lit ";") with [59].
  rewrite py_split_absent by done. cbn [res_fold]. unfold url_step. rewrite Hf. cbv beta iota.
  assert (Hl : Forall (fun l => l <> [] /\ free_of [10; 13] l /\ Forall Base64.is_byte l)
                      (map ss_entry_link es)).
  { apply Forall_map. eapply List.Forall_impl; [|exact Hes]. intros e He.
    destruct (ss_entry_line e He) as ([r ->] & Hn & Hb). split_and!; [|done|done].
    by destruct r; vm_compute. }
  rewrite Base64.b64decode_b64encode.
  2:{ apply Forall_py_join; [repeat constructor; lia|].
      eapply List.Forall_impl; [|exact Hl]. by intros l (_ & _ & ?). }
  cbv beta iota. rewrite splitlines_join by (eapply List.Forall_impl; [|exact Hl]; by intros l (? & ? & _)).
  rewrite lines_loop_ss by done. reflexivity.
Qed.

(** C39: the URLs of the list are independent: [get_proxies] on
    [u1;...;un] is the concatenation, in list order, of what
    [get_proxies] returns on each [ui] alone, and it raises the first
    error one of them raises. *)
Theorem get_proxies_concat us :
  us <> [] -> Forall (fun u => 59 ∉ u) us ->
  get_proxies (py_join [59] us) =
  res_fold (fun acc u => f <- get_proxies u ;; Ok (feed_app acc f)) empty_feed us.
Proof.
  intros Hne Hus. unfold get_proxies at 1. change (lit ";") with [59].
  rewrite py_split_join_single by done. apply res_fold_ext. intros acc u Hu.
  rewrite get_proxies_single by (rewrite Forall_forall in Hus; first [by apply Hus | by apply Hus, list_elem_of_In]).
  apply url_step_acc.
Qed.

(** C40: a Clash YAML subscription is converted completely: when the
    body is not base64 and parses to a document whose [proxies] is a
    non-empty list of dicts with string names, [get_proxies] succeeds
    and returns every node, normalised by [yaml_node], in order, with
    the list of their names. *)
Theorem get_proxies_yaml url resp e doc nodes :
  59 ∉ url -> fetch url = Ok resp -> Base64.b64decode resp = Raise e ->
  yaml_load resp = Ok (VDict doc) -> get_or_none doc (lit "proxies") = VList nodes ->
  nodes <> [] -> Forall yaml_node_ok nodes ->
  exists nodes', Forall2 (fun n n' => yaml_node n = Ok n') nodes nodes' /\
    get_proxies url = Ok (mk_feed nodes' (map record_name nodes')).
Proof.
  intros Hu Hf Hb Hy Hp Hne Hn.
  destruct (res_list_map_Ok yaml_node nodes) as (ns & Hns & H2).
  { intros x Hx. rewrite Forall_forall in Hn.
    destruct (yaml_node_total x) as [d' ->]; [first [by apply Hn | by apply Hn, list_elem_of_In]|eauto]. }
  exists ns. split; [done|]. rewrite get_proxies_single by done.
  unfold url_step. rewrite Hf. cbv beta iota. rewrite Hb. unfold yaml_branch. rewrite Hy.
  cbn [py_get]. rewrite Hp. replace (truthy (VList nodes)) with true by (destruct nodes; done).
  cbn [py_iter]. cbv beta iota. rewrite Hns. cbv beta iota.
  rewrite (res_list_map_pure _ record_name).
  - by rewrite feed_app_empty_l.
  - intros x Hx. eapply (Forall2_Forall_right _ (fun r => exists d, r = VDict d)) in H2;
      [|intros ? ? ?; by eapply yaml_node_dict].
    rewrite Forall_forall in H2.
    destruct (H2 x) as [d ->]; [first [done | by apply list_elem_of_In]|done].
Qed.

End GetProxies.

(** ** Witnesses *)

Definition no_json (s : pystr) : res pyval := Raise JSONDecodeError.

(** An ss link and the feed it normalises to. *)
Definition sample_ss_line : pybytes :=
  lit "ss://YWVzLTI1Ni1nY206cHc@1.2.3.4:8388#n1".

Definition sample_ss_feed : feed :=
  match node_step no_json None sample_ss_line with Ok (Some f) => f | _ => empty_feed end.

Lemma lines_loop_refines_witness :
  forallb recognised [sample_ss_line; sample_ss_line] = true /\
  lines_loop no_json empty_feed None [sample_ss_line; sample_ss_line] =
  lines_spec no_json empty_feed [sample_ss_line; sample_ss_line].
Proof.
  assert (H : forallb recognised [sample_ss_line; sample_ss_line] = true) by reflexivity.
  split; [exact H|]. apply lines_loop_refines. exact H.
Defined.

Lemma lines_loop_stale_witness :
  node_step no_json None sample_ss_line = Ok (Some sample_ss_feed) /\
  lines_loop no_json empty_feed None [sample_ss_line; lit "junk"] =
  Ok (fold_left feed_app (repeat sample_ss_feed 2) empty_feed).
Proof.
  assert (H : node_step no_json None sample_ss_line = Ok (Some sample_ss_feed))
    by (vm_compute; reflexivity).
  split; [exact H|]. apply (lines_loop_stale no_json empty_feed _ _ [lit "junk"] H).
  reflexivity.
Defined.

(** A Clash YAML subscription that [b64decode] accepts: its alphabet
    characters are a multiple of four. *)
Definition yaml_text : pystr := lit "proxies:" ++ [10] ++ lit "- name: a" ++ [10].

Lemma get_proxies_first_line_type_error_witness :
  get_proxies (fun _ => Ok yaml_text) (fun _ => Raise YAMLError) no_json (lit "u") =
  Raise TypeError.
Proof.
  apply (get_proxies_first_line_type_error (fun _ => Ok yaml_text) (fun _ => Raise YAMLError)
           no_json (lit "u") yaml_text [166; 186; 49; 137; 235; 39; 106; 103; 154]
           [166; 186; 49; 137; 235; 39; 106; 103; 154] []);
    (decide_closed || reflexivity || (vm_compute; reflexivity)).
Defined.

Lemma yaml_node_normalises_witness :
  yaml_node (VDict [(k_name, VStr (lit " a ")); (k_protocolparam, VStr (lit "x"))]) =
    Ok (VDict [(k_name, VStr (lit "a")); (k_protocol_param, VStr (lit "x"));
               (k_udp, VBool true)]) /\
  exists d, VDict [(k_name, VStr (lit "a")); (k_protocol_param, VStr (lit "x"));
                   (k_udp, VBool true)] = VDict d /\
    dget d k_udp = Some (VBool true) /\
    (get_or_none d k_name = VNone \/ exists s, get_or_none d k_name = VStr s /\ strip s = s) /\
    truthy (get_or_none d k_protocolparam) = false /\ truthy (get_or_none d k_obfsparam) = false.
Proof.
  assert (H : yaml_node (VDict [(k_name, VStr (lit " a ")); (k_protocolparam, VStr (lit "x"))]) =
    Ok (VDict [(k_name, VStr (lit "a")); (k_protocol_param, VStr (lit "x"));
               (k_udp, VBool true)])) by (vm_compute; reflexivity).
  split; [exact H|]. exact (yaml_node_normalises _ _ H).
Defined.

(** A Clash node with a [protocolparam] to move and an [obfs-param] of
    its own. *)
Definition sample_clash_node : dict :=
  [(k_name, VStr (lit " a ")); (k_protocolparam, VStr (lit "x"));
   (k_obfs_param, VStr (lit "keep"))].

Lemma yaml_node_moves_params_witness :
  (truthy (get_or_none sample_clash_node k_name) = true ->
   exists s, get_or_none sample_clash_node k_name = VStr s) /\
  exists d', yaml_node (VDict sample_clash_node) = Ok (VDict d') /\
    get_or_none d' k_protocol_param =
      (if truthy (get_or_none sample_clash_node k_protocolparam)
       then get_or_none sample_clash_node k_protocolparam
       else get_or_none sample_clash_node k_protocol_param) /\
    get_or_none d' k_obfs_param =
      (if truthy (get_or_none sample_clash_node k_obfsparam)
       then get_or_none sample_clash_node k_obfsparam
       else get_or_none sample_clash_node k_obfs_param).
Proof.
  assert (H : truthy (get_or_none sample_clash_node k_name) = true ->
              exists s, get_or_none sample_clash_node k_name = VStr s)
    by (intros _; eexists; reflexivity).
  split; [exact H|]. exact (yaml_node_moves_params _ H).
Defined.

Definition w_b64_fetch (u : pystr) : res pystr := Ok (Base64.b64encode sample_ss_line).

Lemma get_proxies_aligned_witness :
  get_proxies w_b64_fetch (fun _ => Raise YAMLError) no_json (lit "u") = Ok sample_ss_feed /\
  Forall (fun r => exists d, r = VDict d) (proxy_list sample_ss_feed) /\
  proxy_names sample_ss_feed = map record_name (proxy_list sample_ss_feed).
Proof.
  assert (H : get_proxies w_b64_fetch (fun _ => Raise YAMLError) no_json (lit "u") = Ok sample_ss_feed)
    by (vm_compute; reflexivity).
  split; [exact H|]. exact (get_proxies_aligned _ _ _ _ _ H).
Defined.

(** A subscription of two ss links. *)
Definition w_entries : list ss_entry :=
  [mk_ss_entry (lit "aes-256-gcm") (lit "p:w") (lit "1.2.3.4") (lit "8388") (lit " n1 ");
   mk_ss_entry (lit "chacha20") (lit "x") (lit "h.example") (lit "443") (lit "n2")].

Definition w_ss_fetch (u : pystr) : res pystr :=
  Ok (Base64.b64encode (py_join [10] (map ss_entry_link w_entries))).

Lemma get_proxies_ss_subscription_witness :
  get_proxies w_ss_fetch (fun _ => Raise YAMLError) no_json (lit "u") =
  Ok (mk_feed (map ss_entry_record w_entries) (map ss_entry_name w_entries)).
Proof.
  apply get_proxies_ss_subscription; [decide_closed| |reflexivity].
  repeat constructor; unfold ss_entry_ok; decide_closed.
Defined.

Lemma get_proxies_concat_witness :
  get_proxies w_b64_fetch (fun _ => Raise YAMLError) no_json (py_join [59] [lit "u"; lit "v"]) =
  res_fold (fun acc u => f <- get_proxies w_b64_fetch (fun _ => Raise YAMLError) no_json u ;;
                         Ok (feed_app acc f))
    empty_feed [lit "u"; lit "v"].
Proof. apply get_proxies_concat; [discriminate|decide_closed]. Defined.

(** A YAML document with two nodes. *)
Definition w_yaml_doc : dict :=
  [(lit "proxies", VList [VDict [(k_name, VStr (lit " a ")); (k_protocolparam, VStr (lit "x"))];
                          VDict [(k_obfsparam, VStr (lit "y"))]])].

Lemma get_proxies_yaml_witness :
  exists nodes', Forall2 (fun n n' => yaml_node n = Ok n')
      [VDict [(k_name, VStr (lit " a ")); (k_protocolparam, VStr (lit "x"))];
       VDict [(k_obfsparam, VStr (lit "y"))]] nodes' /\
    get_proxies (fun _ => Ok (lit "not base64!")) (fun _ => Ok (VDict w_yaml_doc)) no_json (lit "u") =
    Ok (mk_feed nodes' (map record_name nodes')).
Proof.
  apply (get_proxies_yaml _ _ _ _ (lit "not base64!") BinasciiError w_yaml_doc);
    try (vm_compute; reflexivity); [decide_closed|discriminate|].
  constructor; [eexists; split; [reflexivity|]; intros _; eexists; reflexivity|].
  constructor; [|constructor]. eexists; split; [reflexivity|]. intros H; vm_compute in H; discriminate.
Defined.

End Aggregator.
