(* ===== verification/Merger.v ===== *)
(** * Config merger: [add_proxies_to_model] (src/freefq.py, lines 367-383)

    The accumulated feed is merged into the template: its records are
    appended to the template's [proxies] list (which is created when
    absent or None) and its names to the [proxies] member list of every
    entry of [proxy-groups] ("broadcast": every group receives every
    name).  The template and the feed are trees of values here.  Python
    shares objects where this model copies values: the call stores the
    feed's own lists in the template (lines 375 and 380), so groups
    without a member list end up sharing one list.  [MergerHeap] models
    the objects and proves that for one call, the only call the program
    makes, the template reads afterwards exactly as the value computed
    here (C13); a second call on the same template would not agree with
    this model.  YAML anchors in the template are not represented.

    [merge_spec] is the abstract contract: on a well-formed template
    ([wf_model]) the merge is the pure update it describes
    ([add_proxies_spec]).  The theorems derived from it: the records
    are appended in order, every group receives every name, other keys
    are untouched, and well-formedness is preserved.  A template without
    [proxy-groups] makes the code raise TypeError. *)

From S2P Require Import Prelude PyStr PyVal.
Open Scope Z_scope.

Module Merger.

Definition k_proxies : pystr := lit "proxies".
Definition k_groups : pystr := lit "proxy-groups".

(** One iteration of [for group in model.get('proxy-groups')]. *)
Definition merge_group (names : list pyval) (group : pyval) : res pyval :=
  p <- py_get group k_proxies ;;
  if is_none p then py_setitem group k_proxies (VList names)
  else p' <- py_extend p names ;; py_setitem group k_proxies p'.

Definition add_proxies_to_model (data : feed) (model : pyval) : res pyval :=
  p <- py_get model k_proxies ;;
  model1 <- (if is_none p
             then py_setitem model k_proxies (VList (proxy_list data))
             else p' <- py_extend p (proxy_list data) ;;
                  py_setitem model k_proxies p') ;;
  groups <- py_get model1 k_groups ;;
  gs <- py_iter groups ;;
  gs' <- res_list_map (merge_group (proxy_names data)) gs ;;
  (* the groups are updated in place inside the list object *)
  match groups with
  | VList _ => py_setitem model1 k_groups (VList gs')
  | _ => Ok model1
  end.

(** ** The contract *)

Definition members (v : pyval) : list pyval :=
  match v with VList l => l | _ => [] end.

Definition field (m : pyval) (k : pystr) : pyval :=
  match m with VDict d => get_or_none d k | _ => VNone end.

Definition list_or_none (v : pyval) : bool :=
  match v with VNone | VList _ => true | _ => false end.

Definition wf_group (g : pyval) : bool :=
  match g with VDict _ => list_or_none (field g k_proxies) | _ => false end.

(** A template the merge accepts: a dict whose [proxies] is a list or
    absent, and whose [proxy-groups] is a list of dicts, each with a
    [proxies] list or none. *)
Definition wf_model (m : pyval) : bool :=
  match m with
  | VDict _ =>
      list_or_none (field m k_proxies) &&
      match field m k_groups with
      | VList gs => forallb wf_group gs
      | _ => false
      end
  | _ => false
  end.

Definition merge_group_spec (names : list pyval) (g : pyval) : pyval :=
  match g with
  | VDict gd => VDict (dset gd k_proxies (VList (members (field g k_proxies) ++ names)))
  | _ => g
  end.

Definition merge_spec (data : feed) (m : pyval) : pyval :=
  match m with
  | VDict d =>
      let d1 := dset d k_proxies (VList (members (field m k_proxies) ++ proxy_list data)) in
      VDict (dset d1 k_groups
        (VList (map (merge_group_spec (proxy_names data)) (members (field m k_groups)))))
  | _ => m
  end.

Lemma k_proxies_groups : k_proxies <> k_groups.
Proof. by vm_compute. Qed.

Lemma merge_group_ok names g :
  wf_group g = true -> merge_group names g = Ok (merge_group_spec names g).
Proof.
  destruct g as [| | | | |gd]; try done. simpl.
  unfold merge_group, py_get, field.
  destruct (get_or_none gd k_proxies) as [| | | |l|]; simpl; try done.
Qed.

Lemma merge_groups_ok names gs :
  forallb wf_group gs = true ->
  res_list_map (merge_group names) gs = Ok (map (merge_group_spec names) gs).
Proof.
  intros H. apply res_list_map_pure. intros g Hg. apply merge_group_ok.
  rewrite forallb_forall in H. apply H. by apply list_elem_of_In.
Qed.

(** ** Refinement: the code implements the contract *)

(** On a well-formed template, [add_proxies_to_model] raises nothing
    and returns exactly the update described by [merge_spec]. *)
Lemma add_proxies_spec data m :
  wf_model m = true -> add_proxies_to_model data m = Ok (merge_spec data m).
Proof.
  destruct m as [| | | | |d]; try done. simpl. unfold field.
  intros [Hp Hg]%andb_prop. unfold add_proxies_to_model, py_get.
  destruct (get_or_none d k_groups) as [| | | |gs|] eqn:Eg; try done.
  destruct (get_or_none d k_proxies) as [| | | |l|] eqn:Ep; try done;
    simpl; rewrite get_or_none_dset_ne, Eg by apply k_proxies_groups;
    simpl; by rewrite merge_groups_ok.
Qed.

(** ** Lookups in the merged document *)

Lemma field_merge_proxies data d :
  field (merge_spec data (VDict d)) k_proxies =
  VList (members (field (VDict d) k_proxies) ++ proxy_list data).
Proof.
  simpl. rewrite get_or_none_dset_ne by (apply not_eq_sym, k_proxies_groups).
  apply get_or_none_dset_eq.
Qed.

Lemma field_merge_groups data d :
  field (merge_spec data (VDict d)) k_groups =
  VList (map (merge_group_spec (proxy_names data)) (members (field (VDict d) k_groups))).
Proof. apply get_or_none_dset_eq. Qed.

Lemma field_merge_other data d k :
  k <> k_proxies -> k <> k_groups ->
  field (merge_spec data (VDict d)) k = field (VDict d) k.
Proof.
  intros H1 H2. simpl. by rewrite !get_or_none_dset_ne by congruence.
Qed.

Lemma field_merge_group names gd :
  field (merge_group_spec names (VDict gd)) k_proxies =
  VList (members (field (VDict gd) k_proxies) ++ names).
Proof. apply get_or_none_dset_eq. Qed.

Lemma merge_group_spec_wf names g :
  wf_group g = true -> wf_group (merge_group_spec names g) = true.
Proof. destruct g as [| | | | |gd]; try done. simpl. by rewrite get_or_none_dset_eq. Qed.

Lemma merge_spec_wf data m :
  wf_model m = true -> wf_model (merge_spec data m) = true.
Proof.
  destruct m as [| | | | |d]; try done. intros Hwf.
  unfold wf_model. rewrite field_merge_proxies, field_merge_groups. simpl.
  apply forallb_forall. intros g' Hg'. apply in_map_iff in Hg' as (g & <- & Hg).
  apply merge_group_spec_wf. simpl in Hwf. apply andb_prop in Hwf as [_ Hwf].
  destruct (get_or_none d k_groups); try done. simpl.
  rewrite forallb_forall in Hwf. by apply Hwf.
Qed.

(** ** Properties of the merge *)

(** C3: the feed's records are appended, in order, after the template's
    existing proxies (a missing or None [proxies] counts as empty). *)
Theorem add_proxies_appends data m :
  wf_model m = true ->
  exists m', add_proxies_to_model data m = Ok m' /\
    field m' k_proxies = VList (members (field m k_proxies) ++ proxy_list data).
Proof.
  intros Hwf. exists (merge_spec data m). split; [by apply add_proxies_spec|].
  destruct m; try done. apply field_merge_proxies.
Qed.

(** C2: broadcast: every group of [proxy-groups], in order, receives all
    the feed's names after its existing members. *)
Theorem add_proxies_broadcast data m :
  wf_model m = true ->
  exists m', add_proxies_to_model data m = Ok m' /\
    Forall2 (fun g g' => field g' k_proxies =
                         VList (members (field g k_proxies) ++ proxy_names data))
      (members (field m k_groups)) (members (field m' k_groups)).
Proof.
  intros Hwf. exists (merge_spec data m). split; [by apply add_proxies_spec|].
  destruct m as [| | | | |d]; try done. rewrite field_merge_groups. simpl.
  simpl in Hwf. apply andb_prop in Hwf as [_ Hwf].
  destruct (get_or_none d k_groups) as [| | | |gs|]; try done. simpl.
  apply Forall2_fmap_r, Forall_Forall2_diag, Forall_forall.
  intros g Hg. rewrite forallb_forall in Hwf.
  assert (Hgw : wf_group g = true) by (by apply Hwf).
  destruct g as [| | | | |gd]; try done.
  exact (field_merge_group _ _).
Qed.

(** C12: keys other than [proxies] and [proxy-groups] pass through. *)
Theorem add_proxies_other_keys data m k :
  wf_model m = true -> k <> k_proxies -> k <> k_groups ->
  exists m', add_proxies_to_model data m = Ok m' /\ field m' k = field m k.
Proof.
  intros Hwf H1 H2. exists (merge_spec data m).
  split; [by apply add_proxies_spec|].
  destruct m; try done. by apply field_merge_other.
Qed.

(** C11: well-formedness of the template is an invariant of the merge. *)
Theorem add_proxies_wf data m :
  wf_model m = true ->
  exists m', add_proxies_to_model data m = Ok m' /\ wf_model m' = true.
Proof.
  intros Hwf. exists (merge_spec data m).
  split; [by apply add_proxies_spec|by apply merge_spec_wf].
Qed.

(** C25: a template whose [proxy-groups] is absent makes the code raise
    TypeError ([for group in None]) after the proxies were set. *)
Theorem add_proxies_no_groups data d :
  list_or_none (get_or_none d k_proxies) = true ->
  get_or_none d k_groups = VNone ->
  add_proxies_to_model data (VDict d) = Raise TypeError.
Proof.
  intros Hp Hg. unfold add_proxies_to_model, py_get.
  destruct (get_or_none d k_proxies); try done; simpl;
    by rewrite get_or_none_dset_ne, Hg by apply k_proxies_groups.
Qed.

(** ** Witnesses on a template with two groups (the spec's scenario) *)

Definition sample_template : pyval :=
  VDict [(k_proxies, VNone);
         (k_groups, VList [VDict [(lit "name", VStr (lit "Proxy"));
                                  (k_proxies, VList [VStr (lit "DIRECT")])];
                           VDict [(lit "name", VStr (lit "Auto"))]]);
         (lit "rules", VList [VStr (lit "MATCH,Proxy")])].

Definition sample_feed : feed :=
  mk_feed [VDict [(lit "name", VStr (lit "node-1"))]] [VStr (lit "node-1")].

Lemma add_proxies_appends_witness :
  exists m', add_proxies_to_model sample_feed sample_template = Ok m' /\
    field m' k_proxies = VList [VDict [(lit "name", VStr (lit "node-1"))]].
Proof. apply (add_proxies_appends sample_feed sample_template). vm_compute. reflexivity. Defined.

Lemma add_proxies_broadcast_witness :
  exists m', add_proxies_to_model sample_feed sample_template = Ok m' /\
    Forall2 (fun g g' => field g' k_proxies =
                         VList (members (field g k_proxies) ++ [VStr (lit "node-1")]))
      (members (field sample_template k_groups)) (members (field m' k_groups)).
Proof. apply (add_proxies_broadcast sample_feed sample_template). vm_compute. reflexivity. Defined.

Lemma add_proxies_other_keys_witness :
  exists m', add_proxies_to_model sample_feed sample_template = Ok m' /\
    field m' (lit "rules") = field sample_template (lit "rules").
Proof.
  apply add_proxies_other_keys; [vm_compute; reflexivity|by vm_compute|by vm_compute].
Defined.

Lemma add_proxies_wf_witness :
  exists m', add_proxies_to_model sample_feed sample_template = Ok m' /\
    wf_model m' = true.
Proof. apply add_proxies_wf. vm_compute. reflexivity. Defined.

Lemma add_proxies_no_groups_witness :
  add_proxies_to_model sample_feed (VDict [(lit "rules", VList [])]) = Raise TypeError.
Proof. apply add_proxies_no_groups; vm_compute; reflexivity. Defined.

(** The scenario of the spec, computed: both groups end with "node-1". *)
Example sample_merge :
  (m' <- add_proxies_to_model sample_feed sample_template ;;
   Ok (map (fun g => field g k_proxies) (members (field m' k_groups)))) =
  Ok [VList [VStr (lit "DIRECT"); VStr (lit "node-1")];
      VList [VStr (lit "node-1")]].
Proof. vm_compute. reflexivity. Qed.

End Merger.
