(* ===== verification/MergerHeap.v ===== *)
(** * The merge on Python objects: [add_proxies_to_model] with references
      (src/freefq.py, lines 161-164 and 367-383)

    [Merger] treats the template as a tree of values.  Python does not:
    a list or a dict is an object, a variable or a container holds a
    reference to it, and [model['proxies'] = data.get('proxy_list')]
    (line 375) and [group['proxies'] = data.get('proxy_names')] (line
    380) store references to the feed's own lists in the template.
    Every group that had no member list ends up holding the one list
    [data['proxy_names']], and a later [extend] through any of them
    changes them all.

    This file models the objects: a [store] is a list of objects
    (lists and dicts), a location is an index into it, and a value
    [hval] is a scalar or a reference [HRef].  The code's operations on
    objects ([h_get], [h_setitem], [h_iter], [h_extend]) act on the
    store, in the state-and-error monad [hst], and
    [add_proxies_to_model_h] is lines 367-383 over them.  [halloc]
    builds the objects of a tree, each list and dict a new object, as
    [yaml.load] and the literal of lines 161-164 do; [hread] reads an
    object graph back as a tree of values.

    The theorems: on a template built by [halloc] after the feed, one
    call of the merge returns the template object, which then reads as
    the result of [Merger.add_proxies_to_model] (C13): the value model
    is exact for the single call the program makes.  The call leaves
    every group that had no member list holding the feed's list
    [proxy_names] itself, so the groups share one object (C36); a
    second merge then appends its names once per such group
    ([merge_twice_shared] computes it).

    The proofs describe a tree in the store by [repr]: the objects of a
    tree occupy a range of locations, each reached once, and values
    taken from the feed are [shared] references outside the range.  A
    store change outside a tree's range does not change it
    ([repr_frame]); [repr_dseq_focus] and [repr_dseq_focus2] isolate the
    entries [proxies] and [proxy-groups] of a dict in disjoint ranges
    and rebuild it around their new values. *)

From stdpp Require Import list.
From S2P Require Import Prelude PyStr PyVal Merger.
Open Scope Z_scope.

Module MergerHeap.

Import Merger.

(** ** Objects and references *)

Abbreviation loc := nat (only parsing).

Inductive hval :=
| HNone
| HBool (b : bool)
| HInt (z : Z)
| HStr (s : pystr)
| HRef (l : loc).

Inductive obj :=
| OList (xs : list hval)
| ODict (d : list (pystr * hval)).

Abbreviation store := (list obj) (only parsing).

(** A dict's entries, in insertion order, with any kind of value. *)
Fixpoint aget {V} (d : list (pystr * V)) (k : pystr) : option V :=
  match d with
  | [] => None
  | (k', v) :: r => if bool_decide (k = k') then Some v else aget r k
  end.

Fixpoint aset {V} (d : list (pystr * V)) (k : pystr) (v : V) : list (pystr * V) :=
  match d with
  | [] => [(k, v)]
  | (k', v') :: r => if bool_decide (k = k') then (k, v) :: r else (k', v') :: aset r k v
  end.

Definition is_hnone (v : hval) : bool :=
  match v with HNone => true | _ => false end.

(** ** The state-and-error monad on the store *)

Definition hst (A : Type) : Type := store -> res A * store.

#[export] Instance hst_ret : MRet hst := fun A x st => (Ok x, st).
#[export] Instance hst_bind : MBind hst := fun A B f m st =>
  match m st with
  | (Ok x, st') => f x st'
  | (Raise e, st') => (Raise e, st')
  end.

Fixpoint h_for {A} (xs : list A) (f : A -> hst unit) : hst unit :=
  match xs with
  | [] => mret tt
  | x :: r => _ ← f x; h_for r f
  end.

(** ** The operations the merge performs on objects *)

(** [v.get(k)] *)
Definition h_get (v : hval) (k : pystr) : hst hval := fun st =>
  match v with
  | HRef l =>
      match st !! l with
      | Some (ODict d) => (Ok (default HNone (aget d k)), st)
      | _ => (Raise AttributeError, st)
      end
  | _ => (Raise AttributeError, st)
  end.

(** [v[k] = x] *)
Definition h_setitem (v : hval) (k : pystr) (x : hval) : hst unit := fun st =>
  match v with
  | HRef l =>
      match st !! l with
      | Some (ODict d) => (Ok tt, <[l := ODict (aset d k x)]> st)
      | _ => (Raise TypeError, st)
      end
  | _ => (Raise TypeError, st)
  end.

(** The elements a [for x in v] loop visits. *)
Definition h_iter (v : hval) : hst (list hval) := fun st =>
  match v with
  | HRef l =>
      match st !! l with
      | Some (OList xs) => (Ok xs, st)
      | Some (ODict d) => (Ok (map (fun kv => HStr kv.1) d), st)
      | None => (Raise TypeError, st)
      end
  | HStr s => (Ok (map (fun c => HStr [c]) s), st)
  | _ => (Raise TypeError, st)
  end.

(** [v.extend]: the method exists on lists only; Python looks it up
    before it evaluates the argument. *)
Definition h_extend_method (v : hval) : hst loc := fun st =>
  match v with
  | HRef l =>
      match st !! l with
      | Some (OList _) => (Ok l, st)
      | _ => (Raise AttributeError, st)
      end
  | _ => (Raise AttributeError, st)
  end.

(** The call of [extend] on the list at [l]: the argument's elements
    are taken first, then appended (so [xs.extend(xs)] doubles [xs], as
    in CPython). *)
Definition h_extend (l : loc) (arg : hval) : hst unit :=
  ys ← h_iter arg;
  (fun st => match st !! l with
             | Some (OList xs) => (Ok tt, <[l := OList (xs ++ ys)]> st)
             | _ => (Raise AttributeError, st)
             end) : hst unit.

(** ** The code *)

Definition k_proxy_list : pystr := lit "proxy_list".
Definition k_proxy_names : pystr := lit "proxy_names".

(** The value [get_proxies] returns: the dict literal of lines 161-164
    after the loop extended its two lists. *)
Definition feed_value (f : feed) : pyval :=
  VDict [(k_proxy_list, VList (proxy_list f)); (k_proxy_names, VList (proxy_names f))].

(** One iteration of [for group in model.get('proxy-groups')] (lines
    379-382). *)
Definition merge_group_h (data group : hval) : hst unit :=
  p ← h_get group k_proxies;
  if is_hnone p then
    n ← h_get data k_proxy_names; h_setitem group k_proxies n
  else
    l ← h_extend_method p; n ← h_get data k_proxy_names; h_extend l n.

(** Lines 367-383.  The loop visits the elements the group list holds
    when it starts; the body changes no group list, unless a group's
    member list is the group list itself, which no template built by
    [yaml.load] without anchors has. *)
Definition add_proxies_to_model_h (data model : hval) : hst hval :=
  p ← h_get model k_proxies;
  _ ← (if is_hnone p then
         pl ← h_get data k_proxy_list; h_setitem model k_proxies pl
       else
         l ← h_extend_method p; pl ← h_get data k_proxy_list; h_extend l pl);
  groups ← h_get model k_groups;
  gs ← h_iter groups;
  _ ← h_for gs (merge_group_h data);
  mret model.

(** ** Objects and trees *)

(** Reading an object graph back as a tree of values, [n] references
    deep at most. *)
Fixpoint hread (n : nat) (st : store) (v : hval) : option pyval :=
  match v with
  | HNone => Some VNone
  | HBool b => Some (VBool b)
  | HInt z => Some (VInt z)
  | HStr s => Some (VStr s)
  | HRef l =>
      match n with
      | O => None
      | S n' =>
          match st !! l with
          | Some (OList xs) => VList <$> mapM (hread n' st) xs
          | Some (ODict d) =>
              VDict <$> mapM (fun kv : pystr * hval => pair kv.1 <$> hread n' st kv.2) d
          | None => None
          end
      end
  end.

(** Allocating the elements of a list and the values of a dict, in
    order, with the allocator [f] of one value. *)
Fixpoint alloc_list (f : pyval -> store -> hval * store) (ts : list pyval) (st : store)
    : list hval * store :=
  match ts with
  | [] => ([], st)
  | t :: r => let '(h, st1) := f t st in let '(hs, st2) := alloc_list f r st1 in (h :: hs, st2)
  end.

Fixpoint alloc_dict (f : pyval -> store -> hval * store) (d : list (pystr * pyval)) (st : store)
    : list (pystr * hval) * store :=
  match d with
  | [] => ([], st)
  | (k, t) :: r =>
      let '(h, st1) := f t st in let '(hd, st2) := alloc_dict f r st1 in ((k, h) :: hd, st2)
  end.

(** The objects of a tree, each list and dict a new object at the end
    of the store, its elements allocated before it. *)
Fixpoint halloc (t : pyval) (st : store) : hval * store :=
  match t with
  | VNone => (HNone, st)
  | VBool b => (HBool b, st)
  | VInt z => (HInt z, st)
  | VStr s => (HStr s, st)
  | VList ts => let '(hs, st') := alloc_list halloc ts st in (HRef (length st'), st' ++ [OList hs])
  | VDict d => let '(hd, st') := alloc_dict halloc d st in (HRef (length st'), st' ++ [ODict hd])
  end.

(** ** Reading back *)

Lemma hread_mono n m st v t :
  hread n st v = Some t -> (n <= m)%nat -> hread m st v = Some t.
Proof.
  revert m v t. induction n as [|n IH]; intros m v t Hr Hle.
  { destruct v, m; cbn in *; congruence. }
  destruct m as [|m]; [lia|]. destruct v as [| | | |l]; try exact Hr. cbn [hread] in *.
  destruct (st !! l) as [[xs|d]|]; [| |done].
  - destruct (mapM (hread n st) xs) as [ts|] eqn:Ex; [|done].
    apply mapM_Some_1 in Ex. rewrite (mapM_Some_2 (hread m st) xs ts); [done|].
    eapply Forall2_impl; [|exact Ex]. intros x y Hx. apply IH; [done|lia].
  - destruct (mapM _ d) as [td|] eqn:Ed; [|done].
    apply mapM_Some_1 in Ed.
    rewrite (mapM_Some_2 (fun kv : pystr * hval => pair kv.1 <$> hread m st kv.2) d td); [done|].
    eapply Forall2_impl; [|exact Ed]. intros [k x] y Hx. cbn in *.
    destruct (hread n st x) as [u|] eqn:Eu; [|done]. by rewrite (IH m x u) by (done || lia).
Qed.

Lemma mapM_hread_mono n m st hs ts :
  mapM (hread n st) hs = Some ts -> (n <= m)%nat -> mapM (hread m st) hs = Some ts.
Proof.
  intros H Hle. apply mapM_Some_1 in H. apply mapM_Some_2.
  eapply Forall2_impl; [|exact H]. intros x y Hx. by apply (hread_mono n).
Qed.

Lemma mapM_hread_dict_mono n m st hd td :
  mapM (fun kv : pystr * hval => pair kv.1 <$> hread n st kv.2) hd = Some td -> (n <= m)%nat ->
  mapM (fun kv : pystr * hval => pair kv.1 <$> hread m st kv.2) hd = Some td.
Proof.
  intros H Hle. apply mapM_Some_1 in H. apply mapM_Some_2.
  eapply Forall2_impl; [|exact H]. intros [k x] y Hx. cbn in *.
  destruct (hread n st x) as [u|] eqn:Eu; [|done]. by rewrite (hread_mono n m st x u).
Qed.

(** A tree of values, with its lists and dicts as [VList]/[VDict]. *)
Lemma pyval_ind' (P : pyval -> Prop) :
  P VNone -> (forall b, P (VBool b)) -> (forall z, P (VInt z)) -> (forall s, P (VStr s)) ->
  (forall ts, Forall P ts -> P (VList ts)) ->
  (forall d, Forall (fun kv => P kv.2) d -> P (VDict d)) ->
  forall t, P t.
Proof.
  intros Hn Hb Hz Hs Hl Hd. fix IH 1. intros [| | | |ts|d].
  - exact Hn.
  - apply Hb.
  - apply Hz.
  - apply Hs.
  - apply Hl. revert ts. fix IHl 1. intros [|t ts]; constructor; [apply IH|apply IHl].
  - apply Hd. revert d. fix IHd 1. intros [|[k t] d]; constructor; [apply IH|apply IHd].
Qed.

(** ** Object graphs that represent trees

    [repr st a b h t]: in the store [st], the value [h] reads as the
    tree [t], the objects of [t] are the locations [a] to [b - 1], each
    reached once, the root last; a scalar owns no location.  A value
    satisfying [E] is a reference into objects outside the tree
    ("shared"): it owns no location of the range either. *)
Section Repr.
Context (E : hval -> pyval -> Prop).

Inductive repr (st : store) : nat -> nat -> hval -> pyval -> Prop :=
| repr_none a : repr st a a HNone VNone
| repr_bool a b : repr st a a (HBool b) (VBool b)
| repr_int a z : repr st a a (HInt z) (VInt z)
| repr_str a s : repr st a a (HStr s) (VStr s)
| repr_shared a h t : E h t -> repr st a a h t
| repr_list a l hs ts :
    st !! l = Some (OList hs) -> repr_seq st a hs ts l -> repr st a (S l) (HRef l) (VList ts)
| repr_dict a l hd td :
    st !! l = Some (ODict hd) -> repr_dseq st a hd td l -> repr st a (S l) (HRef l) (VDict td)
with repr_seq (st : store) : nat -> list hval -> list pyval -> nat -> Prop :=
| rs_nil a : repr_seq st a [] [] a
| rs_cons a b c h t hs ts :
    repr st a b h t -> repr_seq st b hs ts c -> repr_seq st a (h :: hs) (t :: ts) c
with repr_dseq (st : store) : nat -> list (pystr * hval) -> list (pystr * pyval) -> nat -> Prop :=
| rd_nil a : repr_dseq st a [] [] a
| rd_cons a b c k h t hd td :
    repr st a b h t -> repr_dseq st b hd td c -> repr_dseq st a ((k, h) :: hd) ((k, t) :: td) c.

Scheme repr_mut := Induction for repr Sort Prop
  with repr_seq_mut := Induction for repr_seq Sort Prop
  with repr_dseq_mut := Induction for repr_dseq Sort Prop.
Combined Scheme repr_comb from repr_mut, repr_seq_mut, repr_dseq_mut.

Lemma repr_le_all st :
  (forall a b h t, repr st a b h t -> (a <= b)%nat) /\
  (forall a hs ts b, repr_seq st a hs ts b -> (a <= b)%nat) /\
  (forall a hd td b, repr_dseq st a hd td b -> (a <= b)%nat).
Proof. apply repr_comb; intros; lia. Qed.

Definition agree_on (a b : nat) (st st' : store) : Prop :=
  forall l, (a <= l < b)%nat -> st' !! l = st !! l.

Lemma agree_on_sub a b a' b' st st' :
  agree_on a b st st' -> (a <= a')%nat -> (b' <= b)%nat -> agree_on a' b' st st'.
Proof. intros H ? ? l ?. apply H. lia. Qed.

(** Frame: what happens outside its range does not change a tree. *)
Lemma repr_frame_all st st' :
  (forall a b h t, repr st a b h t -> agree_on a b st st' -> repr st' a b h t) /\
  (forall a hs ts b, repr_seq st a hs ts b -> agree_on a b st st' -> repr_seq st' a hs ts b) /\
  (forall a hd td b, repr_dseq st a hd td b -> agree_on a b st st' -> repr_dseq st' a hd td b).
Proof.
  destruct (repr_le_all st) as (Hle & Hles & Hled).
  apply repr_comb; intros; try by constructor.
  - pose proof (Hles _ _ _ _ r). eapply repr_list; [rewrite H0; [exact e|lia]|]. apply H. eapply agree_on_sub; [done|lia|lia].
  - pose proof (Hled _ _ _ _ r). eapply repr_dict; [rewrite H0; [exact e|lia]|]. apply H. eapply agree_on_sub; [done|lia|lia].
  - pose proof (Hles _ _ _ _ r0). pose proof (Hle _ _ _ _ r).
    econstructor; [apply H|apply H0]; eapply agree_on_sub; eauto; lia.
  - pose proof (Hled _ _ _ _ r0). pose proof (Hle _ _ _ _ r).
    econstructor; [apply H|apply H0]; eapply agree_on_sub; eauto; lia.
Qed.

Lemma repr_frame st st' a b h t : repr st a b h t -> agree_on a b st st' -> repr st' a b h t.
Proof. apply repr_frame_all. Qed.

Lemma repr_seq_frame st st' a b hs ts :
  repr_seq st a hs ts b -> agree_on a b st st' -> repr_seq st' a hs ts b.
Proof. apply repr_frame_all. Qed.

Lemma repr_dseq_frame st st' a b hd td :
  repr_dseq st a hd td b -> agree_on a b st st' -> repr_dseq st' a hd td b.
Proof. apply repr_frame_all. Qed.

Lemma agree_prefix a b st st' :
  st `prefix_of` st' -> (b <= length st)%nat -> agree_on a b st st'.
Proof. intros Hp Hb l Hl. symmetry. apply prefix_lookup_lt; [lia|done]. Qed.

(** A tree reads back as itself, when the shared values do. *)
Lemma repr_reads_all st :
  (forall h t, E h t -> exists n, hread n st h = Some t) ->
  (forall a b h t, repr st a b h t -> exists n, hread n st h = Some t) /\
  (forall a hs ts b, repr_seq st a hs ts b -> exists n, mapM (hread n st) hs = Some ts) /\
  (forall a hd td b, repr_dseq st a hd td b ->
     exists n, mapM (fun kv : pystr * hval => pair kv.1 <$> hread n st kv.2) hd = Some td).
Proof.
  intros HE. apply repr_comb; intros; try (by exists O); try by apply HE.
  - destruct H as [n Hn]. exists (S n). cbn [hread]. by rewrite e, Hn.
  - destruct H as [n Hn]. exists (S n). cbn [hread]. by rewrite e, Hn.
  - destruct H as [n1 H1], H0 as [n2 H2]. exists (n1 `max` n2)%nat. cbn [mapM].
    rewrite (hread_mono n1 _ _ _ _ H1), (mapM_hread_mono n2 _ _ _ _ H2) by lia. done.
  - destruct H as [n1 H1], H0 as [n2 H2]. exists (n1 `max` n2)%nat. cbn [mapM].
    rewrite (hread_mono n1 _ _ _ _ H1), (mapM_hread_dict_mono n2 _ _ _ _ H2) by lia. done.
Qed.

Lemma repr_reads st a b h t :
  (forall h t, E h t -> exists n, hread n st h = Some t) ->
  repr st a b h t -> exists n, hread n st h = Some t.
Proof. intros HE. apply (repr_reads_all st HE). Qed.

(** [halloc] builds a tree of new objects at the end of the store. *)
Definition alloc_ok (t : pyval) : Prop :=
  forall st h st', halloc t st = (h, st') ->
    st `prefix_of` st' /\ repr st' (length st) (length st') h t.

Lemma alloc_list_repr ts :
  Forall alloc_ok ts -> forall st hs st', alloc_list halloc ts st = (hs, st') ->
  st `prefix_of` st' /\ repr_seq st' (length st) hs ts (length st').
Proof.
  induction 1 as [|t ts Ht _ IH]; intros st hs st' Ha; cbn in Ha.
  { injection Ha as <- <-. split; [done|constructor]. }
  destruct (halloc t st) as [h st1] eqn:E1. destruct (alloc_list halloc ts st1) as [hs1 st2] eqn:E2.
  injection Ha as <- <-. destruct (Ht _ _ _ E1) as [Hp1 Hr1]. destruct (IH _ _ _ E2) as [Hp2 Hr2].
  split; [by transitivity st1|]. econstructor; [|exact Hr2].
  eapply repr_frame; [exact Hr1|]. by apply agree_prefix.
Qed.

Lemma alloc_dict_repr d :
  Forall (fun kv => alloc_ok kv.2) d -> forall st hd st', alloc_dict halloc d st = (hd, st') ->
  st `prefix_of` st' /\ repr_dseq st' (length st) hd d (length st').
Proof.
  induction 1 as [|[k t] d Ht _ IH]; intros st hd st' Ha; cbn in Ha.
  { injection Ha as <- <-. split; [done|constructor]. }
  destruct (halloc t st) as [h st1] eqn:E1. destruct (alloc_dict halloc d st1) as [hd1 st2] eqn:E2.
  injection Ha as <- <-. destruct (Ht _ _ _ E1) as [Hp1 Hr1]. destruct (IH _ _ _ E2) as [Hp2 Hr2].
  split; [by transitivity st1|]. econstructor; [|exact Hr2].
  eapply repr_frame; [exact Hr1|]. by apply agree_prefix.
Qed.

Lemma length_snoc {A} (l : list A) x : length (l ++ [x]) = S (length l).
Proof. rewrite length_app. simpl. lia. Qed.

Lemma halloc_repr t : alloc_ok t.
Proof.
  induction t as [| | | |ts IH|d IH] using pyval_ind'; intros st h st' Ha; cbn [halloc] in Ha;
    try (injection Ha as <- <-; split; [done|constructor]).
  - destruct (alloc_list halloc ts st) as [hs st1] eqn:E1. injection Ha as <- <-.
    destruct (alloc_list_repr ts IH _ _ _ E1) as [Hp Hr].
    split; [by apply prefix_app_r|]. rewrite length_snoc.
    eapply repr_list; [by apply list_lookup_middle|].
    eapply repr_seq_frame; [exact Hr|]. apply agree_prefix; [by apply prefix_app_r|lia].
  - destruct (alloc_dict halloc d st) as [hd st1] eqn:E1. injection Ha as <- <-.
    destruct (alloc_dict_repr d IH _ _ _ E1) as [Hp Hr].
    split; [by apply prefix_app_r|]. rewrite length_snoc.
    eapply repr_dict; [by apply list_lookup_middle|].
    eapply repr_dseq_frame; [exact Hr|]. apply agree_prefix; [by apply prefix_app_r|lia].
Qed.

End Repr.

(** ** Moving a tree to another store *)

Lemma repr_weaken_all E E' st :
  (forall x y, E x y -> E' x y) ->
  (forall a b h t, repr E st a b h t -> repr E' st a b h t) /\
  (forall a hs ts b, repr_seq E st a hs ts b -> repr_seq E' st a hs ts b) /\
  (forall a hd td b, repr_dseq E st a hd td b -> repr_dseq E' st a hd td b).
Proof. intros HE. apply repr_comb; intros; econstructor; eauto. Qed.

Lemma repr_transport E E' st st' a b h t :
  (forall x y, E x y -> E' x y) -> agree_on a b st st' ->
  repr E st a b h t -> repr E' st' a b h t.
Proof. intros HE Ha Hr. eapply repr_frame; [|exact Ha]. by apply (repr_weaken_all E E'). Qed.

Lemma repr_seq_transport E E' st st' a b hs ts :
  (forall x y, E x y -> E' x y) -> agree_on a b st st' ->
  repr_seq E st a hs ts b -> repr_seq E' st' a hs ts b.
Proof.
  intros HE Ha Hr. eapply repr_seq_frame; [|exact Ha]. by apply (repr_weaken_all E E').
Qed.

Lemma repr_dseq_transport E E' st st' a b hd td :
  (forall x y, E x y -> E' x y) -> agree_on a b st st' ->
  repr_dseq E st a hd td b -> repr_dseq E' st' a hd td b.
Proof.
  intros HE Ha Hr. eapply repr_dseq_frame; [|exact Ha]. by apply (repr_weaken_all E E').
Qed.

Lemma repr_seq_le E st a hs ts b : repr_seq E st a hs ts b -> (a <= b)%nat.
Proof. apply repr_le_all. Qed.

Lemma repr_dseq_le E st a hd td b : repr_dseq E st a hd td b -> (a <= b)%nat.
Proof. apply repr_le_all. Qed.

Lemma repr_le E st a b h t : repr E st a b h t -> (a <= b)%nat.
Proof. apply repr_le_all. Qed.

(** ** Dicts: the entry of a key *)

Lemma dget_aget (d : dict) k : dget d k = aget d k.
Proof. induction d as [|[k' v] d IH]; simpl; [done|]. by rewrite IH. Qed.

Lemma dset_aset (d : dict) k v : dset d k v = aset d k v.
Proof. induction d as [|[k' v'] d IH]; simpl; [done|]. by rewrite IH. Qed.

Lemma aset_absent {V} (d : list (pystr * V)) k v : aget d k = None -> aset d k v = d ++ [(k, v)].
Proof.
  induction d as [|[k' v'] d IH]; simpl; [done|].
  case_bool_decide; [discriminate|]. intros H'. by rewrite IH.
Qed.

Lemma aset_same {V} (d : list (pystr * V)) k v : aget d k = Some v -> aset d k v = d.
Proof.
  induction d as [|[k' v'] d IH]; simpl; [done|].
  case_bool_decide; [intros [= ->]; by subst|]. intros H'. by rewrite IH.
Qed.

Lemma aget_aset_ne {V} (d : list (pystr * V)) k k' v : k <> k' -> aget (aset d k v) k' = aget d k'.
Proof.
  intros Hne. induction d as [|[k0 v0] d IH]; simpl; [by bd_simpl|].
  destruct (decide (k = k0)) as [->|]; bd_simpl; [done|].
  case_bool_decide; [done|]. apply IH.
Qed.

Lemma repr_dseq_absent E st a hd td b k :
  repr_dseq E st a hd td b -> aget hd k = None -> aget td k = None.
Proof.
  induction 1 as [|a b c k0 h t hd td _ _ IH]; simpl; [done|].
  case_bool_decide; [discriminate|]. apply IH.
Qed.

Lemma repr_dseq_snoc E st a hd td b k h t :
  repr_dseq E st a hd td b -> repr E st b b h t ->
  repr_dseq E st a (hd ++ [(k, h)]) (td ++ [(k, t)]) b.
Proof.
  induction 1 as [a|a b c k0 h0 t0 hd td Hh _ IH]; intros Hr; simpl.
  - econstructor; [exact Hr|constructor].
  - econstructor; [exact Hh|by apply IH].
Qed.

Lemma repr_seq_app_shared E st a hs ts b ys us :
  repr_seq E st a hs ts b -> Forall2 E ys us -> repr_seq E st a (hs ++ ys) (ts ++ us) b.
Proof.
  induction 1 as [a|a b c h t hs ts Hh _ IH]; intros Hy; simpl.
  - induction Hy; [constructor|]. econstructor; [by apply repr_shared|done].
  - econstructor; [exact Hh|by apply IH].
Qed.

(** The entry of [k] in a dict, and the dict rebuilt around a new entry
    in a store that may differ on the entry's range only. *)
Lemma repr_dseq_focus E st a hd td b k h :
  repr_dseq E st a hd td b -> aget hd k = Some h ->
  exists t a' b', aget td k = Some t /\ (a <= a' <= b' /\ b' <= b)%nat /\ repr E st a' b' h t /\
    forall E' st' h' t', (forall x y, E x y -> E' x y) ->
      agree_on a a' st st' -> agree_on b' b st st' -> repr E' st' a' b' h' t' ->
      repr_dseq E' st' a (aset hd k h') (aset td k t') b.
Proof.
  induction 1 as [|a b c k0 h0 t0 hd td Hh Hr IH]; simpl; [discriminate|].
  pose proof (repr_le _ _ _ _ _ _ Hh). pose proof (repr_dseq_le _ _ _ _ _ _ Hr).
  case_bool_decide as Hk.
  - intros [= <-]. subst k0. exists t0, a, b. split_and!; [done|lia|lia|lia|done|].
    intros E' st' h' t' HE H1 H2 Hh'. econstructor; [exact Hh'|].
    by eapply repr_dseq_transport.
  - intros Hg. destruct (IH Hg) as (t & a' & b' & Ht & Hab & Hr' & Hre).
    exists t, a', b'. split_and!; [done|lia|lia|lia|done|].
    intros E' st' h' t' HE H1 H2 Hh'. econstructor.
    + eapply repr_transport; [done| |exact Hh]. eapply agree_on_sub; [exact H1|lia|lia].
    + apply Hre; [done| |done|done]. eapply agree_on_sub; [exact H1|lia|lia].
Qed.

(** The entries of two different keys occupy disjoint ranges; the dict
    is rebuilt around two new entries in a store that may differ on
    those two ranges only. *)
Lemma repr_dseq_focus2 E st a hd td b k1 k2 h1 h2 :
  k1 <> k2 -> repr_dseq E st a hd td b -> aget hd k1 = Some h1 -> aget hd k2 = Some h2 ->
  exists t1 t2 a1 b1 a2 b2, aget td k1 = Some t1 /\ aget td k2 = Some t2 /\
    (a <= a1 <= b1 /\ b1 <= b /\ a <= a2 <= b2 /\ b2 <= b /\ (b1 <= a2 \/ b2 <= a1))%nat /\
    repr E st a1 b1 h1 t1 /\ repr E st a2 b2 h2 t2 /\
    forall E' st' h1' t1' h2' t2', (forall x y, E x y -> E' x y) ->
      (forall l, (a <= l < b)%nat -> ~ (a1 <= l < b1)%nat -> ~ (a2 <= l < b2)%nat ->
         st' !! l = st !! l) ->
      repr E' st' a1 b1 h1' t1' -> repr E' st' a2 b2 h2' t2' ->
      repr_dseq E' st' a (aset (aset hd k1 h1') k2 h2') (aset (aset td k1 t1') k2 t2') b.
Proof.
  intros Hne. induction 1 as [|a b c k0 h0 t0 hd td Hh Hr IH]; simpl; [discriminate|].
  pose proof (repr_le _ _ _ _ _ _ Hh). pose proof (repr_dseq_le _ _ _ _ _ _ Hr).
  destruct (decide (k1 = k0)) as [->|H1]; [|destruct (decide (k2 = k0)) as [->|H2]].
  - bd_simpl. intros [= <-] Hg2.
    destruct (repr_dseq_focus _ _ _ _ _ _ _ _ Hr Hg2) as (t2 & a2 & b2 & Ht2 & Hab & Hr2 & Hre).
    exists t0, t2, a, b, a2, b2. split_and!; try done; try lia.
    intros E' st' h1' t1' h2' t2' HE Hag Hh1 Hh2. simpl. bd_simpl.
    econstructor; [exact Hh1|]. apply Hre; [done| | |done]; intros l Hl; apply Hag; lia.
  - bd_simpl. intros Hg1 [= <-].
    destruct (repr_dseq_focus _ _ _ _ _ _ _ _ Hr Hg1) as (t1 & a1 & b1 & Ht1 & Hab & Hr1 & Hre).
    exists t1, t0, a1, b1, a, b. split_and!; try done; try lia.
    intros E' st' h1' t1' h2' t2' HE Hag Hh1 Hh2. simpl. bd_simpl.
    econstructor; [exact Hh2|]. apply Hre; [done| | |done]; intros l Hl; apply Hag; lia.
  - bd_simpl. intros Hg1 Hg2.
    destruct (IH Hg1 Hg2) as (t1 & t2 & a1 & b1 & a2 & b2 & Ht1 & Ht2 & Hab & Hr1 & Hr2 & Hre).
    exists t1, t2, a1, b1, a2, b2. split_and!; try done; try lia.
    intros E' st' h1' t1' h2' t2' HE Hag Hh1 Hh2. simpl. bd_simpl. econstructor.
    + eapply repr_transport; [done| |exact Hh]. intros l Hl. apply Hag; lia.
    + apply Hre; [done| |done|done]. intros l Hl. apply Hag; lia.
Qed.

Lemma aget_aset_eq {V} (d : list (pystr * V)) k v : aget (aset d k v) k = Some v.
Proof.
  induction d as [|[k' v'] d IH]; simpl; [by bd_simpl|].
  destruct (decide (k = k')) as [->|Hne]; simpl; bd_simpl; [done|apply IH].
Qed.

Lemma aset_swap {V} (d : list (pystr * V)) k k' v v' :
  k <> k' -> is_Some (aget d k') -> aset (aset d k v) k' v' = aset (aset d k' v') k v.
Proof.
  intros Hne. induction d as [|[k0 v0] d IH]; simpl; [by intros []|].
  destruct (decide (k = k0)) as [->|H1]; [|destruct (decide (k' = k0)) as [->|H2]];
    bd_simpl; [done|done|]. intros Hs. by rewrite IH.
Qed.

Lemma repr_none_range E st a b h : repr E st a b h VNone -> a = b.
Proof. by inversion 1. Qed.

Definition no_shared : hval -> pyval -> Prop := fun _ _ => False.

Lemma repr0_none st a b h : repr no_shared st a b h VNone -> h = HNone.
Proof. by inversion 1. Qed.

Lemma repr0_list_inv st a b h ts :
  repr no_shared st a b h (VList ts) ->
  exists l hs, h = HRef l /\ b = S l /\ st !! l = Some (OList hs) /\ repr_seq no_shared st a hs ts l.
Proof. inversion 1; [done|]. eauto 10. Qed.

Lemma repr0_dict_inv st a b h td :
  repr no_shared st a b h (VDict td) ->
  exists l hd, h = HRef l /\ b = S l /\ st !! l = Some (ODict hd) /\ repr_dseq no_shared st a hd td l.
Proof. inversion 1; [done|]. eauto 10. Qed.

Lemma repr_dseq_present E st a hd td b k t :
  repr_dseq E st a hd td b -> aget td k = Some t -> exists h, aget hd k = Some h.
Proof.
  intros Hr Ht. destruct (aget hd k) as [h|] eqn:Eh; [by eauto|].
  by rewrite (repr_dseq_absent _ _ _ _ _ _ _ Hr Eh) in Ht.
Qed.

(** An entry that is absent or None, as the code reads it. *)
Lemma repr0_entry_none st a hd td b k :
  repr_dseq no_shared st a hd td b -> default VNone (aget td k) = VNone ->
  default HNone (aget hd k) = HNone.
Proof.
  intros Hr Ht. destruct (aget hd k) as [h|] eqn:Eh; [|done].
  destruct (repr_dseq_focus _ _ _ _ _ _ _ _ Hr Eh) as (t & a' & b' & Et & _ & Hh & _).
  rewrite Et in Ht. simpl in Ht. subst t. simpl. by eapply repr0_none.
Qed.

(** [d[k] = x] on an entry that is absent or None: the new entry owns
    nothing of the dict's range. *)
Lemma repr_dseq_set_none E E' st st' a hd td b k x u :
  (forall x y, E x y -> E' x y) -> repr_dseq E st a hd td b -> default VNone (aget td k) = VNone ->
  agree_on a b st st' -> E' x u -> repr_dseq E' st' a (aset hd k x) (aset td k u) b.
Proof.
  intros HE Hr Ht Hag Hx. destruct (aget hd k) as [h|] eqn:Eh.
  - destruct (repr_dseq_focus _ _ _ _ _ _ _ _ Hr Eh) as (t & a' & b' & Et & Hab & Hh & Hre).
    rewrite Et in Ht. simpl in Ht. subst t. apply repr_none_range in Hh as ->.
    apply Hre; [done| | |by apply repr_shared]; eapply agree_on_sub; eauto; lia.
  - rewrite !aset_absent by (done || by eapply repr_dseq_absent).
    apply repr_dseq_snoc; [by eapply repr_dseq_transport|]. apply repr_shared, Hx.
Qed.

(** ** Running the code on objects *)

Lemma hst_bind_ok {A B} (m : hst A) (f : A -> hst B) st x st' :
  m st = (Ok x, st') -> (m ≫= f) st = f x st'.
Proof. intros E. unfold mbind, hst_bind. by rewrite E. Qed.

Lemma h_get_dict st l hd k :
  st !! l = Some (ODict hd) -> h_get (HRef l) k st = (Ok (default HNone (aget hd k)), st).
Proof. intros H. cbn. by rewrite H. Qed.

Lemma h_setitem_dict st l hd k x :
  st !! l = Some (ODict hd) -> h_setitem (HRef l) k x st = (Ok tt, <[l := ODict (aset hd k x)]> st).
Proof. intros H. cbn. by rewrite H. Qed.

(** The store changes only on the locations [a] to [b - 1]. *)
Definition changes_within (a b : nat) (st st' : store) : Prop :=
  forall l, ~ (a <= l < b)%nat -> st' !! l = st !! l.

Lemma changes_within_trans a b a' b' st1 st2 st3 :
  changes_within a b st1 st2 -> changes_within a' b' st2 st3 ->
  (a <= a')%nat -> (b' <= b)%nat -> changes_within a b st1 st3.
Proof. intros H1 H2 ? ? l Hl. rewrite H2 by lia. by apply H1. Qed.

Lemma changes_within_widen a b a' b' st st' :
  changes_within a' b' st st' -> (a <= a')%nat -> (b' <= b)%nat -> changes_within a b st st'.
Proof. intros H ? ? l Hl. apply H. lia. Qed.

Lemma changes_within_insert a b st l o :
  (a <= l < b)%nat -> changes_within a b st (<[l := o]> st).
Proof. intros ? l' ?. apply list_lookup_insert_ne. lia. Qed.

Lemma changes_within_agree a b a' b' st st' :
  changes_within a b st st' -> (b <= a' \/ b' <= a)%nat -> agree_on a' b' st st'.
Proof. intros H Hd l Hl. apply H. lia. Qed.

(** A group object whose [proxies] entry is a reference to [X]. *)
Definition holds_ref (st : store) (a b : nat) (hg : hval) (k : pystr) (X : loc) : Prop :=
  exists G hgd, hg = HRef G /\ (a <= G < b)%nat /\ st !! G = Some (ODict hgd) /\
    aget hgd k = Some (HRef X).

Lemma holds_ref_frame st st' a b hg k X :
  holds_ref st a b hg k X -> agree_on a b st st' -> holds_ref st' a b hg k X.
Proof. intros (G & hgd & -> & HG & Hl & Hk) Hag. exists G, hgd. rewrite Hag by lia. done. Qed.

Lemma holds_ref_sub st a b a' b' hg k X :
  holds_ref st a' b' hg k X -> (a <= a')%nat -> (b' <= b)%nat -> holds_ref st a b hg k X.
Proof. intros (G & hgd & ? & ? & ? & ?) ? ?. exists G, hgd. split_and!; done || lia. Qed.

Lemma holds_ref_get st a b hg k X :
  holds_ref st a b hg k X -> h_get hg k st = (Ok (HRef X), st).
Proof. intros (G & hgd & -> & _ & Hl & Hk). rewrite (h_get_dict _ _ _ _ Hl), Hk. done. Qed.

Lemma agree_data st0 st st' a b :
  agree_on 0 (length st0) st0 st -> changes_within a b st st' -> (length st0 <= a)%nat ->
  agree_on 0 (length st0) st0 st'.
Proof. intros H1 H2 Ha l Hl. rewrite H2 by lia. by apply H1. Qed.

(** [l.extend(data.get(...))] on a list entry of the template, when the
    argument is the list [X] of the feed, below the template. *)
Lemma extend_entry_ok E' st0 st a b h ts X ys us :
  repr no_shared st a b h (VList ts) -> (length st0 <= a)%nat -> agree_on 0 (length st0) st0 st ->
  (X < length st0)%nat -> st0 !! X = Some (OList ys) -> Forall2 E' ys us ->
  exists l st', h_extend_method h st = (Ok l, st) /\ h_extend l (HRef X) st = (Ok tt, st') /\
    changes_within a b st st' /\ repr E' st' a b h (VList (ts ++ us)).
Proof.
  intros Hr Ha Hag HX HXs Hys. apply repr0_list_inv in Hr as (l & hs & -> & -> & Hl & Hs).
  pose proof (repr_seq_le _ _ _ _ _ _ Hs). pose proof (lookup_lt_Some _ _ _ Hl).
  exists l, (<[l := OList (hs ++ ys)]> st). split_and!.
  - cbn. by rewrite Hl.
  - unfold h_extend. erewrite hst_bind_ok; [|cbn; rewrite Hag, HXs by lia; reflexivity].
    cbn. by rewrite Hl.
  - apply changes_within_insert. lia.
  - eapply repr_list; [by apply list_lookup_insert_eq|].
    apply repr_seq_app_shared; [|done].
    eapply (repr_seq_transport no_shared); [by intros ? ? []| |exact Hs].
    apply changes_within_agree with l (S l); [apply changes_within_insert|]; lia.
Qed.

(** ** One merge on objects

    The feed's objects come first in the store ([st0], locations below
    [length st0]); its two lists are at [Pd] and [Nd].  A value the
    template receives from the feed is [shared]: it reads the same in
    every store that leaves the feed's objects alone. *)
Section MergeRun.
Context (st0 : store) (dv : hval) (Pd Nd : loc) (phs nhs : list hval) (pl pn : list pyval).

Definition shared (h : hval) (t : pyval) : Prop :=
  forall st, agree_on 0 (length st0) st0 st -> exists n, hread n st h = Some t.

Hypothesis Hdata : forall st, agree_on 0 (length st0) st0 st ->
  h_get dv k_proxy_list st = (Ok (HRef Pd), st) /\ h_get dv k_proxy_names st = (Ok (HRef Nd), st).
Hypothesis HPd : (Pd < length st0)%nat /\ st0 !! Pd = Some (OList phs).
Hypothesis HNd : (Nd < length st0)%nat /\ st0 !! Nd = Some (OList nhs).
Hypothesis Hphs : Forall2 shared phs pl.
Hypothesis Hnhs : Forall2 shared nhs pn.
Hypothesis HPs : shared (HRef Pd) (VList pl).
Hypothesis HNs : shared (HRef Nd) (VList pn).

Lemma no_shared_shared x y : no_shared x y -> shared x y.
Proof. done. Qed.

(** The body of the loop on one group of a well-formed template. *)
Lemma merge_group_h_ok st a b hg g :
  repr no_shared st a b hg g -> wf_group g = true -> (length st0 <= a)%nat ->
  agree_on 0 (length st0) st0 st ->
  exists st', merge_group_h dv hg st = (Ok tt, st') /\ changes_within a b st st' /\
    repr shared st' a b hg (merge_group_spec pn g) /\
    (field g k_proxies = VNone -> holds_ref st' a b hg k_proxies Nd).
Proof using Hdata HPd HNd Hnhs HNs.
  destruct g as [| | | | |gd]; try discriminate. intros Hr Hwf Ha Hag.
  apply repr0_dict_inv in Hr as (G & hgd & -> & -> & HG & Hd).
  pose proof (repr_dseq_le _ _ _ _ _ _ Hd). pose proof (lookup_lt_Some _ _ _ HG).
  unfold merge_group_h. erewrite hst_bind_ok by (by apply h_get_dict).
  cbn [wf_group field merge_group_spec] in *. unfold get_or_none in *. rewrite dget_aget in *.
  destruct (aget gd k_proxies) as [tp|] eqn:Etp; simpl in Hwf;
    [destruct tp as [| | | |ts|]; try discriminate|].
  1,3: assert (Hn : default VNone (aget gd k_proxies) = VNone) by (by rewrite Etp);
    rewrite (repr0_entry_none _ _ _ _ _ _ Hd Hn); cbn [is_hnone];
    erewrite hst_bind_ok by (apply (Hdata _ Hag)); rewrite (h_setitem_dict _ _ _ _ _ HG);
    eexists; split_and!; [done|by apply changes_within_insert; lia| |];
    [eapply repr_dict; [by apply list_lookup_insert_eq|];
     rewrite dset_aset; simpl;
     apply (repr_dseq_set_none no_shared shared st);
       [exact no_shared_shared|exact Hd|exact Hn| |exact HNs];
     intros l Hl; apply list_lookup_insert_ne; lia
    |intros _; exists G, (aset hgd k_proxies (HRef Nd)); split_and!;
     [done|lia|lia|by apply list_lookup_insert_eq|apply aget_aset_eq]].
  destruct (repr_dseq_present _ _ _ _ _ _ _ _ Hd Etp) as [hp Ehp].
  destruct (repr_dseq_focus _ _ _ _ _ _ _ _ Hd Ehp) as (tp & ap & bp & Etp' & Hab & Hp & Hre).
  rewrite Etp in Etp'. injection Etp' as <-. rewrite Ehp. cbn [default].
  destruct (extend_entry_ok shared st0 _ _ _ _ _ Nd nhs pn Hp) as (l & st' & Hm & He & Hch & Hp');
    [lia|done|apply HNd|apply HNd|done|].
  pose proof (repr0_list_inv _ _ _ _ _ Hp) as (l' & hs & -> & _). cbn [is_hnone id].
  erewrite hst_bind_ok by exact Hm. erewrite hst_bind_ok by (apply (Hdata _ Hag)).
  exists st'. split_and!; [exact He| | |].
  - eapply changes_within_widen; [exact Hch|lia|lia].
  - eapply repr_dict; [rewrite Hch by lia; exact HG|].
    rewrite dset_aset. simpl. rewrite <- (aset_same hgd k_proxies (HRef l')) at 1 by done.
    apply Hre; [done| | |exact Hp']; eapply changes_within_agree; eauto; lia.
  - discriminate.
Qed.

(** The loop over the groups: each group is merged in its own range. *)
Lemma groups_loop_ok st a hgs gts b :
  repr_seq no_shared st a hgs gts b -> forallb wf_group gts = true -> (length st0 <= a)%nat ->
  agree_on 0 (length st0) st0 st ->
  exists st', h_for hgs (merge_group_h dv) st = (Ok tt, st') /\ changes_within a b st st' /\
    repr_seq shared st' a hgs (map (merge_group_spec pn) gts) b /\
    Forall2 (fun hg g => field g k_proxies = VNone -> holds_ref st' a b hg k_proxies Nd) hgs gts.
Proof using Hdata HPd HNd Hnhs HNs.
  intros Hs0. revert st a gts b Hs0. induction hgs as [|hg hgs IH];
    intros st a gts c Hs0 Hwf Ha Hag; inversion Hs0 as [|? b ? ? g ? gts' Hg Hs]; subst.
  { exists st. split_and!; [done|by intros ??|constructor|constructor]. }
  apply andb_prop in Hwf as [Hwg Hwf].
  pose proof (repr_le _ _ _ _ _ _ Hg). pose proof (repr_seq_le _ _ _ _ _ _ Hs).
  destruct (merge_group_h_ok _ _ _ _ _ Hg Hwg Ha Hag) as (st1 & Hrun1 & Hch1 & Hg1 & Hsh1).
  assert (Hs1 : repr_seq no_shared st1 b hgs gts' c).
  { eapply repr_seq_frame; [exact Hs|]. eapply changes_within_agree; [exact Hch1|lia]. }
  destruct (IH st1 _ _ _ Hs1 Hwf ltac:(lia) (agree_data _ _ _ _ _ Hag Hch1 Ha))
    as (st2 & Hrun2 & Hch2 & Hs2 & Hsh2).
  assert (Hag12 : agree_on a b st1 st2) by (eapply changes_within_agree; [exact Hch2|lia]).
  exists st2. split_and!.
  - cbn [h_for]. erewrite hst_bind_ok by exact Hrun1. exact Hrun2.
  - intros l Hl. destruct (decide (a <= l < b)%nat).
    + rewrite Hch2 by lia. apply Hch1. lia.
    + rewrite Hch2 by lia. apply Hch1. lia.
  - econstructor; [eapply repr_frame; [exact Hg1|exact Hag12]|exact Hs2].
  - constructor.
    + intros Hn. eapply holds_ref_sub; [eapply holds_ref_frame; [by apply Hsh1|exact Hag12]|lia|lia].
    + eapply Forall2_impl; [|exact Hsh2]. intros hg' g' H' Hn.
      eapply holds_ref_sub; [by apply H'|lia|lia].
Qed.

(** What one call does to a template [mv] that represents [t] on the
    range [a] to [b - 1]: it returns [mv], changes nothing outside the
    range, [mv] then reads as [merge_spec] of [t], and every group that
    had no member list holds the feed's list [Nd]. *)
Definition merge_run_ok (st : store) (a b : nat) (mv : hval) (t : pyval) : Prop :=
  exists st' hgs, add_proxies_to_model_h dv mv st = (Ok mv, st') /\ changes_within a b st st' /\
    repr shared st' a b mv (merge_spec (mk_feed pl pn) t) /\
    (h_get mv k_groups ≫= h_iter) st' = (Ok hgs, st') /\
    Forall2 (fun hg g => field g k_proxies = VNone -> h_get hg k_proxies st' = (Ok (HRef Nd), st'))
      hgs (members (field t k_groups)).

Lemma merge_spec_dict td gts :
  aget td k_groups = Some (VList gts) ->
  merge_spec (mk_feed pl pn) (VDict td) =
  VDict (aset (aset td k_proxies (VList (members (default VNone (aget td k_proxies)) ++ pl)))
          k_groups (VList (map (merge_group_spec pn) gts))).
Proof.
  intros Hg. unfold merge_spec, field, get_or_none. cbn [proxy_list proxy_names].
  rewrite !dget_aget, !dset_aset, Hg. done.
Qed.

Lemma h_iter_list st l hs : st !! l = Some (OList hs) -> h_iter (HRef l) st = (Ok hs, st).
Proof. intros H. cbn. by rewrite H. Qed.

Lemma groups_view st R hd Lg hgs :
  st !! R = Some (ODict hd) -> aget hd k_groups = Some (HRef Lg) -> st !! Lg = Some (OList hgs) ->
  (h_get (HRef R) k_groups ≫= h_iter) st = (Ok hgs, st).
Proof. intros HR Hg HL. erewrite hst_bind_ok by (by apply h_get_dict). rewrite Hg. cbn. by rewrite HL. Qed.

Lemma k_groups_proxies : k_groups <> k_proxies.
Proof. apply not_eq_sym, k_proxies_groups. Qed.

(** The template has no member list (absent or None): line 375. *)
Lemma merge_none_case st a R hd td gts hg :
  st !! R = Some (ODict hd) -> repr_dseq no_shared st a hd td R ->
  default VNone (aget td k_proxies) = VNone -> aget td k_groups = Some (VList gts) ->
  aget hd k_groups = Some hg -> forallb wf_group gts = true ->
  (length st0 <= a)%nat -> agree_on 0 (length st0) st0 st ->
  merge_run_ok st a (S R) (HRef R) (VDict td).
Proof using Hdata HPd HNd Hnhs HNs HPs.
  intros HR Hd Hn Etg Ehg Hwg Ha Hag. pose proof (repr_dseq_le _ _ _ _ _ _ Hd).
  destruct (repr_dseq_focus _ _ _ _ _ _ _ _ Hd Ehg) as (tg & ag & bg & Etg' & Hab & Hg & Hre).
  rewrite Etg in Etg'. injection Etg' as <-.
  apply repr0_list_inv in Hg as (Lg & hgs & -> & -> & HLg & Hs).
  set (st1 := <[R := ODict (aset hd k_proxies (HRef Pd))]> st).
  assert (Hch1 : changes_within a (S R) st st1) by (apply changes_within_insert; lia).
  assert (HL1 : st1 !! Lg = Some (OList hgs)) by (unfold st1; rewrite list_lookup_insert_ne by lia; done).
  destruct (groups_loop_ok st1 ag hgs gts Lg) as (st2 & Hrun2 & Hch2 & Hs2 & Hsh2);
    [eapply repr_seq_frame; [exact Hs|intros l Hl; unfold st1; apply list_lookup_insert_ne; lia]
    |done|lia|eapply agree_data; [exact Hag|exact Hch1|lia]|].
  assert (HR2 : st2 !! R = Some (ODict (aset hd k_proxies (HRef Pd)))).
  { rewrite Hch2 by lia. apply list_lookup_insert_eq. by eapply lookup_lt_Some. }
  assert (Hg2 : aget (aset hd k_proxies (HRef Pd)) k_groups = Some (HRef Lg))
    by (rewrite aget_aset_ne by apply k_proxies_groups; done).
  assert (HL2 : st2 !! Lg = Some (OList hgs)) by (rewrite Hch2 by lia; done).
  exists st2, hgs. split_and!.
  - unfold add_proxies_to_model_h. erewrite hst_bind_ok by (by apply h_get_dict).
    rewrite (repr0_entry_none _ _ _ _ _ _ Hd Hn). cbn [is_hnone].
    erewrite hst_bind_ok; [|erewrite hst_bind_ok by apply (Hdata _ Hag); by apply h_setitem_dict].
    erewrite hst_bind_ok by (apply h_get_dict; unfold st1; apply list_lookup_insert_eq;
                             by eapply lookup_lt_Some).
    rewrite Hg2. erewrite hst_bind_ok by (by apply h_iter_list).
    erewrite hst_bind_ok by exact Hrun2. done.
  - intros l Hl. rewrite Hch2 by lia. by apply Hch1.
  - rewrite (merge_spec_dict _ _ Etg), Hn. cbn [members app].
    eapply repr_dict; [exact HR2|].
    rewrite aset_swap by (done || apply k_proxies_groups).
    apply (repr_dseq_set_none shared shared st2); [done| | |done|done].
    + rewrite <- (aset_same hd k_groups (HRef Lg)) at 1 by done.
      apply Hre; [by intros ? ? []| | |].
      * intros l Hl. rewrite Hch2 by lia. unfold st1. apply list_lookup_insert_ne. lia.
      * intros l Hl. rewrite Hch2 by lia. unfold st1. apply list_lookup_insert_ne. lia.
      * eapply repr_list; [exact HL2|exact Hs2].
    + by rewrite aget_aset_ne by apply k_groups_proxies.
  - by apply (groups_view _ _ (aset hd k_proxies (HRef Pd)) Lg).
  - cbn [field members]. unfold get_or_none. rewrite dget_aget, Etg.
    eapply Forall2_impl; [|exact Hsh2]. intros hg g Hh Hn'. by eapply holds_ref_get, Hh.
Qed.

(** The template has its own member list: line 377. *)
Lemma merge_list_case st a R hd td gts ps hp hg :
  st !! R = Some (ODict hd) -> repr_dseq no_shared st a hd td R ->
  aget td k_proxies = Some (VList ps) -> aget td k_groups = Some (VList gts) ->
  aget hd k_proxies = Some hp -> aget hd k_groups = Some hg -> forallb wf_group gts = true ->
  (length st0 <= a)%nat -> agree_on 0 (length st0) st0 st ->
  merge_run_ok st a (S R) (HRef R) (VDict td).
Proof using Hdata HPd HNd Hphs Hnhs HNs.
  intros HR Hd Etp Etg Ehp Ehg Hwg Ha Hag. pose proof (repr_dseq_le _ _ _ _ _ _ Hd).
  destruct (repr_dseq_focus2 _ _ _ _ _ _ _ _ _ _ k_proxies_groups Hd Ehp Ehg)
    as (tp & tg & a1 & b1 & a2 & b2 & Etp' & Etg' & Hab & Hp & Hg & Hre).
  rewrite Etp in Etp'. rewrite Etg in Etg'. injection Etp' as <-. injection Etg' as <-.
  destruct (extend_entry_ok shared st0 _ _ _ _ _ Pd phs pl Hp) as (l & st1 & Hm & He & Hch1 & Hp1);
    [lia|done|apply HPd|apply HPd|done|].
  pose proof (repr0_list_inv _ _ _ _ _ Hp) as (Lp & ? & -> & _).
  apply repr0_list_inv in Hg as (Lg & hgs & -> & -> & HLg & Hs).
  pose proof (repr_seq_le _ _ _ _ _ _ Hs).
  assert (HL1 : st1 !! Lg = Some (OList hgs)) by (rewrite Hch1 by lia; done).
  destruct (groups_loop_ok st1 a2 hgs gts Lg) as (st2 & Hrun2 & Hch2 & Hs2 & Hsh2);
    [eapply repr_seq_frame; [exact Hs|eapply changes_within_agree; [exact Hch1|lia]]
    |done|lia|eapply agree_data; [exact Hag|exact Hch1|lia]|].
  assert (HR2 : st2 !! R = Some (ODict hd)) by (rewrite Hch2, Hch1 by lia; done).
  assert (HL2 : st2 !! Lg = Some (OList hgs)) by (rewrite Hch2 by lia; done).
  exists st2, hgs. split_and!.
  - unfold add_proxies_to_model_h. erewrite hst_bind_ok by (by apply h_get_dict).
    rewrite Ehp. cbn [default id is_hnone].
    erewrite hst_bind_ok; [|erewrite hst_bind_ok by exact Hm;
                            erewrite hst_bind_ok by apply (Hdata _ Hag); exact He].
    erewrite hst_bind_ok by (apply h_get_dict; rewrite Hch1 by lia; exact HR).
    rewrite Ehg. erewrite hst_bind_ok by (by apply h_iter_list).
    erewrite hst_bind_ok by exact Hrun2. done.
  - intros l' Hl'. destruct (decide (a1 <= l' < b1)%nat); rewrite Hch2 by lia; apply Hch1; lia.
  - rewrite (merge_spec_dict _ _ Etg), Etp. cbn [default id members].
    eapply repr_dict; [exact HR2|].
    rewrite <- (aset_same hd k_groups (HRef Lg)) at 1 by done.
    rewrite <- (aset_same hd k_proxies (HRef Lp)) at 1 by done.
    apply Hre; [by intros ? ? []| | |].
    + intros l' Hl' H1 H2. rewrite Hch2, Hch1 by lia. done.
    + eapply repr_frame; [exact Hp1|]. eapply changes_within_agree; [exact Hch2|lia].
    + eapply repr_list; [exact HL2|exact Hs2].
  - by apply (groups_view _ _ hd Lg).
  - cbn [field members]. unfold get_or_none. rewrite dget_aget, Etg.
    eapply Forall2_impl; [|exact Hsh2]. intros hg g Hh Hn'. by eapply holds_ref_get, Hh.
Qed.

Lemma add_proxies_h_run st a b mv t :
  repr no_shared st a b mv t -> wf_model t = true -> (length st0 <= a)%nat ->
  agree_on 0 (length st0) st0 st -> merge_run_ok st a b mv t.
Proof using Hdata HPd HNd Hphs Hnhs HPs HNs.
  destruct t as [| | | | |td]; try discriminate. intros Hr Hwf Ha Hag.
  apply repr0_dict_inv in Hr as (R & hd & -> & -> & HR & Hd).
  unfold wf_model, field, get_or_none in Hwf. rewrite !dget_aget in Hwf.
  apply andb_prop in Hwf as [Hwp Hwg].
  destruct (aget td k_groups) as [[| | | |gts|]|] eqn:Etg; try discriminate.
  destruct (repr_dseq_present _ _ _ _ _ _ _ _ Hd Etg) as [hg Ehg].
  destruct (aget td k_proxies) as [[| | | |ps|]|] eqn:Etp; try discriminate.
  - eapply merge_none_case; eauto. by rewrite Etp.
  - destruct (repr_dseq_present _ _ _ _ _ _ _ _ Hd Etp) as [hp Ehp].
    eapply merge_list_case; eauto.
  - eapply merge_none_case; eauto. by rewrite Etp.
Qed.

End MergeRun.

(** ** The program's call: the feed's objects, then the template's *)

Lemma repr0_shared st0 a b h t :
  repr no_shared st0 a b h t -> (b <= length st0)%nat -> shared st0 h t.
Proof.
  intros Hr Hb st Hag. apply (repr_reads no_shared st a b h t); [by intros ? ? []|].
  pose proof (repr_le _ _ _ _ _ _ Hr).
  eapply repr_frame; [exact Hr|]. eapply agree_on_sub; [exact Hag|lia|lia].
Qed.

Lemma repr0_seq_shared st0 a hs ts b :
  repr_seq no_shared st0 a hs ts b -> (b <= length st0)%nat -> Forall2 (shared st0) hs ts.
Proof.
  induction 1 as [|a b c h t hs ts Hh Hs IH]; intros Hb; constructor.
  - pose proof (repr_seq_le _ _ _ _ _ _ Hs). eapply repr0_shared; [exact Hh|lia].
  - by apply IH.
Qed.

(** The objects of the dict [get_proxies] returns. *)
Lemma halloc_feed f dv st0 :
  halloc (feed_value f) [] = (dv, st0) ->
  exists Pd Nd phs nhs,
    (forall st, agree_on 0 (length st0) st0 st ->
       h_get dv k_proxy_list st = (Ok (HRef Pd), st) /\ h_get dv k_proxy_names st = (Ok (HRef Nd), st)) /\
    ((Pd < length st0)%nat /\ st0 !! Pd = Some (OList phs)) /\
    ((Nd < length st0)%nat /\ st0 !! Nd = Some (OList nhs)) /\
    Forall2 (shared st0) phs (proxy_list f) /\ Forall2 (shared st0) nhs (proxy_names f) /\
    shared st0 (HRef Pd) (VList (proxy_list f)) /\ shared st0 (HRef Nd) (VList (proxy_names f)).
Proof.
  intros Ha. destruct (halloc_repr no_shared _ _ _ _ Ha) as [_ Hr]. cbn [length] in Hr.
  pose proof (repr_le _ _ _ _ _ _ Hr).
  apply repr0_dict_inv in Hr as (Ld & hd & -> & Hlen & HLd & Hd).
  inversion Hd as [|? b1 ? ? h1 ? ? ? H1 Hd1]; subst.
  inversion Hd1 as [|? b2 ? ? h2 ? ? ? H2 Hd2]; subst. inversion Hd2; subst.
  pose proof (repr_le _ _ _ _ _ _ H1). pose proof (repr_le _ _ _ _ _ _ H2).
  pose proof H1 as H1'. pose proof H2 as H2'.
  apply repr0_list_inv in H1 as (Pd & phs & -> & -> & HPd & Hs1).
  apply repr0_list_inv in H2 as (Nd & nhs & -> & -> & HNd & Hs2).
  exists Pd, Nd, phs, nhs. split_and!.
  - intros st Hag. rewrite !(h_get_dict _ _ _ _ (eq_trans (Hag (S Nd) ltac:(lia)) HLd)). simpl.
    split; reflexivity.
  - lia.
  - done.
  - lia.
  - done.
  - eapply repr0_seq_shared; [exact Hs1|lia].
  - eapply repr0_seq_shared; [exact Hs2|lia].
  - eapply repr0_shared; [exact H1'|lia].
  - eapply repr0_shared; [exact H2'|lia].
Qed.

Lemma merge_after_feed f t dv st0 mv st1 :
  wf_model t = true -> halloc (feed_value f) [] = (dv, st0) -> halloc t st0 = (mv, st1) ->
  exists Nd, (forall st, agree_on 0 (length st0) st0 st -> h_get dv k_proxy_names st = (Ok (HRef Nd), st)) /\
    shared st0 (HRef Nd) (VList (proxy_names f)) /\
    merge_run_ok st0 dv Nd (proxy_list f) (proxy_names f) st1 (length st0) (length st1) mv t.
Proof.
  intros Hwf Hf Ht.
  destruct (halloc_feed _ _ _ Hf) as (Pd & Nd & phs & nhs & Hdata & HPd & HNd & Hphs & Hnhs & HPs & HNs).
  destruct (halloc_repr no_shared _ _ _ _ Ht) as [Hp Hr].
  exists Nd. split_and!; [intros st Hag; by apply Hdata|done|].
  eapply add_proxies_h_run; [exact Hdata|exact HPd|exact HNd|exact Hphs|exact Hnhs|exact HPs|exact HNs
                            |exact Hr|exact Hwf|lia|].
  apply agree_prefix; [done|lia].
Qed.

(** The merge leaves the feed's objects as they were. *)
Lemma merge_keeps_feed t st0 mv st1 st2 :
  halloc t st0 = (mv, st1) -> changes_within (length st0) (length st1) st1 st2 ->
  agree_on 0 (length st0) st0 st2.
Proof.
  intros Ht Hch. destruct (halloc_repr no_shared _ _ _ _ Ht) as [Hp _].
  eapply agree_data; [apply agree_prefix; [exact Hp|lia]|exact Hch|lia].
Qed.

(** ** The properties of one call *)

(** C13: for the single call the program makes (the feed built first by
    [get_proxies], then the template by [yaml.load]), the merge on
    Python objects returns the template object, and that object then
    reads as exactly the result of the value model
    [Merger.add_proxies_to_model]: the aliasing the call creates is
    invisible in its result. *)
Theorem add_proxies_h_refines f t dv st0 mv st1 :
  wf_model t = true -> halloc (feed_value f) [] = (dv, st0) -> halloc t st0 = (mv, st1) ->
  exists st2 n m', add_proxies_to_model_h dv mv st1 = (Ok mv, st2) /\
    add_proxies_to_model f t = Ok m' /\ hread n st2 mv = Some m'.
Proof.
  intros Hwf Hf Ht. destruct (merge_after_feed _ _ _ _ _ _ Hwf Hf Ht)
    as (Nd & _ & _ & st2 & hgs & Hrun & Hch & Hr & _).
  destruct (repr_reads (shared st0) st2 _ _ _ _ (fun h u Hs => Hs st2 (merge_keeps_feed _ _ _ _ _ Ht Hch)) Hr)
    as [n Hn].
  exists st2, n, (merge_spec f t). split_and!; [done|by apply add_proxies_spec|by destruct f].
Qed.

(** C36: the call stores the feed's list [data['proxy_names']] itself,
    not a copy, in every group of the template that had no member list
    (None or absent): afterwards [group['proxies'] is
    data['proxy_names']] holds for each of them, so these groups share
    one list object. *)
Theorem add_proxies_h_shares f t dv st0 mv st1 :
  wf_model t = true -> halloc (feed_value f) [] = (dv, st0) -> halloc t st0 = (mv, st1) ->
  exists st2 Nd hgs, add_proxies_to_model_h dv mv st1 = (Ok mv, st2) /\
    h_get dv k_proxy_names st2 = (Ok (HRef Nd), st2) /\
    (h_get mv k_groups ≫= h_iter) st2 = (Ok hgs, st2) /\
    Forall2 (fun hg g => field g k_proxies = VNone -> h_get hg k_proxies st2 = (Ok (HRef Nd), st2))
      hgs (members (field t k_groups)).
Proof.
  intros Hwf Hf Ht. destruct (merge_after_feed _ _ _ _ _ _ Hwf Hf Ht)
    as (Nd & Hn & _ & st2 & hgs & Hrun & Hch & _ & Hg & Hsh).
  exists st2, Nd, hgs. split_and!; [done| |done|done].
  apply Hn. by eapply merge_keeps_feed.
Qed.

(** ** Witnesses: a template with two groups without member lists *)

Definition w_template : pyval :=
  VDict [(k_proxies, VNone);
         (k_groups, VList [VDict [(lit "name", VStr (lit "Proxy"))];
                           VDict [(lit "name", VStr (lit "Auto"))];
                           VDict [(lit "name", VStr (lit "Direct"));
                                  (k_proxies, VList [VStr (lit "DIRECT")])]])].

Definition w_feed (n : pystr) : feed := mk_feed [VDict [(lit "name", VStr n)]] [VStr n].

Definition w_data : hval * store := halloc (feed_value (w_feed (lit "a"))) [].
Definition w_model : hval * store := halloc w_template w_data.2.

Lemma add_proxies_h_refines_witness :
  exists st2 n m', add_proxies_to_model_h w_data.1 w_model.1 w_model.2 = (Ok w_model.1, st2) /\
    add_proxies_to_model (w_feed (lit "a")) w_template = Ok m' /\ hread n st2 w_model.1 = Some m'.
Proof.
  apply (add_proxies_h_refines (w_feed (lit "a")) _ w_data.1 w_data.2 w_model.1 w_model.2); vm_compute; reflexivity.
Defined.

Lemma add_proxies_h_shares_witness :
  exists st2 Nd hgs, add_proxies_to_model_h w_data.1 w_model.1 w_model.2 = (Ok w_model.1, st2) /\
    h_get w_data.1 k_proxy_names st2 = (Ok (HRef Nd), st2) /\
    (h_get w_model.1 k_groups ≫= h_iter) st2 = (Ok hgs, st2) /\
    Forall2 (fun hg g => field g k_proxies = VNone -> h_get hg k_proxies st2 = (Ok (HRef Nd), st2))
      hgs (members (field w_template k_groups)).
Proof.
  apply (add_proxies_h_shares (w_feed (lit "a")) _ w_data.1 w_data.2 w_model.1 w_model.2); vm_compute; reflexivity.
Defined.

(** What the sharing does to a second merge, computed: merging the feed
    "a" and then the feed "b" leaves the two groups that had no member
    list with a, b, b (the second [extend] runs once through each of
    them on the one shared list), while the value model gives a, b. *)
Definition merge_twice (fa fb : feed) (t : pyval) : option pyval :=
  let '(da, st1) := halloc (feed_value fa) [] in
  let '(db, st2) := halloc (feed_value fb) st1 in
  let '(mv, st3) := halloc t st2 in
  match (_ ← add_proxies_to_model_h da mv; add_proxies_to_model_h db mv) st3 with
  | (Ok _, st4) => hread (length st4) st4 mv
  | (Raise _, _) => None
  end.

Example merge_twice_shared :
  (m ← merge_twice (w_feed (lit "a")) (w_feed (lit "b")) w_template;
   Some (map (fun g => field g k_proxies) (members (field m k_groups)))) =
  Some [VList [VStr (lit "a"); VStr (lit "b"); VStr (lit "b")];
          VList [VStr (lit "a"); VStr (lit "b"); VStr (lit "b")];
          VList [VStr (lit "DIRECT"); VStr (lit "a"); VStr (lit "b")]].
Proof. vm_compute. reflexivity. Qed.

End MergerHeap.
