(* ===== verification/Template.v ===== *)
(** * The template and the program's pipeline: [load_local_config],
      [get_default_config] (src/freefq.py, lines 333-364) and the
      [__main__] block (lines 400-420)

    [load_local_config(path)] reads and YAML-parses the local file; a
    missing file ends the program ([sys.exit()], modelled as the
    exception [SystemExit]).  [get_default_config(url, path)] downloads
    and parses the remote template, falls back to the local file on a
    [RequestException], and then loads the local file again
    unconditionally, so its result is always the local template and the
    remote one is discarded.  The [__main__] block is [pipeline]: collect
    the proxies, get the template, merge ([Merger]); writing the result
    ([save_config]) is in [Main.v], whose [main] runs [pipeline].

    File reading, the HTTP client and the YAML parser are the section
    variables [read_file], [fetch_bytes] and [yaml_load]; [get_proxies]
    takes its own [fetch] and [json_loads]. *)

From S2P Require Import Prelude PyStr PyVal Utf8 Base64 Normalize Aggregator Merger.
Open Scope Z_scope.

Module Template.

Import Merger.

Section Template.
Variable read_file : pystr -> res pystr.
Variable fetch_bytes : pystr -> res pybytes.
Variable yaml_load : pystr -> res pyval.

Definition load_local_config (path : pystr) : res pyval :=
  match (txt <- read_file path ;; yaml_load txt) with
  | Raise FileNotFoundError => Raise SystemExit
  | r => r
  end.

(** The [try] block: download, decode, parse. *)
Definition remote_config (url : pystr) : res pyval :=
  raw <- fetch_bytes url ;; s <- Utf8.decode raw ;; yaml_load s.

Definition get_default_config (url path : pystr) : res pyval :=
  _ <- match remote_config url with
       | Raise RequestException => load_local_config path
       | r => r
       end ;;
  load_local_config path.

Variable fetch : pystr -> res pystr.
Variable json_loads : pystr -> res pyval.

(** The [__main__] block up to [save_config]. *)
Definition pipeline (sub_url config_url config_path : pystr) : res pyval :=
  if bool_decide (sub_url = []) then Raise SystemExit else
  node_list <- Aggregator.get_proxies fetch yaml_load json_loads sub_url ;;
  default_config <- get_default_config config_url config_path ;;
  add_proxies_to_model node_list default_config.

(** ** Lemmas *)

(** Loading the local file twice gives what loading it once gives. *)
Lemma load_twice path :
  (_ <- load_local_config path ;; load_local_config path) = load_local_config path.
Proof. by destruct (load_local_config path). Qed.

Lemma get_default_config_local url path :
  (exists t, remote_config url = Ok t) \/ remote_config url = Raise RequestException ->
  get_default_config url path = load_local_config path.
Proof.
  unfold get_default_config. intros [[t ->] | ->]; [done|]. apply load_twice.
Qed.

(** ** Theorems *)

(** C16: [get_default_config] always returns the local template: the
    downloaded one is discarded when it parses, the local file is used
    when the download fails, and any other error of the remote phase
    (a malformed remote YAML or UTF-8 text) aborts the call even though
    the local file is fine. *)
Theorem get_default_config_cases url path :
  get_default_config url path =
  match remote_config url with
  | Ok _ => load_local_config path
  | Raise e => if decide (e = RequestException) then load_local_config path else Raise e
  end.
Proof.
  destruct (remote_config url) as [t|e] eqn:E.
  - apply get_default_config_local. eauto.
  - case_decide as He.
    + subst. apply get_default_config_local. by right.
    + unfold get_default_config. rewrite E. by destruct e.
Qed.

(** C1: the program computes its specification: on a non-empty
    subscription URL, when [get_proxies] yields the feed [f], the local
    template [t] is well formed and the remote phase succeeds or fails
    on the network, the configuration the program writes is
    [merge_spec f t]: [t] with the feed's records appended to [proxies]
    and its names to every proxy group. *)
Theorem pipeline_refines sub_url config_url config_path f t :
  sub_url <> [] ->
  Aggregator.get_proxies fetch yaml_load json_loads sub_url = Ok f ->
  (exists t', remote_config config_url = Ok t') \/
    remote_config config_url = Raise RequestException ->
  load_local_config config_path = Ok t -> wf_model t = true ->
  pipeline sub_url config_url config_path = Ok (merge_spec f t).
Proof.
  intros Hu Hf Hr Hl Hwf. unfold pipeline. rewrite bool_decide_false by done.
  rewrite Hf. cbn. rewrite get_default_config_local, Hl by done. cbn.
  by apply add_proxies_spec.
Qed.

End Template.

(** ** Witness: a one-link subscription and a local template *)

Definition w_fetch (u : pystr) : res pystr := Ok (Base64.b64encode Aggregator.sample_ss_line).
Definition w_yaml (s : pystr) : res pyval :=
  if bool_decide (s = lit "tpl") then Ok sample_template else Raise YAMLError.
Definition w_read (p : pystr) : res pystr := Ok (lit "tpl").
Definition w_offline (u : pystr) : res pybytes := Raise RequestException.

Definition w_feed : feed :=
  match Aggregator.get_proxies w_fetch w_yaml Aggregator.no_json (lit "u") with
  | Ok f => f | Raise _ => empty_feed end.

Lemma pipeline_refines_witness :
  pipeline w_read w_offline w_yaml w_fetch Aggregator.no_json (lit "u") (lit "c") (lit "p") =
  Ok (merge_spec w_feed sample_template).
Proof.
  apply pipeline_refines; try (vm_compute; reflexivity).
  - discriminate.
  - right. reflexivity.
Defined.

End Template.
