(* ===== verification/Main.v ===== *)
(** * The program's effects on the machine: [log], [save_to_file],
      [save_config] and the [__main__] block (src/freefq.py, lines 18-31
      and 386-420)

    The world the program acts on is a record ([world]): the files
    ([files], a finite map from paths to their bytes), the directories
    that exist ([dirs]) and the lines printed so far ([stdout]).  An
    action is a function [io A] from a world to a result and the world
    after it; the world is kept when an action raises, so an exception
    after a write leaves the file written.  [io] is a monad through
    stdpp's [MRet] and [MBind] instances, written with [x ← m; k].

    - [read_text]: [open(path, 'r', encoding='utf-8').read()]: a missing
      file raises FileNotFoundError, the bytes are decoded as UTF-8 and
      the text mode turns "\r\n" and "\r" into "\n".
    - [write_file]: [open(path, 'wb')] and [f.write(content)]: the file
      is created or truncated when its directory ([parent_dir], as
      [os.path.dirname] computes it) exists, and FileNotFoundError is
      raised otherwise.
    - [log] prints its message after a timestamp; [save_to_file],
      [save_config] and [main] are the code's functions.  [main] runs
      [Template.pipeline] on the files of the world it starts in.

    The timestamp of [log] and the date in the output file name
    ([datetime.now()]), the [BASE_DIR] of the [config] module (which is
    not part of the repository), [requests], [json.loads], [yaml.load]
    and [yaml.dump] are section variables.  The [log] calls inside the
    pure functions ([get_proxies], the decoders, [get_default_config])
    are not modelled: [stdout] holds the lines of [save_config] and of
    [main] only.

    The theorems: [main] writes no file but its output file and creates
    no directory (C32); on the inputs of C1 it writes the merged
    configuration, logs the number of proxies, and prints the template's
    path as the file it exported (C33); when the output directory is
    missing it raises FileNotFoundError with no file or directory
    changed, after all the network work (C34); when ./config.yaml is missing it exits
    without writing anything although the remote template was
    obtained (C38). *)

From stdpp Require Import gmap.
From S2P Require Import Prelude PyStr PyVal Utf8 Aggregator Merger Template.
Open Scope Z_scope.

Module Main.

Import Merger.

(** ** The world *)

Record world := mk_world {
  files : gmap pystr pybytes;
  dirs : gset pystr;
  stdout : list pystr;
}.

Definition world_upd_files (f : gmap pystr pybytes -> gmap pystr pybytes) (w : world) : world :=
  mk_world (f (files w)) (dirs w) (stdout w).
Definition world_upd_stdout (f : list pystr -> list pystr) (w : world) : world :=
  mk_world (files w) (dirs w) (f (stdout w)).
Arguments world_upd_files _ !_ /.
Arguments world_upd_stdout _ !_ /.

Definition io (A : Type) : Type := world -> res A * world.

#[export] Instance io_ret : MRet io := fun A x w => (Ok x, w).
#[export] Instance io_bind : MBind io := fun A B f m w =>
  match m w with
  | (Ok x, w') => f x w'
  | (Raise e, w') => (Raise e, w')
  end.

(** A computation that does not touch the world. *)
Definition lift {A} (r : res A) : io A := fun w => (r, w).

(** ** The operating system *)

Fixpoint drop_lead (c : Z) (s : list Z) : list Z :=
  match s with
  | d :: r => if d =? c then drop_lead c r else s
  | [] => []
  end.

(** [s.rstrip(c)] for one character [c]. *)
Definition rstrip_char (c : Z) (s : list Z) : list Z := rev (drop_lead c (rev s)).

(** [os.path.dirname]: the text up to the last '/', without its
    trailing slashes unless it is made of slashes only. *)
Definition parent_dir (p : pystr) : pystr :=
  let head := take (length p - match find_idx [47] (rev p) with
                                | Some i => i | None => length p end) p in
  if forallb (fun c => c =? 47) head then head else rstrip_char 47 head.

(** Text mode's universal newlines. *)
Fixpoint universal_newlines (s : list Z) : list Z :=
  match s with
  | 13 :: 10 :: r => 10 :: universal_newlines r
  | 13 :: r => 10 :: universal_newlines r
  | c :: r => c :: universal_newlines r
  | [] => []
  end.

(** [open(path, 'r', encoding='utf-8').read()] *)
Definition read_text (w : world) (path : pystr) : res pystr :=
  match files w !! path with
  | Some b => s <- Utf8.decode b ;; Ok (universal_newlines s)
  | None => Raise FileNotFoundError
  end.

Definition can_create (w : world) (path : pystr) : bool :=
  bool_decide (parent_dir path = [] \/ parent_dir path ∈ dirs w).

(** [with open(path, 'wb') as f: f.write(content)] *)
Definition write_file (path : pystr) (content : pybytes) : io unit := fun w =>
  if can_create w path then (Ok tt, world_upd_files <[path := content]> w)
  else (Raise FileNotFoundError, w).

(** [print(s)] *)
Definition print (s : pystr) : io unit := fun w =>
  (Ok tt, world_upd_stdout (fun o => o ++ [s]) w).

(** ** Running an action *)

Lemma io_bind_ok {A B} (m : io A) (f : A -> io B) w x w' :
  m w = (Ok x, w') -> (m ≫= f) w = f x w'.
Proof. intros E. unfold mbind, io_bind. by rewrite E. Qed.

Lemma io_bind_raise {A B} (m : io A) (f : A -> io B) w e w' :
  m w = (Raise e, w') -> (m ≫= f) w = (Raise e, w').
Proof. intros E. unfold mbind, io_bind. by rewrite E. Qed.

(** ** Frames: what an action may change *)

(** [m] creates no directory and changes no file but [out]. *)
Definition frame (out : pystr) {A} (m : io A) : Prop :=
  forall w, dirs (m w).2 = dirs w /\ forall p, p <> out -> files (m w).2 !! p = files w !! p.

Create HintDb frame discriminated.

Lemma frame_bind {A B} out (m : io A) (f : A -> io B) :
  frame out m -> (forall x, frame out (f x)) -> frame out (m ≫= f).
Proof.
  intros Hm Hf w. unfold mbind, io_bind. destruct (Hm w) as [Hd Hp].
  destruct (m w) as [[x|e] w'] eqn:E; cbn in *; [|done].
  destruct (Hf x w') as [Hd' Hp']. split; [congruence|]. intros p Hne. by rewrite Hp', Hp.
Qed.

Lemma frame_peek {A} out (g : world -> res A) : frame out (fun w => (g w, w)).
Proof. done. Qed.

Lemma frame_lift {A} out (r : res A) : frame out (lift r).
Proof. done. Qed.

Lemma frame_print out s : frame out (print s).
Proof. done. Qed.

Lemma frame_write_file out b : frame out (write_file out b).
Proof.
  intros w. unfold write_file. destruct (can_create w out); [|done].
  split; [done|]. intros p Hne. unfold world_upd_files. cbn [fst files]. by apply lookup_insert_ne.
Qed.

#[export] Hint Resolve frame_bind frame_peek frame_lift frame_print frame_write_file : frame.

(** ** The code *)

(** '成功更新' and '个节点' *)
Definition msg_updated_pre : pystr := [25104; 21151; 26356; 26032].
Definition msg_updated_post : pystr := [20010; 33410; 28857].
(** '文件已导出至 ' *)
Definition msg_exported : pystr := [25991; 20214; 24050; 23548; 20986; 33267; 32].

Section Main.
Variable stamp : pystr.
Variable today : pystr.
Variable base_dir : pystr.
Variable fetch : pystr -> res pystr.
Variable fetch_bytes : pystr -> res pybytes.
Variable yaml_load : pystr -> res pyval.
Variable json_loads : pystr -> res pyval.
Variable yaml_dump : pyval -> res pybytes.

Definition log (msg : pystr) : io unit :=
  print (lit "[" ++ stamp ++ lit "] " ++ msg).

Definition save_to_file (file_name : pystr) (content : pybytes) : io unit :=
  write_file file_name content.

Definition save_config (path : pystr) (data : pyval) : io unit :=
  config ← lift (yaml_dump data);
  _ ← save_to_file path config;
  n ← lift (p <- py_getitem data k_proxies ;; py_len p);
  log (msg_updated_pre ++ str_of_nat n ++ msg_updated_post).

Definition sub_url : pystr := lit "https://raw.fastgit.org/freefq/free/master/v2".
Definition config_url : pystr :=
  lit "https://cdn.jsdelivr.net/gh/Celeter/convert2clash@master/config.yaml".
Definition config_path : pystr := lit "./config.yaml".
Definition output_path : pystr :=
  base_dir ++ lit "/result/freefq/output_" ++ today ++ lit ".yaml".

Definition main : io unit :=
  final_config ← (fun w => (Template.pipeline (read_text w) fetch_bytes yaml_load fetch json_loads
                             sub_url config_url config_path, w));
  _ ← save_config output_path final_config;
  print (msg_exported ++ config_path).

End Main.

(** The configuration written on success holds a [proxies] list. *)
Lemma merge_spec_proxies f t :
  wf_model t = true ->
  py_getitem (merge_spec f t) k_proxies = Ok (VList (members (field t k_proxies) ++ proxy_list f)).
Proof.
  destruct t as [| | | | |d]; try discriminate. intros _. cbn [merge_spec py_getitem].
  rewrite dget_dset_ne by (symmetry; apply k_proxies_groups). by rewrite dget_dset_eq.
Qed.

(** ** Theorems *)

Section MainTheorems.
Variable stamp today base_dir : pystr.
Variable fetch : pystr -> res pystr.
Variable fetch_bytes : pystr -> res pybytes.
Variable yaml_load : pystr -> res pyval.
Variable json_loads : pystr -> res pyval.
Variable yaml_dump : pyval -> res pybytes.

Let run := main stamp today base_dir fetch fetch_bytes yaml_load json_loads yaml_dump.

(** C32: the program changes no file but the output file
    [BASE_DIR/result/freefq/output_<date>.yaml] and creates no directory,
    whatever the network, the parsers and the files do. *)
Theorem main_frame w p :
  p <> output_path today base_dir ->
  files (run w).2 !! p = files w !! p /\ dirs (run w).2 = dirs w.
Proof.
  intros Hp. enough (H : frame (output_path today base_dir) run).
  { destruct (H w) as [Hd Hf]. by split; [apply Hf|]. }
  unfold run, main, save_config, save_to_file, log. eauto 10 with frame.
Qed.

(** [save_config] when the dump succeeds and the file can be created:
    the file is written and the count is logged. *)
Lemma save_config_ok path data b n w :
  yaml_dump data = Ok b -> can_create w path = true ->
  (p <- py_getitem data k_proxies ;; py_len p) = Ok n ->
  save_config stamp yaml_dump path data w =
  (Ok tt, mk_world (<[path := b]> (files w)) (dirs w)
     (stdout w ++ [lit "[" ++ stamp ++ lit "] " ++ msg_updated_pre ++ str_of_nat n ++ msg_updated_post])).
Proof.
  intros Hd Hc Hn. unfold save_config. erewrite io_bind_ok by (unfold lift; by rewrite Hd).
  erewrite io_bind_ok by (unfold save_to_file, write_file; by rewrite Hc).
  erewrite io_bind_ok by (unfold lift; by rewrite Hn). done.
Qed.

(** [save_config] when the output directory is missing: nothing changes. *)
Lemma save_config_no_dir path data b w :
  yaml_dump data = Ok b -> can_create w path = false ->
  save_config stamp yaml_dump path data w = (Raise FileNotFoundError, w).
Proof.
  intros Hd Hc. unfold save_config. erewrite io_bind_ok by (unfold lift; by rewrite Hd).
  erewrite io_bind_raise; [done|]. unfold save_to_file, write_file. by rewrite Hc.
Qed.

(** The pipeline's result on the inputs of C1. *)
Lemma main_pipeline w f t :
  Aggregator.get_proxies fetch yaml_load json_loads sub_url = Ok f ->
  (exists t', Template.remote_config fetch_bytes yaml_load config_url = Ok t') \/
    Template.remote_config fetch_bytes yaml_load config_url = Raise RequestException ->
  Template.load_local_config (read_text w) yaml_load config_path = Ok t -> wf_model t = true ->
  Template.pipeline (read_text w) fetch_bytes yaml_load fetch json_loads sub_url config_url config_path =
  Ok (merge_spec f t).
Proof.
  intros Hf Hr Hl Hwf. unfold Template.pipeline. rewrite bool_decide_false by done.
  rewrite Hf. cbv beta iota. rewrite Template.get_default_config_local, Hl by done. cbv beta iota.
  by apply add_proxies_spec.
Qed.

(** C33: on the inputs of C1 (the subscription yields the feed [f], the
    local template [t] is well formed, the remote phase succeeds or
    fails on the network), when [yaml.dump] serialises the merged
    configuration to [b] and the output directory exists, the program
    ends normally: the output file holds [b], no other file or directory
    changes, and it prints two lines, the count of proxies in the
    configuration and "exported to" followed by the template's path
    ./config.yaml rather than the output file's. *)
Theorem main_writes_merge w f t b :
  Aggregator.get_proxies fetch yaml_load json_loads sub_url = Ok f ->
  (exists t', Template.remote_config fetch_bytes yaml_load config_url = Ok t') \/
    Template.remote_config fetch_bytes yaml_load config_url = Raise RequestException ->
  Template.load_local_config (read_text w) yaml_load config_path = Ok t -> wf_model t = true ->
  yaml_dump (merge_spec f t) = Ok b -> can_create w (output_path today base_dir) = true ->
  run w = (Ok tt, mk_world (<[output_path today base_dir := b]> (files w)) (dirs w)
    (stdout w ++
     [lit "[" ++ stamp ++ lit "] " ++ msg_updated_pre ++
        str_of_nat (length (members (field t k_proxies) ++ proxy_list f)) ++ msg_updated_post;
      msg_exported ++ config_path])).
Proof.
  intros Hf Hr Hl Hwf Hd Hc. unfold run, main.
  erewrite io_bind_ok by (cbv beta; by rewrite (main_pipeline w f t)).
  erewrite io_bind_ok by (apply save_config_ok; [done|done|by rewrite merge_spec_proxies]).
  unfold print. cbn. by rewrite <- app_assoc.
Qed.

(** C34: when the output directory does not exist, the program raises
    FileNotFoundError after it fetched, decoded and merged everything,
    and no file or directory has changed: the configuration is lost.
    (The console is not part of the claim: the log lines of the pure
    functions are not modelled.) *)
Theorem main_no_output_dir w c b :
  Template.pipeline (read_text w) fetch_bytes yaml_load fetch json_loads
    sub_url config_url config_path = Ok c ->
  yaml_dump c = Ok b -> can_create w (output_path today base_dir) = false ->
  (run w).1 = Raise FileNotFoundError /\ files (run w).2 = files w /\ dirs (run w).2 = dirs w.
Proof.
  intros Hp Hd Hc. unfold run, main. erewrite io_bind_ok by (cbv beta; by rewrite Hp).
  erewrite io_bind_raise; [done|]. by apply (save_config_no_dir _ _ b).
Qed.

(** C38: when ./config.yaml is missing, the program exits
    ([sys.exit()], SystemExit) without writing anything, even though the
    remote template was downloaded and parsed: the spec aborts only when
    no template is obtainable from either source. *)
Theorem main_no_local_template w f t' :
  Aggregator.get_proxies fetch yaml_load json_loads sub_url = Ok f ->
  Template.remote_config fetch_bytes yaml_load config_url = Ok t' ->
  files w !! config_path = None ->
  run w = (Raise SystemExit, w).
Proof.
  intros Hf Hr Hn. unfold run, main. erewrite io_bind_raise; [done|]. cbv beta.
  unfold Template.pipeline. rewrite bool_decide_false by done. rewrite Hf. cbv beta iota.
  rewrite Template.get_default_config_local by eauto.
  unfold Template.load_local_config, read_text.
  match goal with |- context [files w !! ?k] => replace (files w !! k) with (@None pybytes) by (symmetry; exact Hn) end.
  done.
Qed.

End MainTheorems.
(** ** Witnesses: a machine with the template and the output directory *)

Definition w_dump (v : pyval) : res pybytes := Ok (lit "dump").
Definition w_base : pystr := lit "/srv".
Definition w_today : pystr := lit "2024-01-01".

(** The world: ./config.yaml holds the text [tpl] that [w_yaml] parses
    to [sample_template], and /srv/result/freefq exists. *)
Definition w_world : world :=
  mk_world {[config_path := lit "tpl"]} {[lit "/srv/result/freefq"]} [].

Definition w_main : io unit :=
  main (lit "T") w_today w_base Template.w_fetch Template.w_offline Template.w_yaml
    Aggregator.no_json w_dump.

Definition w_main_feed : feed :=
  match Aggregator.get_proxies Template.w_fetch Template.w_yaml Aggregator.no_json sub_url with
  | Ok f => f | Raise _ => empty_feed end.

Lemma main_frame_witness :
  files (w_main w_world).2 !! config_path = files w_world !! config_path /\
  dirs (w_main w_world).2 = dirs w_world.
Proof. apply main_frame. vm_compute. discriminate. Defined.

Lemma main_writes_merge_witness :
  w_main w_world =
  (Ok tt, mk_world (<[output_path w_today w_base := lit "dump"]> (files w_world)) (dirs w_world)
    (stdout w_world ++
     [lit "[" ++ lit "T" ++ lit "] " ++ msg_updated_pre ++
        str_of_nat (length (members (field sample_template k_proxies) ++ proxy_list w_main_feed)) ++
        msg_updated_post;
      msg_exported ++ config_path])).
Proof.
  apply main_writes_merge; try (vm_compute; reflexivity). right. reflexivity.
Defined.

(** The same machine without the output directory. *)
Definition w_nodir : world := mk_world (files w_world) ∅ [].

Lemma main_no_output_dir_witness :
  (w_main w_nodir).1 = Raise FileNotFoundError /\
  files (w_main w_nodir).2 = files w_nodir /\ dirs (w_main w_nodir).2 = dirs w_nodir.
Proof.
  apply (main_no_output_dir _ _ _ _ _ _ _ _ _ (merge_spec w_main_feed sample_template) (lit "dump"));
    vm_compute; reflexivity.
Defined.

(** The remote template is online. *)
Definition w_online (u : pystr) : res pybytes := Ok (lit "tpl").

Lemma main_no_local_template_witness :
  main (lit "T") w_today w_base Template.w_fetch w_online Template.w_yaml
    Aggregator.no_json w_dump (mk_world ∅ (dirs w_world) []) =
  (Raise SystemExit, mk_world ∅ (dirs w_world) []).
Proof.
  apply (main_no_local_template _ _ _ _ _ _ _ _ _ w_main_feed sample_template);
    vm_compute; reflexivity.
Defined.

End Main.
